(** * Model lifecycle core of chinese-bert-tf: registry, bundle loading, predictor

    A shallow embedding of
      - src/models/trainer.py   (ModelTrainer.save_model, _update_model_registry,
                                 load_best_model)
      - src/api/predictor.py    (ModelPredictor)
      - src/api/main.py         (the /predict and /predict/batch endpoints)
      - src/data/data_loader.py (the data sources, DataVersionControl, DataLoader)
    The Python methods mutate [self], read and write files, log, and raise
    exceptions; they are written here in a state-and-exception monad over a
    state that holds the predictor object, the file system, the clock and
    the trace of observable events.  Floats that the code only stores,
    compares and sums (validation accuracies, class probabilities, times)
    are represented by their exact rational value. *)

From Stdlib Require Import ZArith QArith Qabs Lia List Ascii String.
From Stdlib Require Import Sorting.Sorted Sorting.Permutation.
From stdpp Require Import base gmap strings.
Import ListNotations.

Local Open Scope string_scope.
Local Open Scope list_scope.

(** ** Records stored in the registry and in the artifact directory *)

(** The dict [model_info] built by [ModelTrainer.save_model]. *)
Record ModelInfo := {
  model_version : string;
  model_type : string;
  framework : string;
  val_accuracy : Q;
  vocab_size : Z;
  num_classes : Z;
  classes : list string;
  max_sequence_length : Z;
  training_config : list (string * string);
  created_at : string;
  model_path : string;
  status : string
}.

(** The dict stored in registry.json: keys 'models' and 'latest'. *)
Record Registry := {
  models : list ModelInfo;
  latest : option string
}.

(** The dict stored in vectorize_config.json. *)
Record VectorizeConfig := {
  max_tokens : Z;
  output_mode : string;
  output_sequence_length : Z;
  vocabulary : list string
}.

(** sklearn's LabelEncoder, as far as the predictor reads it. *)
Record LabelEncoder := {
  classes_ : list string
}.

(** ** Exceptions *)

(** The Python exceptions the modelled code raises or catches.  The
    messages of the exceptions the repository raises itself are kept as
    constructors; the Chinese text of each is quoted next to it. *)
Inductive exn :=
  | FileNotFoundError (what : file_error)
  | JSONDecodeError
  | UnpicklingError
  | KeyError (key : string)
  | IndexError
  | ValueError
  | TypeError
  | AttributeError
  | FrameworkError (code : Z)
  | RuntimeError (m : runtime_msg)
  | HTTPException (status_code : Z) (detail : http_detail)
with file_error :=
  | NoSuchFile (filename : string)     (* [Errno 2] No such file or directory: '{filename}' *)
  | MsgRegistryMissing                 (* 模型注册表不存在 *)
with runtime_msg :=
  | MsgModelNotLoaded                  (* 模型未加载，请先调用 load_best_model() *)
  | MsgPredictFailed (e : exn)         (* 预测失败: {str(e)} *)
  | MsgBatchPredictFailed (e : exn)    (* 批量预测失败: {str(e)} *)
with http_detail :=
  | DetailModelNotLoaded               (* 模型未加载，请稍后再试 *)
  | DetailMissingText                  (* 缺少text字段 *)
  | DetailMissingTexts                 (* 缺少texts字段 *)
  | DetailBatchTooLarge                (* 批量预测最多支持100个文本 *)
  | DetailPredictFailed (e : exn)      (* 预测失败: {str(e)} *)
  | DetailBatchPredictFailed (e : exn) (* 批量预测失败: {str(e)} *).

(** [isinstance(e, HTTPException)], for the clause [except HTTPException: raise]. *)
Definition is_HTTPException (e : exn) : bool :=
  match e with HTTPException _ _ => true | _ => false end.

Inductive result (A : Type) :=
  | Ok (a : A)
  | Raise (e : exn).
Arguments Ok {A} a.
Arguments Raise {A} e.

(** ** Handles of the numerical framework *)

(** A loaded Keras model: [model.predict(batch, verbose=0)] maps a batch of
    token-id rows to one row of class probabilities per input row, or
    raises. *)
Record Model := {
  model_id : string;
  model_predict : list (list Z) -> result (list (list Q))
}.

(** A TextVectorization layer: calling it on a list of texts gives one
    token-id row per text, or raises. *)
Record VectorizeLayer := {
  vectorize_call : list string -> result (list (list Z))
}.

(** What the code takes from outside the repository: the constructor of
    the TextVectorization layer and the wall clock ([time.time()], as the
    value of its n-th reading). *)
Class Runtime := {
  TextVectorization : Z -> string -> Z -> list string -> result VectorizeLayer;
  time_time : nat -> Q
}.

(** ** Files *)

(** A parsed JSON document, by the shape the code indexes it with.
    [JOther] stands for every other document: an object that lacks the
    keys, a list, null.  The model does not tell these apart, and the
    exception it raises on one of them is that of the first key the code
    indexes. *)
Inductive json :=
  | JRegistry (r : Registry)
  | JVectorizeConfig (c : VectorizeConfig)
  | JOther.

(** The content of a file, by what each loader makes of it.  A pickle is
    a fitted label encoder, as the trainer writes it; a file that
    unpickles to another object is not among the files of the model. *)
Inductive file :=
  | JsonFile (j : json)
  | KerasFile (m : Model)
  | PickleFile (le : LabelEncoder)
  | Garbage.

Abbreviation filesystem := (gmap string file).

(** [Path(p) / name] *)
Definition path_join (p name : string) : string :=
  String.append p (String.append "/" name).

(** [s.replace('\\', '/')] *)
Fixpoint replace_backslash (s : string) : string :=
  match s with
  | EmptyString => EmptyString
  | String c s' =>
      String (if Ascii.eqb c "\"%char then "/"%char else c) (replace_backslash s')
  end.

(** ** The predictor object, log records, and the machine state *)

Record Predictor := {
  model_registry_path : string;
  model : option Model;
  label_encoder : option LabelEncoder;
  vectorize_config : option json;
  vectorize_layer : option VectorizeLayer;
  loaded : bool
}.

(** [ModelPredictor.__init__] *)
Definition Predictor_init (registry_path : string) : Predictor :=
  {| model_registry_path := registry_path;
     model := None;
     label_encoder := None;
     vectorize_config := None;
     vectorize_layer := None;
     loaded := false |}.

Inductive log_message :=
  | LogRegistryMissing                       (* 模型注册表不存在 *)
  | LogNoModels                              (* 没有可用的模型 *)
  | LogLoadBestFailed (e : exn)              (* 加载最佳模型失败: {e} *)
  | LogVersionMissing (v : string)           (* 模型版本 {v} 不存在 *)
  | LogLoadVersionFailed (v : string) (e : exn) (* 加载模型版本 {v} 失败: {e} *)
  | LogLoading (v : string)                  (* 加载模型: {v} *)
  | LogModelFileMissing (f : string)         (* 模型文件不存在: {f} *)
  | LogLoadOk (cls : list string)            (* 模型加载成功 - 类别: {...} *)
  | LogLoadFailed (e : exn)                  (* 模型加载失败: {e} *)
  | LogPredictFailed (e : exn)               (* 预测失败: {e} *)
  | LogBatchPredictFailed (e : exn)          (* 批量预测失败: {e} *)
  | LogListFailed (e : exn)                  (* 获取模型列表失败: {e} *)
  | LogUnloaded                              (* 模型已卸载 *)
  | LogRegistryUpdated (v : string)          (* 模型注册表已更新: {v} *).

Inductive event :=
  | LogError (m : log_message)
  | LogInfo (m : log_message)
  | Vectorized (texts : list string)
  | Inference (m : string) (batch : list (list Z)).

Record state := {
  predictor : Predictor;
  fs : filesystem;
  clock : nat;
  trace : list event
}.

(** ** The monad: state passing with exceptions *)

Definition M (A : Type) : Type := state -> result A * state.

Definition ret {A} (a : A) : M A := fun s => (Ok a, s).

Definition bind {A B} (m : M A) (k : A -> M B) : M B :=
  fun s => match m s with
           | (Ok a, s') => k a s'
           | (Raise e, s') => (Raise e, s')
           end.

Definition raise {A} (e : exn) : M A := fun s => (Raise e, s).

(** [try: body except Exception as e: handler e].  What [body] did to the
    state before it raised stays done. *)
Definition try_except {A} (body : M A) (handler : exn -> M A) : M A :=
  fun s => match body s with
           | (Ok a, s') => (Ok a, s')
           | (Raise e, s') => handler e s'
           end.

Definition lift {A} (r : result A) : M A := fun s => (r, s).

Declare Scope monad_scope.
Delimit Scope monad_scope with monad.
Notation "x <- m ;; k" := (bind m (fun x => k))
  (at level 100, m at next level, k at level 200, right associativity)
  : monad_scope.
Notation "m ;; k" := (bind m (fun _ => k))
  (at level 100, k at level 200, right associativity) : monad_scope.
Local Open Scope monad_scope.

Definition get_self : M Predictor := fun s => (Ok (predictor s), s).

Definition set_self (f : Predictor -> Predictor) : M unit :=
  fun s => (Ok tt, {| predictor := f (predictor s); fs := fs s;
                      clock := clock s; trace := trace s |}).

Definition emit (e : event) : M unit :=
  fun s => (Ok tt, {| predictor := predictor s; fs := fs s;
                      clock := clock s; trace := trace s ++ [e] |}).

Definition logger_error (m : log_message) : M unit := emit (LogError m).
Definition logger_info (m : log_message) : M unit := emit (LogInfo m).

(** [time.time()] *)
Definition now `{Runtime} : M Q :=
  fun s => (Ok (time_time (clock s)),
            {| predictor := predictor s; fs := fs s;
               clock := S (clock s); trace := trace s |}).

(** [p.exists()] *)
Definition path_exists (p : string) : M bool :=
  fun s => (Ok (bool_decide (is_Some (fs s !! p))), s).

(** [with open(p) as f: json.load(f)] *)
Definition json_load (p : string) : M json :=
  fun s => match fs s !! p with
           | None => (Raise (FileNotFoundError (NoSuchFile p)), s)
           | Some (JsonFile j) => (Ok j, s)
           | Some _ => (Raise JSONDecodeError, s)
           end.

(** [with open(p, 'w') as f: json.dump(j, f)] *)
Definition json_dump (j : json) (p : string) : M unit :=
  fun s => (Ok tt, {| predictor := predictor s; fs := <[p := JsonFile j]> (fs s);
                      clock := clock s; trace := trace s |}).

(** [with open(p, 'rb') as f: pickle.load(f)] *)
Definition pickle_load (p : string) : M LabelEncoder :=
  fun s => match fs s !! p with
           | None => (Raise (FileNotFoundError (NoSuchFile p)), s)
           | Some (PickleFile le) => (Ok le, s)
           | Some _ => (Raise UnpicklingError, s)
           end.

(** [tf.keras.models.load_model(p)] *)
Definition keras_load_model (p : string) : M Model :=
  fun s => match fs s !! p with
           | Some (KerasFile m) => (Ok m, s)
           | _ => (Raise ValueError, s)
           end.

(** [registry['models']] on a parsed document *)
Definition json_models (j : json) : result (list ModelInfo) :=
  match j with
  | JRegistry r => Ok (models r)
  | _ => Raise (KeyError "models")
  end.

(** ** Python's [list.sort(key=lambda x: x['val_accuracy'], reverse=True)]

    The sort is stable, also with [reverse=True]: entries of equal key
    keep their order.  It is written as the stable insertion sort. *)

Fixpoint insert_desc (x : ModelInfo) (l : list ModelInfo) : list ModelInfo :=
  match l with
  | [] => [x]
  | y :: l' =>
      if Qle_bool (val_accuracy y) (val_accuracy x)
      then x :: y :: l'
      else y :: insert_desc x l'
  end.

Fixpoint sort_by_val_accuracy_reverse (l : list ModelInfo) : list ModelInfo :=
  match l with
  | [] => []
  | x :: l' => insert_desc x (sort_by_val_accuracy_reverse l')
  end.

(** ** src/models/trainer.py *)

Module ModelTrainer.

(** The part of the trainer object that the registry code reads. *)
Record ModelTrainer := {
  model_registry_path : string
}.

Definition registry_file (self : ModelTrainer) : string :=
  path_join (model_registry_path self) "registry.json".

(** The list that [_update_model_registry] starts from: the stored one,
    or the empty list of the fresh registry when there is no file.
    [None] when the file cannot be read as a registry. *)
Definition stored_models (self : ModelTrainer) (s : state)
  : option (list ModelInfo) :=
  match fs s !! registry_file self with
  | None => Some []
  | Some (JsonFile (JRegistry r)) => Some (models r)
  | Some _ => None
  end.

(** [_update_model_registry(self, model_info)] *)
Definition _update_model_registry (self : ModelTrainer) (model_info : ModelInfo)
  : M unit :=
  ex <- path_exists (registry_file self) ;;
  registry <- (if ex : bool then json_load (registry_file self)
               else ret (JRegistry {| models := []; latest := None |})) ;;
  ms <- lift (json_models registry) ;;
  let ms := ms ++ [model_info] in
  let ms := sort_by_val_accuracy_reverse ms in
  json_dump (JRegistry {| models := ms;
                          latest := Some (model_version model_info) |})
            (registry_file self) ;;
  logger_info (LogRegistryUpdated (model_version model_info)).

(** A run of the trainer's saves, one registry update per trained model. *)
Fixpoint appends (self : ModelTrainer) (infos : list ModelInfo) : M unit :=
  match infos with
  | [] => ret tt
  | i :: rest => _update_model_registry self i ;; appends self rest
  end.

(** [load_best_model(self)] of the trainer, up to the choice of the
    entry: raises when the registry file is missing, unparsable or
    empty. *)
Definition load_best_model (self : ModelTrainer) : M ModelInfo :=
  ex <- path_exists (registry_file self) ;;
  if ex : bool then
    registry <- json_load (registry_file self) ;;
    ms <- lift (json_models registry) ;;
    match ms with
    | [] => raise ValueError
    | best_model_info :: _ => ret best_model_info
    end
  else raise (FileNotFoundError MsgRegistryMissing).

End ModelTrainer.

(** ** numpy and sklearn operations the predictor calls *)

(** [a[i]] on a Python list or numpy array *)
Definition index {A} (l : list A) (i : nat) : result A :=
  match l !! i with
  | Some x => Ok x
  | None => Raise IndexError
  end.

(** [np.argmax(row)]: the first position of a largest entry. *)
Fixpoint argmax_from (best_i : nat) (best : Q) (i : nat) (l : list Q) : nat :=
  match l with
  | [] => best_i
  | x :: l' =>
      if Qle_bool x best
      then argmax_from best_i best (S i) l'
      else argmax_from i x (S i) l'
  end.

Definition np_argmax (row : list Q) : result nat :=
  match row with
  | [] => Raise ValueError
  | x :: l => Ok (argmax_from 0 x 1 l)
  end.

(** [le.inverse_transform([i])[0]]: sklearn raises ValueError on an index
    outside [range(len(classes_))]. *)
Definition inverse_transform (le : LabelEncoder) (i : nat) : result string :=
  match classes_ le !! i with
  | Some c => Ok c
  | None => Raise ValueError
  end.

(** A Python dict from class name to probability: insertion-ordered,
    assignment to a key already present overwrites its value in place. *)
Definition dict := list (string * Q).

Fixpoint dict_set (k : string) (v : Q) (d : dict) : dict :=
  match d with
  | [] => [(k, v)]
  | (k', v') :: d' =>
      if String.eqb k k' then (k', v) :: d' else (k', v') :: dict_set k v d'
  end.

Fixpoint dict_get (k : string) (d : dict) : option Q :=
  match d with
  | [] => None
  | (k', v') :: d' => if String.eqb k k' then Some v' else dict_get k d'
  end.

Definition dict_values (d : dict) : list Q := map snd d.

Definition Qsum (l : list Q) : Q := fold_right Qplus 0%Q l.

(** The loop
      for i, class_name in enumerate(classes_):
          class_probabilities[class_name] = float(row[i]) *)
Fixpoint class_probabilities_loop
    (row : list Q) (i : nat) (cls : list string) (d : dict) : result dict :=
  match cls with
  | [] => Ok d
  | class_name :: cls' =>
      match index row i with
      | Ok p => class_probabilities_loop row (S i) cls' (dict_set class_name p d)
      | Raise e => Raise e
      end
  end.

(** ** src/api/predictor.py *)

(** Return value of [predict]. *)
Record PredictionResult := {
  text : string;
  predicted_class : string;
  confidence : Q;
  class_probabilities : dict;
  processing_time : Q
}.

(** One element of 'results' in the return value of [predict_batch]: the
    dict literal has these four keys. *)
Record BatchItem := {
  item_text : string;
  item_predicted_class : string;
  item_confidence : Q;
  item_class_probabilities : dict
}.

(** Return value of [predict_batch]. *)
Record BatchResult := {
  results : list BatchItem;
  total_texts : nat;
  batch_processing_time : Q
}.

(** Return value of [get_model_info]. *)
Inductive ModelStatus :=
  | NotLoaded
  | Loaded (cls : list string) (n_classes : nat) (vocab : Z) (max_len : Z).

Definition set_model (m : option Model) (p : Predictor) : Predictor :=
  {| model_registry_path := model_registry_path p;
     model := m;
     label_encoder := label_encoder p;
     vectorize_config := vectorize_config p;
     vectorize_layer := vectorize_layer p;
     loaded := loaded p |}.

Definition set_label_encoder (le : option LabelEncoder) (p : Predictor) : Predictor :=
  {| model_registry_path := model_registry_path p;
     model := model p;
     label_encoder := le;
     vectorize_config := vectorize_config p;
     vectorize_layer := vectorize_layer p;
     loaded := loaded p |}.

Definition set_vectorize_config (c : option json) (p : Predictor) : Predictor :=
  {| model_registry_path := model_registry_path p;
     model := model p;
     label_encoder := label_encoder p;
     vectorize_config := c;
     vectorize_layer := vectorize_layer p;
     loaded := loaded p |}.

Definition set_vectorize_layer (l : option VectorizeLayer) (p : Predictor) : Predictor :=
  {| model_registry_path := model_registry_path p;
     model := model p;
     label_encoder := label_encoder p;
     vectorize_config := vectorize_config p;
     vectorize_layer := l;
     loaded := loaded p |}.

Definition set_loaded (b : bool) (p : Predictor) : Predictor :=
  {| model_registry_path := model_registry_path p;
     model := model p;
     label_encoder := label_encoder p;
     vectorize_config := vectorize_config p;
     vectorize_layer := vectorize_layer p;
     loaded := b |}.

Module ModelPredictor.
Section WithRuntime.
Context `{Runtime}.

Definition registry_file (self : Predictor) : string :=
  path_join (model_registry_path self) "registry.json".

(** [self.vectorize_layer(texts)] *)
Definition call_vectorize_layer (texts : list string) : M (list (list Z)) :=
  self <- get_self ;;
  match vectorize_layer self with
  | None => raise TypeError
  | Some layer => emit (Vectorized texts) ;; lift (vectorize_call layer texts)
  end.

(** [self.model.predict(batch, verbose=0)] *)
Definition call_model_predict (batch : list (list Z)) : M (list (list Q)) :=
  self <- get_self ;;
  match model self with
  | None => raise AttributeError
  | Some m => emit (Inference (model_id m) batch) ;; lift (model_predict m batch)
  end.

(** [self.label_encoder], dereferenced *)
Definition the_label_encoder : M LabelEncoder :=
  self <- get_self ;;
  match label_encoder self with
  | None => raise AttributeError
  | Some le => ret le
  end.

(** [_create_vectorize_layer(self)] *)
Definition _create_vectorize_layer : M unit :=
  self <- get_self ;;
  match vectorize_config self with
  | Some (JVectorizeConfig c) =>
      layer <- lift (TextVectorization (max_tokens c) (output_mode c)
                       (output_sequence_length c) (vocabulary c)) ;;
      set_self (set_vectorize_layer (Some layer))
  | Some _ => raise (KeyError "max_tokens")
  | None => raise TypeError
  end.

(** [_load_model_from_info(self, model_info)] *)
Definition _load_model_from_info (model_info : ModelInfo) : M bool :=
  try_except
    (let model_path_str := replace_backslash (model_path model_info) in
     logger_info (LogLoading (model_version model_info)) ;;
     let model_file := path_join model_path_str "model.keras" in
     ex <- path_exists model_file ;;
     if negb ex then
       logger_error (LogModelFileMissing model_file) ;;
       ret false
     else
       m <- keras_load_model model_file ;;
       set_self (set_model (Some m)) ;;
       let label_encoder_file := path_join model_path_str "label_encoder.pkl" in
       le <- pickle_load label_encoder_file ;;
       set_self (set_label_encoder (Some le)) ;;
       let vectorize_config_file :=
         path_join model_path_str "vectorize_config.json" in
       c <- json_load vectorize_config_file ;;
       set_self (set_vectorize_config (Some c)) ;;
       _create_vectorize_layer ;;
       set_self (set_loaded true) ;;
       le' <- the_label_encoder ;;
       logger_info (LogLoadOk (classes_ le')) ;;
       ret true)
    (fun e => logger_error (LogLoadFailed e) ;; ret false).

(** [load_best_model(self)] *)
Definition load_best_model : M bool :=
  try_except
    (self <- get_self ;;
     ex <- path_exists (registry_file self) ;;
     if negb ex then
       logger_error LogRegistryMissing ;;
       ret false
     else
       registry <- json_load (registry_file self) ;;
       ms <- lift (json_models registry) ;;
       match ms with
       | [] => logger_error LogNoModels ;; ret false
       | best_model_info :: _ => _load_model_from_info best_model_info
       end)
    (fun e => logger_error (LogLoadBestFailed e) ;; ret false).

(** The loop of [load_model_by_version]: the first entry with the
    requested version. *)
Fixpoint find_version (v : string) (ms : list ModelInfo) : option ModelInfo :=
  match ms with
  | [] => None
  | model_info :: rest =>
      if String.eqb (model_version model_info) v then Some model_info
      else find_version v rest
  end.

(** [load_model_by_version(self, model_version)] *)
Definition load_model_by_version (version : string) : M bool :=
  try_except
    (self <- get_self ;;
     ex <- path_exists (registry_file self) ;;
     if negb ex then
       logger_error LogRegistryMissing ;;
       ret false
     else
       registry <- json_load (registry_file self) ;;
       ms <- lift (json_models registry) ;;
       match find_version version ms with
       | None => logger_error (LogVersionMissing version) ;; ret false
       | Some target_model => _load_model_from_info target_model
       end)
    (fun e => logger_error (LogLoadVersionFailed version e) ;; ret false).

(** [predict(self, text)] *)
Definition predict (text_ : string) : M PredictionResult :=
  self <- get_self ;;
  if negb (loaded self) then raise (RuntimeError MsgModelNotLoaded)
  else
    start_time <- now ;;
    try_except
      (vectorized_text <- call_vectorize_layer [text_] ;;
       predictions <- call_model_predict vectorized_text ;;
       row <- lift (index predictions 0) ;;
       predicted_class_idx <- lift (np_argmax row) ;;
       le <- the_label_encoder ;;
       predicted <- lift (inverse_transform le predicted_class_idx) ;;
       conf <- lift (index row predicted_class_idx) ;;
       probs <- lift (class_probabilities_loop row 0 (classes_ le) []) ;;
       end_time <- now ;;
       ret {| text := text_;
              predicted_class := predicted;
              confidence := conf;
              class_probabilities := probs;
              processing_time := (end_time - start_time)%Q |})
      (fun e => logger_error (LogPredictFailed e) ;;
                raise (RuntimeError (MsgPredictFailed e))).

(** The loop [for i, text in enumerate(texts)] of [predict_batch]. *)
Fixpoint batch_loop (predictions : list (list Q)) (i : nat)
    (texts : list string) : M (list BatchItem) :=
  match texts with
  | [] => ret []
  | text_ :: rest =>
      row <- lift (index predictions i) ;;
      predicted_class_idx <- lift (np_argmax row) ;;
      le <- the_label_encoder ;;
      predicted <- lift (inverse_transform le predicted_class_idx) ;;
      conf <- lift (index row predicted_class_idx) ;;
      probs <- lift (class_probabilities_loop row 0 (classes_ le) []) ;;
      tail <- batch_loop predictions (S i) rest ;;
      ret ({| item_text := text_;
              item_predicted_class := predicted;
              item_confidence := conf;
              item_class_probabilities := probs |} :: tail)
  end.

(** [predict_batch(self, texts)] *)
Definition predict_batch (texts : list string) : M BatchResult :=
  self <- get_self ;;
  if negb (loaded self) then raise (RuntimeError MsgModelNotLoaded)
  else
    start_time <- now ;;
    try_except
      (vectorized_texts <- call_vectorize_layer texts ;;
       predictions <- call_model_predict vectorized_texts ;;
       rs <- batch_loop predictions 0 texts ;;
       end_time <- now ;;
       ret {| results := rs;
              total_texts := length texts;
              batch_processing_time := (end_time - start_time)%Q |})
      (fun e => logger_error (LogBatchPredictFailed e) ;;
                raise (RuntimeError (MsgBatchPredictFailed e))).

(** [get_model_info(self)] *)
Definition get_model_info : M ModelStatus :=
  self <- get_self ;;
  if negb (loaded self) then ret NotLoaded
  else
    le <- the_label_encoder ;;
    match vectorize_config self with
    | Some (JVectorizeConfig c) =>
        ret (Loaded (classes_ le) (length (classes_ le))
               (max_tokens c) (output_sequence_length c))
    | Some _ => raise (KeyError "max_tokens")
    | None => raise TypeError
    end.

(** [get_available_models(self)] *)
Definition get_available_models : M (list ModelInfo) :=
  try_except
    (self <- get_self ;;
     ex <- path_exists (registry_file self) ;;
     if negb ex then ret []
     else
       registry <- json_load (registry_file self) ;;
       lift (json_models registry))
    (fun e => logger_error (LogListFailed e) ;; ret []).

(** [unload_model(self)] *)
Definition unload_model : M unit :=
  self <- get_self ;;
  if loaded self then
    set_self (set_model None) ;;
    set_self (set_label_encoder None) ;;
    set_self (set_vectorize_config None) ;;
    set_self (set_vectorize_layer None) ;;
    set_self (set_loaded false) ;;
    logger_info LogUnloaded
  else ret tt.

End WithRuntime.
End ModelPredictor.

(** ** src/api/main.py *)

Module Api.
Section WithRuntime.
Context `{Runtime}.

(** The two [except] clauses shared by both endpoints:
      except HTTPException: raise
      except Exception as e: log; raise HTTPException(500, ...) *)
Definition endpoint_guard {A} (body : M A)
    (log : exn -> log_message) (detail : exn -> http_detail) : M A :=
  try_except body
    (fun e => if is_HTTPException e then raise e
              else logger_error (log e) ;;
                   raise (HTTPException 500 (detail e))).

(** [predict_text(request)] for POST /predict *)
Definition predict_text (request : gmap string string) : M PredictionResult :=
  endpoint_guard
    (p <- get_self ;;
     if negb (loaded p) then raise (HTTPException 503 DetailModelNotLoaded)
     else
       match request !! "text" with
       | None => raise (HTTPException 400 DetailMissingText)
       | Some text_ => ModelPredictor.predict text_
       end)
    LogPredictFailed DetailPredictFailed.

(** [predict_batch(request)] for POST /predict/batch; the response is the
    predictor's result with a 'timestamp' added. *)
Definition predict_batch (request : gmap string (list string))
  : M (BatchResult * Q) :=
  endpoint_guard
    (p <- get_self ;;
     if negb (loaded p) then raise (HTTPException 503 DetailModelNotLoaded)
     else
       match request !! "texts" with
       | None => raise (HTTPException 400 DetailMissingTexts)
       | Some texts =>
           if (100 <? length texts)%nat then
             raise (HTTPException 400 DetailBatchTooLarge)
           else
             result <- ModelPredictor.predict_batch texts ;;
             timestamp <- now ;;
             ret (result, timestamp)
       end)
    LogBatchPredictFailed DetailBatchPredictFailed.

(** [startup_event()], by what it does to the predictor: the call of
    [load_best_model].  The [print] calls around it write to standard
    output, which the state does not hold. *)
Definition startup_event : M bool := ModelPredictor.load_best_model.

End WithRuntime.
End Api.

(** ** A concrete deployment, used to run the code on inputs *)

Module Scenario.

(** A vectorizer that encodes each text by its length, and a model that
    answers every row with the same probabilities. *)
Definition length_layer : VectorizeLayer :=
  {| vectorize_call :=
       fun texts => Ok (map (fun t => [Z.of_nat (String.length t)]) texts) |}.

Definition runtime : Runtime :=
  {| TextVectorization := fun _ _ _ _ => Ok length_layer;
     time_time := fun n => inject_Z (Z.of_nat n) |}.

Definition constant_model (name : string) (row : list Q) : Model :=
  {| model_id := name;
     model_predict := fun batch => Ok (map (fun _ => row) batch) |}.

Definition registry_dir : string := "models/registry".

Definition trainer : ModelTrainer.ModelTrainer :=
  {| ModelTrainer.model_registry_path := registry_dir |}.

Definition labels_v1 : list string := ["life"; "tech"; "weather"].
Definition labels_v2 : list string := ["finance"; "sports"; "travel"].

Definition info (version : string) (acc : Q) (cls : list string) : ModelInfo :=
  {| model_version := version;
     model_type := "chinese_text_classifier";
     framework := "tensorflow";
     val_accuracy := acc;
     vocab_size := 100;
     num_classes := 3;
     classes := cls;
     max_sequence_length := 128;
     training_config := [];
     created_at := "2025-01-01T00:00:00";
     model_path := path_join registry_dir version;
     status := "active" |}.

Definition v1 : ModelInfo := info "v1" (80 # 100) labels_v1.
Definition v2 : ModelInfo := info "v2" (92 # 100) labels_v2.

Definition config : VectorizeConfig :=
  {| max_tokens := 100;
     output_mode := "int";
     output_sequence_length := 128;
     vocabulary := ["a"; "b"] |}.

Definition model_v1 : Model :=
  constant_model "v1" [(7 # 10)%Q; (2 # 10)%Q; (1 # 10)%Q].
Definition model_v2 : Model :=
  constant_model "v2" [(1 # 10)%Q; (1 # 10)%Q; (8 # 10)%Q].

(** The three artifacts that [save_model] writes for a version. *)
Definition save_artifacts (i : ModelInfo) (m : Model) (cls : list string)
    (files : filesystem) : filesystem :=
  <[path_join (model_path i) "vectorize_config.json" :=
      JsonFile (JVectorizeConfig config)]>
  (<[path_join (model_path i) "label_encoder.pkl" :=
      PickleFile {| classes_ := cls |}]>
  (<[path_join (model_path i) "model.keras" := KerasFile m]> files)).

Definition artifacts : filesystem :=
  save_artifacts v2 model_v2 labels_v2
    (save_artifacts v1 model_v1 labels_v1 ∅).

Definition boot (files : filesystem) : state :=
  {| predictor := Predictor_init registry_dir;
     fs := files;
     clock := 0;
     trace := [] |}.

(** v1 trained and registered. *)
Definition registered_v1 : state :=
  snd (ModelTrainer._update_model_registry trainer v1 (boot artifacts)).

(** Both versions trained and registered, v1 first. *)
Definition registered : state :=
  snd (ModelTrainer.appends trainer [v1; v2] (boot artifacts)).

(** The service after the load of its startup event: the best model is
    loaded. *)
Definition serving : state :=
  snd (Api.startup_event (H := runtime) registered).

(** What [predict] answers for one text while v2 serves. *)
Definition hello_result : PredictionResult :=
  {| text := "hello";
     predicted_class := "travel";
     confidence := 8 # 10;
     class_probabilities :=
       [("finance", (1 # 10)%Q); ("sports", (1 # 10)%Q); ("travel", (8 # 10)%Q)];
     processing_time := 1 |}.

Definition after_hello : state :=
  snd (ModelPredictor.predict (H := runtime) "hello" serving).

(** The same, but the label encoder of v2 is gone from the disk. *)
Definition v2_encoder_lost : state :=
  {| predictor := predictor registered;
     fs := delete (path_join (model_path v2) "label_encoder.pkl") (fs registered);
     clock := clock registered;
     trace := trace registered |}.

(** v1 serves, loaded by version while the encoder of v2 is lost. *)
Definition serving_v1 : state :=
  snd (ModelPredictor.load_model_by_version (H := runtime) "v1" v2_encoder_lost).

(** A disk on which registry.json is not JSON. *)
Definition corrupt_registry : state :=
  boot (<[ModelTrainer.registry_file trainer := Garbage]> artifacts).

End Scenario.

(** * Vocabulary of the statements *)

(** The order the registry is kept in. *)
Definition acc_ge (a b : ModelInfo) : Prop :=
  (val_accuracy b <= val_accuracy a)%Q.

Definition sorted_desc (l : list ModelInfo) : Prop := StronglySorted acc_ge l.

(** The files of a version, as [_load_model_from_info] names them. *)
Definition artifact_dir (model_info : ModelInfo) : string :=
  replace_backslash (model_path model_info).
Definition weights_file (model_info : ModelInfo) : string :=
  path_join (artifact_dir model_info) "model.keras".
Definition encoder_file (model_info : ModelInfo) : string :=
  path_join (artifact_dir model_info) "label_encoder.pkl".
Definition config_file (model_info : ModelInfo) : string :=
  path_join (artifact_dir model_info) "vectorize_config.json".

(** The four steps that [predict] and the loop of [predict_batch] both take
    on a row: argmax, label of the argmax, its probability, the mapping. *)
Definition classify (le : LabelEncoder) (row : list Q) : result (string * Q * dict) :=
  match np_argmax row with
  | Raise e => Raise e
  | Ok idx =>
      match inverse_transform le idx with
      | Raise e => Raise e
      | Ok predicted =>
          match index row idx with
          | Raise e => Raise e
          | Ok conf =>
              match class_probabilities_loop row 0 (classes_ le) [] with
              | Raise e => Raise e
              | Ok probs => Ok (predicted, conf, probs)
              end
          end
      end
  end.

(** The contract of the network the trainer builds, whose last layer is
    [Dense(num_classes, activation='softmax')]: every output row has one
    entry per class and sums to 1 within 1e-3. *)
Definition softmax_model (n : nat) (m : Model) : Prop :=
  forall batch preds row,
    model_predict m batch = Ok preds -> In row preds ->
    length row = n /\ (Qabs (Qsum row - 1) <= 1 # 1000)%Q.

(** The vectorizer and the model treat the rows of a batch independently:
    a text is encoded alone as it is inside a batch, and a row is scored
    alone as it is inside a batch. *)
Definition rowwise_layer (layer : VectorizeLayer) : Prop :=
  forall texts batch,
    vectorize_call layer texts = Ok batch ->
    forall i t, texts !! i = Some t ->
      exists v, batch !! i = Some v /\ vectorize_call layer [t] = Ok [v].

Definition rowwise_model (m : Model) : Prop :=
  forall batch preds,
    model_predict m batch = Ok preds ->
    forall i v row, batch !! i = Some v -> preds !! i = Some row ->
      model_predict m [v] = Ok [row].



(** The file is there but is not JSON. *)
Definition unparsable (f : file) : Prop :=
  match f with
  | JsonFile _ => False
  | _ => True
  end.

(** The state with one more error record in the log. *)
Definition log_error (s : state) (m : log_message) : state :=
  {| predictor := predictor s;
     fs := fs s;
     clock := clock s;
     trace := trace s ++ [LogError m] |}.

Section Vocabulary.
Context `{Runtime}.

(** Every step of the load succeeds: the three files are there and
    readable, and the vectorization layer can be built. *)
Definition load_steps_succeed (model_info : ModelInfo) (s : state)
    (m : Model) (le : LabelEncoder) (c : VectorizeConfig)
    (layer : VectorizeLayer) : Prop :=
  fs s !! weights_file model_info = Some (KerasFile m) /\
  fs s !! encoder_file model_info = Some (PickleFile le) /\
  fs s !! config_file model_info = Some (JsonFile (JVectorizeConfig c)) /\
  TextVectorization (max_tokens c) (output_mode c)
    (output_sequence_length c) (vocabulary c) = Ok layer.

(** The state after a load in which every step succeeded. *)
Definition installed (model_info : ModelInfo) (s : state)
    (m : Model) (le : LabelEncoder) (c : VectorizeConfig)
    (layer : VectorizeLayer) : state :=
  {| predictor :=
       {| model_registry_path := model_registry_path (predictor s);
          model := Some m;
          label_encoder := Some le;
          vectorize_config := Some (JVectorizeConfig c);
          vectorize_layer := Some layer;
          loaded := true |};
     fs := fs s;
     clock := clock s;
     trace := trace s ++ [LogInfo (LogLoading (model_version model_info));
                          LogInfo (LogLoadOk (classes_ le))] |}.

(** The registry entry that [load_best_model] hands to the loader. *)
Definition selected_best (s : state) : option ModelInfo :=
  match fs s !! ModelPredictor.registry_file (predictor s) with
  | Some (JsonFile (JRegistry r)) => head (models r)
  | _ => None
  end.

(** The registry entry that [load_model_by_version] hands to the loader. *)
Definition selected_version (v : string) (s : state) : option ModelInfo :=
  match fs s !! ModelPredictor.registry_file (predictor s) with
  | Some (JsonFile (JRegistry r)) => ModelPredictor.find_version v (models r)
  | _ => None
  end.

(** What does hold of every load: it returns a boolean and never raises;
    [True] exactly when the registry gave an entry and every step of its
    load succeeded, and then the whole bundle is installed; on [False]
    the loaded flag is as before, and the predictor is as before when no
    entry was selected. *)
Definition reports_by_boolean (run : M bool) (selected : option ModelInfo)
    (s : state) : Prop :=
  exists b s',
    run s = (Ok b, s') /\
    fs s' = fs s /\
    (b = true <->
     exists model_info m le c layer,
       selected = Some model_info /\
       load_steps_succeed model_info s m le c layer) /\
    (b = true ->
     exists model_info m le c layer,
       s' = installed model_info s m le c layer) /\
    (b = false -> loaded (predictor s') = loaded (predictor s)) /\
    (selected = None -> predictor s' = predictor s).

End Vocabulary.

(** * More of the code *)

(** ** src/models/trainer.py: [save_model] *)

(** [datetime.now()] as [save_model] formats it: the version stamp
    [strftime('%Y%m%d_%H%M%S')] and [isoformat()] of the n-th reading of
    the clock. *)
Class Calendar := {
  strftime_version : nat -> string;
  isoformat : nat -> string
}.

(** [datetime.now()]: the index of the reading. *)
Definition datetime_now : M nat :=
  fun s => (Ok (clock s),
            {| predictor := predictor s; fs := fs s;
               clock := S (clock s); trace := trace s |}).

(** [model.save(p)] *)
Definition keras_save (m : Model) (p : string) : M unit :=
  fun s => (Ok tt, {| predictor := predictor s; fs := <[p := KerasFile m]> (fs s);
                      clock := clock s; trace := trace s |}).

(** [with open(p, 'wb') as f: pickle.dump(le, f)] *)
Definition pickle_dump (le : LabelEncoder) (p : string) : M unit :=
  fun s => (Ok tt, {| predictor := predictor s; fs := <[p := PickleFile le]> (fs s);
                      clock := clock s; trace := trace s |}).

Module Training.

(** The adapted TextVectorization layer, as [save_model] reads it with
    [getattr]: an attribute may be absent; [get_vocabulary()] is there. *)
Record AdaptedLayer := {
  layer_max_tokens : option Z;
  layer_output_mode : option string;
  layer_output_sequence_length : option Z;
  get_vocabulary : list string
}.

(** [self.config], by the keys [save_model] reads, and as the opaque dict
    that is stored under 'training_config'. *)
Record Config := {
  config_max_sequence_length : Z;
  config_vocab_size : option Z;
  config_items : list (string * string)
}.

(** The trainer object as [train] holds it when it calls [save_model]
    (trainer.py, line 166): the model is built and fitted, the label
    encoder is fitted, the vectorization layer is adapted. *)
Record Trainer := {
  registry_part : ModelTrainer.ModelTrainer;
  config : Config;
  trained_model : Model;
  fitted_encoder : LabelEncoder;
  adapted_layer : AdaptedLayer;
  training_history : option (list (string * list Q))
}.

(** [getattr(layer, 'max_tokens', None) or self.config.get('vocab_size', 10000)]:
    [or] falls through on [None] and on [0]. *)
Definition saved_max_tokens (self : Trainer) : Z :=
  let fallback := default 10000%Z (config_vocab_size (config self)) in
  match layer_max_tokens (adapted_layer self) with
  | Some n => if (n =? 0)%Z then fallback else n
  | None => fallback
  end.

(** The dict [vectorize_config] of [save_model]. *)
Definition saved_vectorize_config (self : Trainer) : VectorizeConfig :=
  {| max_tokens := saved_max_tokens self;
     output_mode := default "int" (layer_output_mode (adapted_layer self));
     output_sequence_length :=
       default (config_max_sequence_length (config self))
               (layer_output_sequence_length (adapted_layer self));
     vocabulary := get_vocabulary (adapted_layer self) |}.

(** [save_model(self, val_accuracy, num_classes, vocab_size)].  Directories
    are not files of the model, so [mkdir] has nothing to do; the two JSON
    files that no modelled code reads back (training_history.json,
    model_info.json) are written as documents of another shape; the closing
    [logger.info] of the method has no record in [log_message] and is the
    one effect left out. *)
Definition save_model `{Calendar} (self : Trainer) (val_accuracy_ : Q)
    (num_classes_ vocab_size_ : Z) : M ModelInfo :=
  stamp <- datetime_now ;;
  let model_version_ := String "v" (strftime_version stamp) in
  let model_path_ :=
    path_join (ModelTrainer.model_registry_path (registry_part self))
              model_version_ in
  keras_save (trained_model self) (path_join model_path_ "model.keras") ;;
  pickle_dump (fitted_encoder self) (path_join model_path_ "label_encoder.pkl") ;;
  json_dump (JVectorizeConfig (saved_vectorize_config self))
            (path_join model_path_ "vectorize_config.json") ;;
  (match training_history self with
   | Some _ => json_dump JOther (path_join model_path_ "training_history.json")
   | None => ret tt
   end) ;;
  created <- datetime_now ;;
  let model_info :=
    {| model_version := model_version_;
       model_type := "chinese_text_classifier";
       framework := "tensorflow";
       val_accuracy := val_accuracy_;
       vocab_size := vocab_size_;
       num_classes := num_classes_;
       classes := classes_ (fitted_encoder self);
       max_sequence_length := config_max_sequence_length (config self);
       training_config := config_items (config self);
       created_at := isoformat created;
       model_path := model_path_;
       status := "active" |} in
  json_dump JOther (path_join model_path_ "model_info.json") ;;
  ModelTrainer._update_model_registry (registry_part self) model_info ;;
  ret model_info.

End Training.

(** ** src/models/trainer.py: [load_best_model], in full *)

Module Reload.

(** The attributes of the trainer that [load_best_model] assigns.
    [__init__] leaves [model = None] and a label encoder that is not
    fitted, which is [None] here. *)
Record Trainer := {
  registry_part : ModelTrainer.ModelTrainer;
  model : option Model;
  label_encoder : option LabelEncoder
}.

(** [load_best_model(self)]: what the call returns or raises, and the
    trainer object as the call leaves it.  [self.model] is assigned before
    label_encoder.pkl is opened.  [model_path] is used as stored, without
    the replacement of backslashes the predictor makes.  The closing
    [logger.info] of the method has no record in [log_message] and is the
    one effect left out. *)
Definition load_best_model (self : Trainer) (s : state)
  : result Model * Trainer * state :=
  match ModelTrainer.load_best_model (registry_part self) s with
  | (Raise e, s1) => (Raise e, self, s1)
  | (Ok best_model_info, s1) =>
      match keras_load_model
              (path_join (model_path best_model_info) "model.keras") s1 with
      | (Raise e, s2) => (Raise e, self, s2)
      | (Ok m, s2) =>
          match pickle_load
                  (path_join (model_path best_model_info) "label_encoder.pkl")
                  s2 with
          | (Raise e, s3) =>
              (Raise e,
               {| registry_part := registry_part self;
                  model := Some m;
                  label_encoder := label_encoder self |}, s3)
          | (Ok le, s3) =>
              (Ok m,
               {| registry_part := registry_part self;
                  model := Some m;
                  label_encoder := Some le |}, s3)
          end
      end
  end.

End Reload.

(** ** src/data/data_loader.py *)

Module Data.

(** *** Tables *)

(** A cell of a table; [None] is a null. *)
Definition cell : Type := option string.

(** A pandas DataFrame, by what the loader reads and sets of it: the
    length of the index and the columns in order, each with its label
    (labels may repeat) and its values. *)
Record DataFrame := {
  index_length : nat;
  data : list (string * list cell)
}.

(** [list(df.columns)] *)
Definition columns (df : DataFrame) : list string := map fst (data df).

(** [df.shape] *)
Definition shape (df : DataFrame) : nat * nat :=
  (index_length df, length (data df)).

(** [df[c] = v] for a scalar [v]: every column labelled [c] is filled with
    [v]; when there is none, a column [c] is added at the end. *)
Definition set_column (df : DataFrame) (c v : string) : DataFrame :=
  let filled := repeat (Some v) (index_length df) in
  {| index_length := index_length df;
     data :=
       if existsb (String.eqb c) (columns df)
       then map (fun col => if String.eqb (fst col) c then (fst col, filled)
                            else col) (data df)
       else data df ++ [(c, filled)] |}.

(** *** Source configurations and data sources *)

(** One dict of [sources]: its string-valued keys, and the dict under
    'headers' when there is one. *)
Record SourceConfig := {
  items : gmap string string;
  headers : option (list (string * string))
}.

(** The four [DataSource] classes with the attributes their [__init__]
    stores; [APIDataSource] stores [headers or {}]. *)
Inductive DataSource :=
  | CSVDataSource (file_path encoding : string)
  | JSONDataSource (file_path : string)
  | DatabaseDataSource (connection_string query : string)
  | APIDataSource (url : string) (request_headers : list (string * string)).

(** [str.lower()] on the ASCII letters.  The code only compares the
    result with 'csv', 'json', 'database' and 'api'; what [lower] does to
    other characters cannot make that comparison succeed or fail. *)
Definition lower_ascii (c : ascii) : ascii :=
  let n := nat_of_ascii c in
  if ((65 <=? n) && (n <=? 90))%nat then ascii_of_nat (n + 32) else c.

Fixpoint lower (s : string) : string :=
  match s with
  | EmptyString => EmptyString
  | String c s' => String (lower_ascii c) (lower s')
  end.

(** [d[key]] *)
Definition getitem (d : gmap string string) (key : string) : result string :=
  match d !! key with
  | Some v => Ok v
  | None => Raise (KeyError key)
  end.

(** *** The data registry on disk, the log, and the state *)

(** The dict [register_data] stores for a source, with the metadata
    [load_data] passes. *)
Record Metadata := {
  source_type : string;
  path : string;
  meta_shape : nat * nat;
  meta_columns : list string
}.

Record Entry := {
  version : string;
  timestamp : string;
  metadata : Metadata
}.

(** A file as [json.load] reads it: a JSON object of entries, another JSON
    value, or text that is not JSON. *)
Inductive content :=
  | Entries (d : gmap string Entry)
  | NotAnObject
  | NotJson.

(** The records of the module's logger, each with its level. *)
Inductive record :=
  | InfoSourceLoaded (src : DataSource) (sh : nat * nat)
      (* ✅ 加载CSV数据 / 加载JSON数据 / 加载数据库数据 / 加载API数据 ..., 形状: {df.shape} *)
  | ErrorSourceLoad (src : DataSource) (e : exn)
      (* ❌ 加载CSV失败 / 加载JSON失败 / 加载数据库失败 / 加载API数据失败: {e} *)
  | InfoRegistered (data_source version_ : string)
      (* ✅ 注册数据版本: {data_source} v{version} *)
  | ErrorSourceSkipped (source_config : SourceConfig) (e : exn)
      (* ❌ 加载数据源失败: {source_config}, 错误: {e} *)
  | InfoLoadDone (sh : nat * nat)
      (* ✅ 数据加载完成, 最终形状: {result_df.shape} *)
  | ErrorMissingColumns (missing : gset string)
      (* ❌ 缺少必需列: {missing_columns} *)
  | ErrorEmpty
      (* ❌ 数据为空 *)
  | WarningHighNull (counts : gmap string nat)
      (* ⚠️ 高空值率列: {high_null_columns.to_dict()} *)
  | InfoValidated
      (* ✅ 数据验证通过 *).

Record world := {
  disk : gmap string content;
  clock : nat;
  log : list record
}.

(** What the module takes from outside the repository: reading a source
    into a table ([pd.read_csv], [json.load] with [pd.DataFrame],
    [pd.read_sql_query], [requests.get]), which gives a table or raises,
    and [pd.concat(frames, ignore_index=True)].  The sources are read as
    they are when [load_data] is called, and the disk of this module
    holds the registry files only: a source that is the registry file
    itself, and the database file that [sqlite3.connect] creates when
    there is none, are outside what the model says. *)
Class Sources := {
  read : DataSource -> result DataFrame;
  pd_concat : list DataFrame -> result DataFrame
}.

(** *** The monad of this module: state passing with exceptions *)

Definition DM (A : Type) : Type := world -> result A * world.

Definition dret {A} (a : A) : DM A := fun w => (Ok a, w).

Definition dbind {A B} (m : DM A) (k : A -> DM B) : DM B :=
  fun w => match m w with
           | (Ok a, w') => k a w'
           | (Raise e, w') => (Raise e, w')
           end.

Definition draise {A} (e : exn) : DM A := fun w => (Raise e, w).

Definition dlift {A} (r : result A) : DM A := fun w => (r, w).

(** The outcome of [m], caught: for [try: m except Exception as e: ...]
    whose handler goes on with what [m] had done before it raised. *)
Definition caught {A} (m : DM A) : DM (result A) :=
  fun w => (Ok (fst (m w)), snd (m w)).

Declare Scope data_scope.
Delimit Scope data_scope with data.
Notation "x <- m ;; k" := (dbind m (fun x => k))
  (at level 100, m at next level, k at level 200, right associativity)
  : data_scope.
Notation "m ;; k" := (dbind m (fun _ => k))
  (at level 100, k at level 200, right associativity) : data_scope.
Local Open Scope data_scope.

Definition logger (r : record) : DM unit :=
  fun w => (Ok tt, {| disk := disk w; clock := clock w; log := log w ++ [r] |}).

(** [datetime.now().isoformat()] *)
Definition now_isoformat `{Calendar} : DM string :=
  fun w => (Ok (isoformat (clock w)),
            {| disk := disk w; clock := S (clock w); log := log w |}).

(** [p.exists()] *)
Definition file_exists (p : string) : DM bool :=
  fun w => (Ok (bool_decide (is_Some (disk w !! p))), w).

(** [with open(p, 'r') as f: json.load(f)] *)
Definition load_json (p : string) : DM content :=
  fun w => match disk w !! p with
           | None => (Raise (FileNotFoundError (NoSuchFile p)), w)
           | Some NotJson => (Raise JSONDecodeError, w)
           | Some c => (Ok c, w)
           end.

(** [with open(p, 'w') as f: json.dump(d, f)] *)
Definition dump_json (d : gmap string Entry) (p : string) : DM unit :=
  fun w => (Ok tt, {| disk := <[p := Entries d]> (disk w);
                      clock := clock w; log := log w |}).

(** *** [DataSource.load] *)

(** The four [load] methods: read, log the shape and return; on any
    exception log it and raise it again. *)
Definition load `{Sources} (self : DataSource) : DM DataFrame :=
  match read self with
  | Ok df => logger (InfoSourceLoaded self (shape df)) ;; dret df
  | Raise e => logger (ErrorSourceLoad self e) ;; draise e
  end.

(** *** [DataVersionControl] *)

(** The object by the attribute it is made of.  Directories are not files
    of the model, so the [mkdir] of [__init__] has nothing to do. *)
Record DataVersionControl := {
  registry_path : string
}.

(** [DataVersionControl()], with the default [registry_path] *)
Definition DataVersionControl_default : DataVersionControl :=
  {| registry_path := "data/registry" |}.

Definition registry_file (self : DataVersionControl) : string :=
  path_join (registry_path self) "data_registry.json".

(** [_load_registry(self)] *)
Definition _load_registry (self : DataVersionControl) : DM content :=
  ex <- file_exists (registry_file self) ;;
  if ex : bool then load_json (registry_file self)
  else dret (Entries ∅).

(** [registry[data_source] = entry], which a JSON value that is not an
    object refuses. *)
Definition setitem (registry : content) (data_source : string) (entry : Entry)
  : result (gmap string Entry) :=
  match registry with
  | Entries d => Ok (<[data_source := entry]> d)
  | _ => Raise TypeError
  end.

(** [register_data(self, data_source, version, metadata)] *)
Definition register_data `{Calendar} (self : DataVersionControl)
    (data_source version_ : string) (metadata_ : Metadata) : DM unit :=
  registry <- _load_registry self ;;
  stamp <- now_isoformat ;;
  registry <- dlift (setitem registry data_source
                       {| version := version_;
                          timestamp := stamp;
                          metadata := metadata_ |}) ;;
  dump_json registry (registry_file self) ;;
  logger (InfoRegistered data_source version_).

(** *** [DataLoader] *)

(** [_create_data_source(self, source_config)] *)
Definition _create_data_source (source_config : SourceConfig)
  : result DataSource :=
  match getitem (items source_config) "type" with
  | Raise e => Raise e
  | Ok t =>
      let source_type_ := lower t in
      if String.eqb source_type_ "csv" then
        match getitem (items source_config) "path" with
        | Raise e => Raise e
        | Ok p => Ok (CSVDataSource p
                        (default "utf-8" (items source_config !! "encoding")))
        end
      else if String.eqb source_type_ "json" then
        match getitem (items source_config) "path" with
        | Raise e => Raise e
        | Ok p => Ok (JSONDataSource p)
        end
      else if String.eqb source_type_ "database" then
        match getitem (items source_config) "connection_string" with
        | Raise e => Raise e
        | Ok c =>
            match getitem (items source_config) "query" with
            | Raise e => Raise e
            | Ok q => Ok (DatabaseDataSource c q)
            end
        end
      else if String.eqb source_type_ "api" then
        match getitem (items source_config) "url" with
        | Raise e => Raise e
        | Ok u => Ok (APIDataSource u (default [] (headers source_config)))
        end
      else Raise ValueError
  end.

(** [source_config.get('name', 'unknown')] and
    [source_config.get('version', '1.0.0')] *)
Definition name_of (source_config : SourceConfig) : string :=
  default "unknown" (items source_config !! "name").

Definition version_of (source_config : SourceConfig) : string :=
  default "1.0.0" (items source_config !! "version").

(** The three metadata columns [load_data] sets on a loaded table. *)
Definition tagged (source_config : SourceConfig) (df : DataFrame)
    (load_timestamp : string) : DataFrame :=
  set_column
    (set_column
       (set_column df "data_source" (name_of source_config))
       "data_version" (version_of source_config))
    "load_timestamp" load_timestamp.

(** The metadata [load_data] registers for a loaded table. *)
Definition metadata_of (source_config : SourceConfig) (df : DataFrame)
  : result Metadata :=
  match getitem (items source_config) "type" with
  | Raise e => Raise e
  | Ok t =>
      Ok {| source_type := t;
            path := default "" (items source_config !! "path");
            meta_shape := shape df;
            meta_columns := columns df |}
  end.

(** The body of the [try] of the loop of [load_data], up to
    [dataframes.append(df)]. *)
Definition load_tagged `{Sources} `{Calendar} (source_config : SourceConfig)
  : DM DataFrame :=
  data_source <- dlift (_create_data_source source_config) ;;
  df <- load data_source ;;
  stamp <- now_isoformat ;;
  dret (tagged source_config df stamp).

(** The rest of that body: the call of [register_data]. *)
Definition register_loaded `{Calendar} (version_control : DataVersionControl)
    (source_config : SourceConfig) (df : DataFrame) : DM unit :=
  metadata_ <- dlift (metadata_of source_config df) ;;
  register_data version_control (name_of source_config)
    (version_of source_config) metadata_.

(** The loop of [load_data]; [dataframes] is the list built so far.  An
    exception of the body is logged and the loop goes on; the table is in
    the list as soon as it is appended, whatever the registration does. *)
Fixpoint load_sources `{Sources} `{Calendar}
    (version_control : DataVersionControl)
    (sources : list SourceConfig) (dataframes : list DataFrame)
  : DM (list DataFrame) :=
  match sources with
  | [] => dret dataframes
  | source_config :: rest =>
      loaded_ <- caught (load_tagged source_config) ;;
      match loaded_ with
      | Raise e =>
          logger (ErrorSourceSkipped source_config e) ;;
          load_sources version_control rest dataframes
      | Ok df =>
          let dataframes := dataframes ++ [df] in
          registered <- caught (register_loaded version_control source_config df) ;;
          match registered with
          | Raise e =>
              logger (ErrorSourceSkipped source_config e) ;;
              load_sources version_control rest dataframes
          | Ok _ => load_sources version_control rest dataframes
          end
      end
  end.

(** [load_data(self, sources)]; [self.version_control] is the
    [DataVersionControl()] of [__init__]. *)
Definition load_data `{Sources} `{Calendar} (sources : list SourceConfig)
  : DM DataFrame :=
  dataframes <- load_sources DataVersionControl_default sources [] ;;
  result_df <- match dataframes with
               | [] => draise ValueError
               | [df] => dret df
               | _ => dlift (pd_concat dataframes)
               end ;;
  logger (InfoLoadDone (shape result_df)) ;;
  dret result_df.

(** [isnull] of a cell *)
Definition isnull (x : cell) : bool :=
  match x with None => true | Some _ => false end.

(** [df[required_columns].isnull().sum()]: for each requested label, in
    order, each column of that label with the number of its nulls. *)
Definition null_counts (df : DataFrame) (required_columns : list string)
  : list (string * nat) :=
  flat_map
    (fun c =>
       map (fun col => (fst col, length (List.filter isnull (snd col))))
           (List.filter (fun col => String.eqb (fst col) c) (data df)))
    required_columns.

(** [null_counts[null_counts > len(df) * 0.1]] *)
Definition high_null_columns (df : DataFrame) (required_columns : list string)
  : list (string * nat) :=
  List.filter (fun nc => (index_length df <? 10 * snd nc)%nat)
              (null_counts df required_columns).

(** [series.to_dict()]: of two entries with one label the later stays. *)
Definition to_dict (series : list (string * nat)) : gmap string nat :=
  fold_left (fun d nc => <[fst nc := snd nc]> d) series ∅.

(** [validate_data(self, df, required_columns)] *)
Definition validate_data (df : DataFrame) (required_columns : list string)
  : DM bool :=
  let missing_columns : gset string :=
    list_to_set required_columns ∖ list_to_set (columns df) in
  if bool_decide (missing_columns ≠ ∅) then
    logger (ErrorMissingColumns missing_columns) ;; dret false
  else if (index_length df =? 0)%nat then
    logger ErrorEmpty ;; dret false
  else
    (match high_null_columns df required_columns with
     | [] => dret tt
     | high => logger (WarningHighNull (to_dict high))
     end) ;;
    logger InfoValidated ;;
    dret true.

End Data.

(** ** More concrete situations *)

Module Cases.

(** v1 trained a second time within the same second as the first: the
    same identifier and directory, a better accuracy. *)
Definition v1_retrained : ModelInfo :=
  Scenario.info "v1" (95 # 100) Scenario.labels_v1.

Definition twice_v1 : state :=
  snd (ModelTrainer.appends Scenario.trainer
         [Scenario.v1; Scenario.v2; v1_retrained]
         (Scenario.boot Scenario.artifacts)).

(** The registry entry of v1 as a Windows trainer writes its path. *)
Definition v1_windows : ModelInfo :=
  {| model_version := "v1";
     model_type := "chinese_text_classifier";
     framework := "tensorflow";
     val_accuracy := 80 # 100;
     vocab_size := 100;
     num_classes := 3;
     classes := Scenario.labels_v1;
     max_sequence_length := 128;
     training_config := [];
     created_at := "2025-01-01T00:00:00";
     model_path := "models\registry\v1";
     status := "active" |}.

(** A model whose output has two entries, and one whose output has four,
    the largest last; the label encoders of the scenario have three
    classes. *)
Definition narrow_model : Model :=
  Scenario.constant_model "narrow" [(6 # 10)%Q; (4 # 10)%Q].
Definition wide_model : Model :=
  Scenario.constant_model "wide" [(1 # 10)%Q; (1 # 10)%Q; (1 # 10)%Q; (7 # 10)%Q].

(** A version whose network has four outputs next to a label encoder of
    three labels: nothing at load compares the two. *)
Definition overwide_model : Model :=
  Scenario.constant_model "overwide"
    [(5 # 10)%Q; (3 # 10)%Q; (1 # 10)%Q; (1 # 10)%Q].

Definition overwide : ModelInfo :=
  Scenario.info "overwide" (90 # 100) Scenario.labels_v1.

Definition serving_overwide : state :=
  snd (ModelPredictor.load_best_model (H := Scenario.runtime)
         (snd (ModelTrainer._update_model_registry Scenario.trainer overwide
                 (Scenario.boot
                    (Scenario.save_artifacts overwide overwide_model
                       Scenario.labels_v1 ∅))))).


(** A model that answers with one row whatever the batch. *)
Definition one_row_model : Model :=
  {| model_id := "one-row";
     model_predict := fun _ => Ok [[(1 # 10)%Q; (1 # 10)%Q; (8 # 10)%Q]] |}.

Definition serving_with (m : Model) : state :=
  {| predictor := set_model (Some m) (predictor Scenario.serving);
     fs := fs Scenario.serving;
     clock := clock Scenario.serving;
     trace := trace Scenario.serving |}.

Definition calendar : Calendar :=
  {| strftime_version := fun n => "20250101_00000" ++ String.string_of_list_ascii
                                    [Ascii.ascii_of_nat (48 + n mod 10)];
     isoformat := fun _ => "2025-01-01T00:00:00" |}%string.

Definition layer : Training.AdaptedLayer :=
  {| Training.layer_max_tokens := Some 0%Z;
     Training.layer_output_mode := None;
     Training.layer_output_sequence_length := Some 64%Z;
     Training.get_vocabulary := [""; "[UNK]"; "a"] |}.

Definition trainer : Training.Trainer :=
  {| Training.registry_part := Scenario.trainer;
     Training.config :=
       {| Training.config_max_sequence_length := 128;
          Training.config_vocab_size := Some 500%Z;
          Training.config_items := [("epochs", "10")] |};
     Training.trained_model := Scenario.model_v1;
     Training.fitted_encoder := {| classes_ := Scenario.labels_v1 |};
     Training.adapted_layer := layer;
     Training.training_history := Some [("loss", [(1 # 2)%Q])] |}.

End Cases.

(** ** Vocabulary of the further statements *)

(** When the loaded flag is set, the four components of the bundle hold
    a value (for the label encoder and the configuration: whatever the
    file gave). *)
Definition well_formed (p : Predictor) : Prop :=
  loaded p = true ->
  is_Some (model p) /\ is_Some (label_encoder p) /\
  is_Some (vectorize_config p) /\ is_Some (vectorize_layer p).

(** When the loaded flag is set, the model and the vectorization layer
    are there. *)
Definition has_model_and_layer (p : Predictor) : Prop :=
  loaded p = true -> is_Some (model p) /\ is_Some (vectorize_layer p).

(** The calls a client of [ModelPredictor] can make. *)
Inductive call :=
  | CallLoadBest
  | CallLoadVersion (v : string)
  | CallUnload
  | CallPredict (t : string)
  | CallPredictBatch (texts : list string)
  | CallInfo
  | CallAvailable.

(** One call, its result forgotten. *)
Definition run_call `{Runtime} (c : call) (s : state) : state :=
  match c with
  | CallLoadBest => snd (ModelPredictor.load_best_model s)
  | CallLoadVersion v => snd (ModelPredictor.load_model_by_version v s)
  | CallUnload => snd (ModelPredictor.unload_model s)
  | CallPredict t => snd (ModelPredictor.predict t s)
  | CallPredictBatch texts => snd (ModelPredictor.predict_batch texts s)
  | CallInfo => snd (ModelPredictor.get_model_info s)
  | CallAvailable => snd (ModelPredictor.get_available_models s)
  end.

(** The states a predictor can be in: freshly constructed on any disk,
    after any call, and after anything else changed the disk, the clock
    or the log. *)
Inductive reachable `{Runtime} : state -> Prop :=
  | reach_init (s : state) (path : string) :
      predictor s = Predictor_init path -> reachable s
  | reach_call (s : state) (c : call) :
      reachable s -> reachable (run_call c s)
  | reach_world (s s' : state) :
      reachable s -> predictor s' = predictor s -> reachable s'.

(** No backslash in the string: [replace('\\', '/')] leaves it alone. *)
Definition posix_style (p : string) : Prop := replace_backslash p = p.

(** Every run of [m] takes a state to one related to it by [R]. *)
Definition respects {A} (R : state -> state -> Prop) (m : M A) : Prop :=
  forall s r s', m s = (r, s') -> R s s'.

(** The predictor and the disk are as they were. *)
Definition same_bundle (s s' : state) : Prop :=
  predictor s' = predictor s /\ fs s' = fs s.

(** No component of the bundle that was set has been unset. *)
Definition keeps_components (s s' : state) : Prop :=
  (is_Some (model (predictor s)) -> is_Some (model (predictor s'))) /\
  (is_Some (label_encoder (predictor s)) ->
   is_Some (label_encoder (predictor s'))) /\
  (is_Some (vectorize_config (predictor s)) ->
   is_Some (vectorize_config (predictor s'))) /\
  (is_Some (vectorize_layer (predictor s)) ->
   is_Some (vectorize_layer (predictor s'))).

(** Where [save_model] puts a version, what it registers, and the disk as
    it is when the registry update begins. *)
Definition saved_dir `{Calendar} (self : Training.Trainer) (s : state) : string :=
  path_join (ModelTrainer.model_registry_path (Training.registry_part self))
            (String "v" (strftime_version (clock s))).

Definition saved_info `{Calendar} (self : Training.Trainer) (acc : Q)
    (n_classes vocab : Z) (s : state) : ModelInfo :=
  {| model_version := String "v" (strftime_version (clock s));
     model_type := "chinese_text_classifier";
     framework := "tensorflow";
     val_accuracy := acc;
     vocab_size := vocab;
     num_classes := n_classes;
     classes := classes_ (Training.fitted_encoder self);
     max_sequence_length :=
       Training.config_max_sequence_length (Training.config self);
     training_config := Training.config_items (Training.config self);
     created_at := isoformat (S (clock s));
     model_path := saved_dir self s;
     status := "active" |}.

Definition saved_files `{Calendar} (self : Training.Trainer) (s : state)
    : filesystem :=
  <[path_join (saved_dir self s) "model_info.json" := JsonFile JOther]>
  ((match Training.training_history self with
    | Some _ => <[path_join (saved_dir self s) "training_history.json" :=
                    JsonFile JOther]>
    | None => fun files => files
    end)
   (<[path_join (saved_dir self s) "vectorize_config.json" :=
        JsonFile (JVectorizeConfig (Training.saved_vectorize_config self))]>
   (<[path_join (saved_dir self s) "label_encoder.pkl" :=
        PickleFile (Training.fitted_encoder self)]>
   (<[path_join (saved_dir self s) "model.keras" :=
        KerasFile (Training.trained_model self)]> (fs s))))).

(** ** Vocabulary of the statements on the data loader *)

(** The entries [register_data] starts from: the stored ones, or none when
    there is no registry file; [None] when the file is not a JSON object of
    entries. *)
Definition stored_entries (self : Data.DataVersionControl) (w : Data.world)
  : option (gmap string Data.Entry) :=
  match Data.disk w !! Data.registry_file self with
  | None => Some ∅
  | Some (Data.Entries d) => Some d
  | Some _ => None
  end.

(** The table a source configuration gives when a data source can be
    made of it and read. *)
Definition readable `{Data.Sources} (source_config : Data.SourceConfig)
  : option Data.DataFrame :=
  match Data._create_data_source source_config with
  | Ok data_source =>
      match Data.read data_source with
      | Ok df => Some df
      | Raise _ => None
      end
  | Raise _ => None
  end.

(** The configurations of a list that give a table, each with its table,
    in order. *)
Definition readable_sources `{Data.Sources} (sources : list Data.SourceConfig)
  : list (Data.SourceConfig * Data.DataFrame) :=
  omap (fun source_config =>
          match readable source_config with
          | Some df => Some (source_config, df)
          | None => None
          end) sources.

(** [frame] is the table of [source] with the three metadata columns
    set. *)
Definition tagged_from (source : Data.SourceConfig * Data.DataFrame)
    (frame : Data.DataFrame) : Prop :=
  exists load_timestamp,
    frame = Data.tagged (fst source) (snd source) load_timestamp.

(** A configuration with its 'type' replaced. *)
Definition with_type (source_config : Data.SourceConfig) (t : string)
  : Data.SourceConfig :=
  {| Data.items := <["type" := t]> (Data.items source_config);
     Data.headers := Data.headers source_config |}.

(** The keys [_create_data_source] indexes for a (lower-case) type name;
    [None] for a name it does not support. *)
Definition required_keys (source_type : string) : option (list string) :=
  if String.eqb source_type "csv" then Some ["path"]
  else if String.eqb source_type "json" then Some ["path"]
  else if String.eqb source_type "database" then Some ["connection_string"; "query"]
  else if String.eqb source_type "api" then Some ["url"]
  else None.


(** The three labels [load_data] sets. *)
Definition metadata_labels : list string :=
  ["data_source"; "data_version"; "load_timestamp"].

(** The world after a source has been read and the time of loading taken,
    and after a source has been logged as failed. *)
Definition loaded_world (src : Data.DataSource) (df : Data.DataFrame)
    (w : Data.world) : Data.world :=
  {| Data.disk := Data.disk w;
     Data.clock := S (Data.clock w);
     Data.log := Data.log w ++ [Data.InfoSourceLoaded src (Data.shape df)] |}.

Definition skipped_world (source_config : Data.SourceConfig) (e : exn)
    (w : Data.world) : Data.world :=
  {| Data.disk := Data.disk w;
     Data.clock := Data.clock w;
     Data.log := Data.log w ++ [Data.ErrorSourceSkipped source_config e] |}.


(** ** Concrete situations of the data loader *)

Module DataCases.

Definition train_table : Data.DataFrame :=
  {| Data.index_length := 2;
     Data.data := [("text", [Some "a"; Some "b"]);
                   ("label", [Some "x"; None])] |}.

(** A world of sources in which data/raw/train.csv is a table and nothing
    else can be read; [pd.concat] of tables with the same labels. *)
Definition sources : Data.Sources :=
  {| Data.read := fun src =>
       match src with
       | Data.CSVDataSource p _ =>
           if String.eqb p "data/raw/train.csv" then Ok train_table
           else Raise (FileNotFoundError (NoSuchFile p))
       | Data.JSONDataSource p => Raise (FileNotFoundError (NoSuchFile p))
       | _ => Raise (FrameworkError 1)
       end;
     Data.pd_concat := fun frames =>
       match frames with
       | [] => Raise ValueError
       | df :: rest =>
           Ok {| Data.index_length :=
                   fold_left (fun n f => n + Data.index_length f) rest
                             (Data.index_length df);
                 Data.data :=
                   map (fun col =>
                          (fst col,
                           snd col ++
                           flat_map
                             (fun f => flat_map snd
                                (List.filter (fun c => String.eqb (fst c) (fst col))
                                             (Data.data f))) rest))
                       (Data.data df) |}
       end |}.

Definition training_data : Data.SourceConfig :=
  {| Data.items := {[ "name" := "training_data"; "type" := "CSV";
                      "path" := "data/raw/train.csv"; "version" := "1.0.0" ]};
     Data.headers := None |}.

Definition labels : Data.SourceConfig :=
  {| Data.items := {[ "name" := "labels"; "type" := "json";
                      "path" := "data/raw/labels.json" ]};
     Data.headers := None |}.

Definition train_metadata : Data.Metadata :=
  {| Data.source_type := "CSV"; Data.path := "data/raw/train.csv";
     Data.meta_shape := (2, 5)%nat;
     Data.meta_columns := ["text"; "label"; "data_source"; "data_version";
                           "load_timestamp"] |}.

Definition empty_world : Data.world :=
  {| Data.disk := ∅; Data.clock := 0; Data.log := [] |}.

Definition corrupt_world : Data.world :=
  {| Data.disk := {[ Data.registry_file Data.DataVersionControl_default
                     := Data.NotJson ]};
     Data.clock := 0; Data.log := [] |}.

End DataCases.

(** * Properties *)

(** ** The monad *)

Lemma bind_ok {A B} (m : M A) (k : A -> M B) s a s' :
  m s = (Ok a, s') -> bind m k s = k a s'.
Proof. unfold bind. intros ->. reflexivity. Qed.

Lemma path_exists_run p s :
  path_exists p s = (Ok (bool_decide (is_Some (fs s !! p))), s).
Proof. reflexivity. Qed.

(** ** The descending stable sort *)


Lemma insert_desc_perm x l : Permutation (insert_desc x l) (x :: l).
Proof.
  induction l as [|y l IH]; simpl.
  - reflexivity.
  - destruct (Qle_bool (val_accuracy y) (val_accuracy x)).
    + reflexivity.
    + rewrite IH. apply perm_swap.
Qed.

Lemma sort_perm l : Permutation (sort_by_val_accuracy_reverse l) l.
Proof.
  induction l as [|x l IH]; simpl.
  - reflexivity.
  - rewrite insert_desc_perm. now constructor.
Qed.

Lemma insert_desc_sorted x l : sorted_desc l -> sorted_desc (insert_desc x l).
Proof.
  unfold sorted_desc.
  induction l as [|y l IH]; simpl; intros Hs.
  - repeat constructor.
  - apply StronglySorted_inv in Hs as [Hl Hy].
    destruct (Qle_bool (val_accuracy y) (val_accuracy x)) eqn:E.
    + apply Qle_bool_iff in E.
      constructor; [now constructor|].
      constructor; [exact E|].
      eapply Forall_impl; [exact Hy|].
      intros z Hz. unfold acc_ge in *. now apply Qle_trans with (val_accuracy y).
    + assert (Hlt : (val_accuracy x < val_accuracy y)%Q).
      { apply Qnot_le_lt. intros Hle. apply Qle_bool_iff in Hle. congruence. }
      constructor; [now apply IH|].
      rewrite insert_desc_perm.
      constructor; [now apply Qlt_le_weak|exact Hy].
Qed.

Lemma sort_sorted l : sorted_desc (sort_by_val_accuracy_reverse l).
Proof.
  induction l as [|x l IH]; simpl.
  - constructor.
  - now apply insert_desc_sorted.
Qed.

Lemma sorted_head_max l b :
  sorted_desc l -> head l = Some b ->
  forall m, In m l -> (val_accuracy m <= val_accuracy b)%Q.
Proof.
  intros Hs Hh m Hin. destruct l as [|y l]; [discriminate|].
  simpl in Hh. injection Hh as ->.
  apply StronglySorted_inv in Hs as [_ Hb].
  destruct Hin as [->|Hin].
  - apply Qle_refl.
  - rewrite List.Forall_forall in Hb. now apply Hb.
Qed.

(** Stability: the entries of any one accuracy keep their relative order,
    which with sortedness determines the result of Python's sort. *)
Lemma insert_desc_filter k x l :
  let p := fun m => Qeq_bool (val_accuracy m) k in
  List.filter p (insert_desc x l) = List.filter p (x :: l).
Proof.
  intros p. induction l as [|y l IH]; [reflexivity|].
  cbn [insert_desc].
  destruct (Qle_bool (val_accuracy y) (val_accuracy x)) eqn:E; [reflexivity|].
  cbn [List.filter] in *. rewrite IH.
  destruct (p x) eqn:Px; [|reflexivity].
  destruct (p y) eqn:Py; [|reflexivity].
  exfalso. unfold p in Px, Py.
  apply Qeq_bool_iff in Px. apply Qeq_bool_iff in Py.
  assert (Hle : Qle_bool (val_accuracy y) (val_accuracy x) = true).
  { apply Qle_bool_iff. rewrite Px, Py. apply Qle_refl. }
  congruence.
Qed.

Lemma sort_stable k l :
  let p := fun m => Qeq_bool (val_accuracy m) k in
  List.filter p (sort_by_val_accuracy_reverse l) = List.filter p l.
Proof.
  intros p. induction l as [|x l IH]; [reflexivity|].
  cbn [sort_by_val_accuracy_reverse].
  unfold p. rewrite insert_desc_filter. fold p.
  cbn [List.filter]. now rewrite IH.
Qed.

(** Sortedness and stability leave no choice: two descending lists in
    which the entries of every accuracy appear in the same order are the
    same list.  So every stable descending sort, Python's among them,
    returns what [sort_by_val_accuracy_reverse] returns. *)
Lemma sorted_stable_unique l1 :
  forall l2,
    sorted_desc l1 -> sorted_desc l2 ->
    (forall k, List.filter (fun m => Qeq_bool (val_accuracy m) k) l1
               = List.filter (fun m => Qeq_bool (val_accuracy m) k) l2) ->
    l1 = l2.
Proof.
  induction l1 as [|x l1 IH]; intros l2 Hs1 Hs2 Hf.
  - destruct l2 as [|y l2]; [reflexivity|].
    specialize (Hf (val_accuracy y)). cbn in Hf.
    rewrite Qeq_bool_refl in Hf. discriminate.
  - destruct l2 as [|y l2].
    { specialize (Hf (val_accuracy x)). cbn in Hf.
      rewrite Qeq_bool_refl in Hf. discriminate. }
    pose proof (Hf (val_accuracy x)) as Hx. cbn [List.filter] in Hx.
    rewrite Qeq_bool_refl in Hx.
    assert (Hxy : (val_accuracy x <= val_accuracy y)%Q).
    { apply (sorted_head_max (y :: l2) y Hs2 eq_refl).
      eapply proj1, List.filter_In. rewrite <- (Hf (val_accuracy x)).
      apply List.filter_In. split; [now left|apply Qeq_bool_refl]. }
    assert (Hyx : (val_accuracy y <= val_accuracy x)%Q).
    { apply (sorted_head_max (x :: l1) x Hs1 eq_refl).
      eapply proj1, List.filter_In. rewrite (Hf (val_accuracy y)).
      apply List.filter_In. split; [now left|apply Qeq_bool_refl]. }
    assert (Heq : (val_accuracy y == val_accuracy x)%Q) by now apply Qle_antisym.
    rewrite (proj2 (Qeq_bool_iff _ _) Heq) in Hx. injection Hx as <- Hx.
    f_equal.
    apply StronglySorted_inv in Hs1 as [Hs1 _].
    apply StronglySorted_inv in Hs2 as [Hs2 _].
    apply IH; try assumption.
    intros k. specialize (Hf k). cbn [List.filter] in Hf.
    destruct (Qeq_bool (val_accuracy x) k); [now injection Hf|exact Hf].
Qed.

Lemma stable_sort_is_sort_by_val_accuracy_reverse l l' :
  sorted_desc l' ->
  (forall k, List.filter (fun m => Qeq_bool (val_accuracy m) k) l'
             = List.filter (fun m => Qeq_bool (val_accuracy m) k) l) ->
  l' = sort_by_val_accuracy_reverse l.
Proof.
  intros Hs Hf. apply sorted_stable_unique; [exact Hs|apply sort_sorted|].
  intros k. rewrite Hf. symmetry. apply sort_stable.
Qed.

(** ** The registry update *)

Lemma update_model_registry_run self model_info s ms0 :
  ModelTrainer.stored_models self s = Some ms0 ->
  ModelTrainer._update_model_registry self model_info s =
    (Ok tt,
     {| predictor := predictor s;
        fs := <[ModelTrainer.registry_file self :=
                  JsonFile (JRegistry
                    {| models := sort_by_val_accuracy_reverse (ms0 ++ [model_info]);
                       latest := Some (model_version model_info) |})]> (fs s);
        clock := clock s;
        trace := trace s ++ [LogInfo (LogRegistryUpdated (model_version model_info))] |}).
Proof.
  unfold ModelTrainer.stored_models, ModelTrainer._update_model_registry.
  intros Hst.
  unfold bind at 1. rewrite path_exists_run.
  destruct (fs s !! ModelTrainer.registry_file self) as [f|] eqn:E.
  - destruct f as [j| | |]; try discriminate.
    destruct j as [r| |]; try discriminate.
    injection Hst as <-.
    unfold bind, json_load, lift, json_dump, logger_info, emit; cbn.
    rewrite E. reflexivity.
  - injection Hst as <-. reflexivity.
Qed.

Lemma stored_models_after_write self s r p c t :
  ModelTrainer.stored_models self
    {| predictor := p;
       fs := <[ModelTrainer.registry_file self := JsonFile (JRegistry r)]> (fs s);
       clock := c; trace := t |} = Some (models r).
Proof.
  unfold ModelTrainer.stored_models; cbn [fs].
  now rewrite lookup_insert_eq.
Qed.

Lemma appends_run self info infos :
  forall s0 ms0,
    ModelTrainer.stored_models self s0 = Some ms0 ->
    exists s r,
      ModelTrainer.appends self (infos ++ [info]) s0 = (Ok tt, s) /\
      fs s !! ModelTrainer.registry_file self = Some (JsonFile (JRegistry r)) /\
      Permutation (models r) (ms0 ++ infos ++ [info]) /\
      sorted_desc (models r) /\
      latest r = Some (model_version info).
Proof.
  induction infos as [|i rest IH]; intros s0 ms0 Hst; cbn [app ModelTrainer.appends].
  - erewrite bind_ok by (apply update_model_registry_run; eassumption).
    eexists _, _. split; [reflexivity|]. cbn [fs].
    rewrite lookup_insert_eq.
    split; [reflexivity|]. cbn [models latest].
    split; [apply sort_perm|]. split; [apply sort_sorted|reflexivity].
  - erewrite bind_ok by (apply update_model_registry_run; eassumption).
    edestruct IH as (s & r & Hrun & Hfs & Hperm & Hsorted & Hlatest).
    { apply stored_models_after_write. }
    exists s, r. split; [exact Hrun|]. split; [exact Hfs|].
    split; [|now split].
    rewrite Hperm. cbn [models]. rewrite sort_perm.
    rewrite <- app_assoc. reflexivity.
Qed.

(** ** Loading never raises *)

Section Loading.
Context `{Runtime}.

Lemma load_model_from_info_total model_info s :
  exists b s', ModelPredictor._load_model_from_info model_info s = (Ok b, s').
Proof.
  unfold ModelPredictor._load_model_from_info, try_except.
  match goal with |- context [match ?body s with _ => _ end] =>
    destruct (body s) as [[b|e] s1] end.
  - eauto.
  - eexists _, _. reflexivity.
Qed.

Lemma load_best_model_total s :
  exists b s', ModelPredictor.load_best_model s = (Ok b, s').
Proof.
  unfold ModelPredictor.load_best_model, try_except.
  match goal with |- context [match ?body s with _ => _ end] =>
    destruct (body s) as [[b|e] s1] end.
  - eauto.
  - eexists _, _. reflexivity.
Qed.

Lemma load_model_by_version_total v s :
  exists b s', ModelPredictor.load_model_by_version v s = (Ok b, s').
Proof.
  unfold ModelPredictor.load_model_by_version, try_except.
  match goal with |- context [match ?body s with _ => _ end] =>
    destruct (body s) as [[b|e] s1] end.
  - eauto.
  - eexists _, _. reflexivity.
Qed.

(** With a readable, non-empty registry, [load_best_model] is the load
    of element 0. *)
Lemma load_best_model_selects s r best rest :
  fs s !! ModelPredictor.registry_file (predictor s) = Some (JsonFile (JRegistry r)) ->
  models r = best :: rest ->
  ModelPredictor.load_best_model s = ModelPredictor._load_model_from_info best s.
Proof.
  intros Hfs Hms.
  unfold ModelPredictor.load_best_model, try_except.
  unfold bind at 1. unfold get_self at 1.
  unfold bind at 1. rewrite path_exists_run, Hfs.
  rewrite bool_decide_eq_true_2 by eauto. cbn [negb].
  unfold bind at 1. unfold json_load at 1. rewrite Hfs.
  unfold bind at 1. unfold lift at 1. cbn [json_models]. rewrite Hms.
  destruct (load_model_from_info_total best s) as (b & s' & ->).
  reflexivity.
Qed.

End Loading.

(** ** Claims about the registry *)

(** C1.  After every append of a sequence of appends the stored [models]
    list is sorted by [val_accuracy] descending and holds exactly the
    appended entries, and element 0, which is what the predictor's
    [load_best_model] loads, has the largest validation accuracy.  With v1
    (0.80) appended before v2 (0.92), [load_best_model] installs v2. *)
Theorem registry_sorted_best_first :
  (forall (R : Runtime) (self : ModelTrainer.ModelTrainer) (s0 : state)
          (ms0 infos : list ModelInfo) (info : ModelInfo),
      ModelTrainer.stored_models self s0 = Some ms0 ->
      exists s r best,
        ModelTrainer.appends self (infos ++ [info]) s0 = (Ok tt, s) /\
        fs s !! ModelTrainer.registry_file self = Some (JsonFile (JRegistry r)) /\
        Permutation (models r) (ms0 ++ infos ++ [info]) /\
        sorted_desc (models r) /\
        head (models r) = Some best /\
        (forall m, In m (ms0 ++ infos ++ [info]) ->
                   (val_accuracy m <= val_accuracy best)%Q) /\
        (forall s1,
            fs s1 = fs s ->
            model_registry_path (predictor s1) =
              ModelTrainer.model_registry_path self ->
            ModelPredictor.load_best_model s1 =
              ModelPredictor._load_model_from_info best s1))
  /\
  (exists s,
      ModelPredictor.load_best_model (H := Scenario.runtime) Scenario.registered
        = (Ok true, s) /\
      model (predictor s) = Some Scenario.model_v2 /\
      label_encoder (predictor s) = Some {| classes_ := Scenario.labels_v2 |} /\
      loaded (predictor s) = true).
Proof.
  split.
  - intros R self s0 ms0 infos info Hst.
    destruct (appends_run self info infos s0 ms0 Hst)
      as (s & r & Hrun & Hfs & Hperm & Hsorted & _).
    destruct (models r) as [|best rest] eqn:Hms.
    { apply Permutation_nil in Hperm.
      destruct ms0, infos; discriminate. }
    exists s, r, best. rewrite Hms.
    repeat split; try assumption.
    + intros m Hin. rewrite <- Hms in Hsorted.
      apply (sorted_head_max (models r)); [assumption|now rewrite Hms|].
      rewrite Hms. eapply Permutation_in; [symmetry; exact Hperm|exact Hin].
    + intros s1 Hfs1 Hpath.
      apply (load_best_model_selects s1 r best rest); [|exact Hms].
      unfold ModelPredictor.registry_file. rewrite Hpath, Hfs1. exact Hfs.
  - eexists. split; [vm_compute; reflexivity|].
    repeat split.
Qed.

Lemma registry_sorted_best_first_witness :
  ModelTrainer.stored_models Scenario.trainer (Scenario.boot Scenario.artifacts)
    = Some [] /\
  exists s r best,
    ModelTrainer.appends Scenario.trainer ([Scenario.v1] ++ [Scenario.v2])
      (Scenario.boot Scenario.artifacts) = (Ok tt, s) /\
    fs s !! ModelTrainer.registry_file Scenario.trainer
      = Some (JsonFile (JRegistry r)) /\
    Permutation (models r) ([] ++ [Scenario.v1] ++ [Scenario.v2]) /\
    sorted_desc (models r) /\
    head (models r) = Some best /\
    (forall m, In m ([] ++ [Scenario.v1] ++ [Scenario.v2]) ->
               (val_accuracy m <= val_accuracy best)%Q) /\
    (forall s1,
        fs s1 = fs s ->
        model_registry_path (predictor s1) =
          ModelTrainer.model_registry_path Scenario.trainer ->
        ModelPredictor.load_best_model (H := Scenario.runtime) s1 =
          ModelPredictor._load_model_from_info (H := Scenario.runtime) best s1).
Proof.
  split.
  - vm_compute. reflexivity.
  - apply (proj1 registry_sorted_best_first Scenario.runtime Scenario.trainer
             (Scenario.boot Scenario.artifacts) [] [Scenario.v1] Scenario.v2).
    vm_compute. reflexivity.
Defined.

(** C2, as the code has it.  The registry update has no check of the
    identifier: appending a version whose identifier is already stored
    succeeds, the new entry is stored next to the old one (the list grows
    by one and is sorted again) and [latest] is set to the identifier. *)
Theorem duplicate_version_is_stored_again :
  forall (self : ModelTrainer.ModelTrainer) (s : state)
         (ms0 : list ModelInfo) (info : ModelInfo),
    ModelTrainer.stored_models self s = Some ms0 ->
    (exists m, In m ms0 /\ model_version m = model_version info) ->
    exists s' r,
      ModelTrainer._update_model_registry self info s = (Ok tt, s') /\
      fs s' !! ModelTrainer.registry_file self = Some (JsonFile (JRegistry r)) /\
      Permutation (models r) (ms0 ++ [info]) /\
      sorted_desc (models r) /\
      length (models r) = S (length ms0) /\
      latest r = Some (model_version info).
Proof.
  intros self s ms0 info Hst _.
  eexists _, _. split; [exact (update_model_registry_run self info s ms0 Hst)|].
  cbn [fs]. rewrite lookup_insert_eq. split; [reflexivity|].
  cbn [models latest].
  split; [apply sort_perm|]. split; [apply sort_sorted|].
  split; [|reflexivity].
  rewrite (Permutation_length (sort_perm _)), length_app. cbn. lia.
Qed.

Lemma duplicate_version_is_stored_again_witness :
  ModelTrainer.stored_models Scenario.trainer Scenario.registered_v1
    = Some [Scenario.v1] /\
  (exists m, In m [Scenario.v1] /\ model_version m = model_version Scenario.v1) /\
  exists s' r,
    ModelTrainer._update_model_registry Scenario.trainer Scenario.v1
      Scenario.registered_v1 = (Ok tt, s') /\
    fs s' !! ModelTrainer.registry_file Scenario.trainer
      = Some (JsonFile (JRegistry r)) /\
    Permutation (models r) ([Scenario.v1] ++ [Scenario.v1]) /\
    sorted_desc (models r) /\
    length (models r) = S (length [Scenario.v1]) /\
    latest r = Some (model_version Scenario.v1).
Proof.
  assert (Hst : ModelTrainer.stored_models Scenario.trainer Scenario.registered_v1
                = Some [Scenario.v1]) by (vm_compute; reflexivity).
  assert (Hdup : exists m, In m [Scenario.v1] /\
                           model_version m = model_version Scenario.v1)
    by (exists Scenario.v1; split; [now left|reflexivity]).
  split; [exact Hst|]. split; [exact Hdup|].
  exact (duplicate_version_is_stored_again Scenario.trainer
           Scenario.registered_v1 [Scenario.v1] Scenario.v1 Hst Hdup).
Defined.

(** C2 as stated fails: on a registry that holds v1, a second append of v1
    does not fail, and the stored list changes from [v1] to [v1; v1]. *)
Lemma duplicate_version_not_rejected :
  ModelTrainer.stored_models Scenario.trainer Scenario.registered_v1
    = Some [Scenario.v1] /\
  fst (ModelTrainer._update_model_registry Scenario.trainer Scenario.v1
         Scenario.registered_v1) = Ok tt /\
  ModelTrainer.stored_models Scenario.trainer
    (snd (ModelTrainer._update_model_registry Scenario.trainer Scenario.v1
            Scenario.registered_v1))
    = Some [Scenario.v1; Scenario.v1].
Proof. vm_compute. repeat split. Qed.

(** ** Symbolic runs of the predictor *)

Ltac run_monad :=
  cbv beta iota zeta delta
    [try_except bind ret raise lift get_self set_self emit logger_error
     logger_info now path_exists json_load pickle_load keras_load_model
     json_models
     ModelPredictor._load_model_from_info ModelPredictor._create_vectorize_layer
     ModelPredictor.the_label_encoder ModelPredictor.call_vectorize_layer
     ModelPredictor.call_model_predict
     ModelPredictor.load_best_model ModelPredictor.load_model_by_version
     ModelPredictor.get_available_models ModelPredictor.registry_file
     ModelPredictor.predict ModelPredictor.predict_batch
     ModelTrainer.load_best_model ModelTrainer._update_model_registry
     ModelTrainer.registry_file
     Api.endpoint_guard Api.predict_batch Api.predict_text
     is_HTTPException];
  cbn [predictor fs clock trace model label_encoder vectorize_config
       vectorize_layer loaded model_registry_path
       set_model set_label_encoder set_vectorize_config set_vectorize_layer
       set_loaded negb fst snd].

Tactic Notation "run_monad" "in" hyp(H) :=
  cbv beta iota zeta delta
    [try_except bind ret raise lift get_self set_self emit logger_error
     logger_info now path_exists json_load pickle_load keras_load_model
     json_models
     ModelPredictor._load_model_from_info ModelPredictor._create_vectorize_layer
     ModelPredictor.the_label_encoder ModelPredictor.call_vectorize_layer
     ModelPredictor.call_model_predict
     ModelPredictor.load_best_model ModelPredictor.load_model_by_version
     ModelPredictor.get_available_models ModelPredictor.registry_file
     ModelPredictor.predict ModelPredictor.predict_batch
     ModelTrainer.load_best_model ModelTrainer._update_model_registry
     ModelTrainer.registry_file
     Api.endpoint_guard Api.predict_batch Api.predict_text
     is_HTTPException] in H;
  cbn [predictor fs clock trace model label_encoder vectorize_config
       vectorize_layer loaded model_registry_path
       set_model set_label_encoder set_vectorize_config set_vectorize_layer
       set_loaded negb fst snd] in H.

Lemma exists_true (m : filesystem) p f :
  m !! p = Some f -> bool_decide (is_Some (m !! p)) = true.
Proof. intros ->. apply bool_decide_eq_true_2. eauto. Qed.

Lemma exists_false (m : filesystem) p :
  m !! p = None -> bool_decide (is_Some (m !! p)) = false.
Proof. intros ->. apply bool_decide_eq_false_2. intros [? ?]; discriminate. Qed.


Section LoadRuns.
Context `{Runtime}.


Lemma load_model_from_info_ok model_info s m le c layer :
  load_steps_succeed model_info s m le c layer ->
  ModelPredictor._load_model_from_info model_info s
    = (Ok true, installed model_info s m le c layer).
Proof.
  intros (Hw & He & Hc & Hl).
  unfold weights_file, encoder_file, config_file, artifact_dir in *.
  run_monad.
  rewrite (exists_true _ _ _ Hw). run_monad.
  rewrite Hw. run_monad. rewrite He. run_monad. rewrite Hc. run_monad.
  rewrite Hl. run_monad.
  unfold installed. rewrite <- !app_assoc. reflexivity.
Qed.

(** Every run of the load, classified: it returns [True] with the whole
    bundle installed when every step succeeded, and otherwise [False]
    with the loaded flag as it was. *)
Lemma load_model_from_info_spec model_info s :
  exists b s',
    ModelPredictor._load_model_from_info model_info s = (Ok b, s') /\
    fs s' = fs s /\
    model_registry_path (predictor s') = model_registry_path (predictor s) /\
    ((b = true /\
      exists m le c layer,
        load_steps_succeed model_info s m le c layer /\
        s' = installed model_info s m le c layer)
     \/
     (b = false /\
      loaded (predictor s') = loaded (predictor s) /\
      ~ exists m le c layer, load_steps_succeed model_info s m le c layer)).
Proof.
  pose proof (eq_refl : weights_file model_info =
    path_join (replace_backslash (model_path model_info)) "model.keras") as Ew.
  pose proof (eq_refl : encoder_file model_info =
    path_join (replace_backslash (model_path model_info)) "label_encoder.pkl") as Ee.
  pose proof (eq_refl : config_file model_info =
    path_join (replace_backslash (model_path model_info)) "vectorize_config.json") as Ec.
  assert (Hno : forall (P : Prop) s1,
             loaded (predictor s1) = loaded (predictor s) ->
             fs s1 = fs s ->
             model_registry_path (predictor s1) = model_registry_path (predictor s) ->
             ModelPredictor._load_model_from_info model_info s = (Ok false, s1) ->
             ~ (exists m le c layer, load_steps_succeed model_info s m le c layer) ->
             exists b s',
               ModelPredictor._load_model_from_info model_info s = (Ok b, s') /\
               fs s' = fs s /\
               model_registry_path (predictor s') = model_registry_path (predictor s) /\
               ((b = true /\
                 exists m le c layer,
                   load_steps_succeed model_info s m le c layer /\
                   s' = installed model_info s m le c layer)
                \/
                (b = false /\
                 loaded (predictor s') = loaded (predictor s) /\
                 ~ exists m le c layer, load_steps_succeed model_info s m le c layer))).
  { intros _ s1 H1 H2 H3 H4 H5. exists false, s1. repeat split; auto. }
  specialize (Hno True).
  destruct (fs s !! weights_file model_info) as [fw|] eqn:Hw.
  2:{ eapply Hno; cycle 3.
      - rewrite Ew in Hw. run_monad.
        rewrite (exists_false _ _ Hw). run_monad. reflexivity.
      - intros (x1 & x2 & x3 & x4 & Hw' & _). congruence.
      - reflexivity.
      - reflexivity.
      - reflexivity. }
  destruct fw as [j|m| |].
  1,3,4: (eapply Hno; cycle 3;
    [ rewrite Ew in Hw; run_monad;
      rewrite (exists_true _ _ _ Hw); run_monad; rewrite Hw; run_monad;
      reflexivity
    | intros (x1 & x2 & x3 & x4 & Hw' & _); congruence
    | reflexivity | reflexivity | reflexivity ]).
  destruct (fs s !! encoder_file model_info) as [fe|] eqn:He.
  2:{ eapply Hno; cycle 3.
      - rewrite Ew in Hw. rewrite Ee in He. run_monad.
        rewrite (exists_true _ _ _ Hw). run_monad. rewrite Hw. run_monad.
        rewrite He. run_monad. reflexivity.
      - intros (x1 & x2 & x3 & x4 & _ & He' & _). congruence.
      - reflexivity.
      - reflexivity.
      - reflexivity. }
  destruct fe as [j| |enc|].
  1,2,4: (eapply Hno; cycle 3;
    [ rewrite Ew in Hw; rewrite Ee in He; run_monad;
      rewrite (exists_true _ _ _ Hw); run_monad; rewrite Hw; run_monad;
      rewrite He; run_monad; reflexivity
    | intros (x1 & x2 & x3 & x4 & _ & He' & _); congruence
    | reflexivity | reflexivity | reflexivity ]).
  destruct (fs s !! config_file model_info) as [fc|] eqn:Hc.
  2:{ eapply Hno; cycle 3.
      - rewrite Ew in Hw. rewrite Ee in He. rewrite Ec in Hc. run_monad.
        rewrite (exists_true _ _ _ Hw). run_monad. rewrite Hw. run_monad.
        rewrite He. run_monad. rewrite Hc. run_monad. reflexivity.
      - intros (x1 & x2 & x3 & x4 & _ & _ & Hc' & _). congruence.
      - reflexivity.
      - reflexivity.
      - reflexivity. }
  destruct fc as [[r|c|]| | |].
  1,3,4,5,6: (eapply Hno; cycle 3;
    [ rewrite Ew in Hw; rewrite Ee in He; rewrite Ec in Hc; run_monad;
      rewrite (exists_true _ _ _ Hw); run_monad; rewrite Hw; run_monad;
      rewrite He; run_monad; rewrite Hc; run_monad; reflexivity
    | intros (x1 & x2 & x3 & x4 & _ & _ & Hc' & _); congruence
    | reflexivity | reflexivity | reflexivity ]).
  destruct (TextVectorization (max_tokens c) (output_mode c)
              (output_sequence_length c) (vocabulary c)) as [layer|e] eqn:Hl.
  - exists true, (installed model_info s m enc c layer).
    split; [now apply load_model_from_info_ok|].
    repeat split. left. split; [reflexivity|].
    exists m, enc, c, layer. now repeat split.
  - eapply Hno; cycle 3.
    + rewrite Ew in Hw. rewrite Ee in He. rewrite Ec in Hc. run_monad.
      rewrite (exists_true _ _ _ Hw). run_monad. rewrite Hw. run_monad.
      rewrite He. run_monad. rewrite Hc. run_monad. rewrite Hl. run_monad.
      reflexivity.
    + intros (x1 & x2 & x3 & x4 & _ & _ & Hc' & Hl').
      rewrite Hc in Hc'. injection Hc' as <-. congruence.
    + reflexivity.
    + reflexivity.
    + reflexivity.
Qed.

End LoadRuns.

(** ** One row of model output, classified *)


Lemma argmax_from_spec l :
  forall pre best_i best,
    pre !! best_i = Some best ->
    (forall j x, pre !! j = Some x -> (x <= best)%Q) ->
    (forall j x, (j < best_i)%nat -> pre !! j = Some x -> (x < best)%Q) ->
    exists v,
      (pre ++ l) !! argmax_from best_i best (length pre) l = Some v /\
      (forall j x, (pre ++ l) !! j = Some x -> (x <= v)%Q) /\
      (forall j x, (j < argmax_from best_i best (length pre) l)%nat ->
                   (pre ++ l) !! j = Some x -> (x < v)%Q).
Proof.
  induction l as [|x l IH]; intros pre best_i best Hbest Hmax Hfirst; cbn [argmax_from].
  - rewrite app_nil_r. eauto.
  - replace (pre ++ x :: l) with ((pre ++ [x]) ++ l) by now rewrite <- app_assoc.
    replace (S (length pre)) with (length (pre ++ [x]))
      by (rewrite length_app; cbn; lia).
    destruct (Qle_bool x best) eqn:E.
    + apply Qle_bool_iff in E.
      apply IH.
      * apply lookup_app_l_Some. exact Hbest.
      * intros j y Hj. apply lookup_app_Some in Hj as [Hj|[_ Hj]]; [eauto|].
        apply list_lookup_singleton_Some in Hj as [_ <-]. exact E.
      * intros j y Hlt Hj. apply lookup_app_Some in Hj as [Hj|[Hge _]]; [eauto|].
        apply lookup_lt_Some in Hbest. lia.
    + assert (Hlt : (best < x)%Q).
      { apply Qnot_le_lt. intros Hle. apply Qle_bool_iff in Hle. congruence. }
      apply IH.
      * now apply list_lookup_middle.
      * intros j y Hj. apply lookup_app_Some in Hj as [Hj|[_ Hj]].
        -- apply Qle_trans with best; [eauto|now apply Qlt_le_weak].
        -- apply list_lookup_singleton_Some in Hj as [_ <-]. apply Qle_refl.
      * intros j y Hj1 Hj. apply lookup_app_Some in Hj as [Hj|[Hge _]]; [|lia].
        apply Qle_lt_trans with best; [eauto|exact Hlt].
Qed.

(** [np.argmax]: a position of a largest entry, and the first such. *)
Lemma np_argmax_spec row idx :
  np_argmax row = Ok idx ->
  exists v,
    row !! idx = Some v /\
    (forall j x, row !! j = Some x -> (x <= v)%Q) /\
    (forall j x, (j < idx)%nat -> row !! j = Some x -> (x < v)%Q).
Proof.
  destruct row as [|x l]; [discriminate|]. cbn [np_argmax].
  intros [= <-].
  apply (argmax_from_spec l [x] 0%nat x).
  - reflexivity.
  - intros j y Hj. apply list_lookup_singleton_Some in Hj as [_ <-]. apply Qle_refl.
  - intros j y Hj. lia.
Qed.

Lemma np_argmax_ok row :
  row <> [] -> exists idx, np_argmax row = Ok idx /\ (idx < length row)%nat.
Proof.
  destruct row as [|x l]; [congruence|]. intros _.
  eexists. split; [reflexivity|].
  destruct (np_argmax_spec (x :: l) _ eq_refl) as (v & Hv & _).
  now apply lookup_lt_Some in Hv.
Qed.

Lemma dict_set_fresh k v d :
  ~ In k (map fst d) -> dict_set k v d = d ++ [(k, v)].
Proof.
  induction d as [|[k' v'] d IH]; cbn; intros Hk; [reflexivity|].
  destruct (String.eqb_spec k k') as [->|Hne].
  - exfalso. apply Hk. now left.
  - rewrite IH; [reflexivity|]. intros Hin. apply Hk. now right.
Qed.

Lemma class_probabilities_loop_spec cls :
  forall row i d d',
    class_probabilities_loop row i cls d = Ok d' ->
    (i <= length row)%nat ->
    List.NoDup cls ->
    (forall c, In c cls -> ~ In c (map fst d)) ->
    d' = d ++ combine cls (take (length cls) (drop i row)) /\
    (i + length cls <= length row)%nat.
Proof.
  induction cls as [|c cls IH]; intros row i d d' Hrun Hi Hnd Hfresh.
  - cbn in Hrun. injection Hrun as <-. cbn. rewrite app_nil_r. split; [reflexivity|lia].
  - cbn [class_probabilities_loop] in Hrun. unfold index in Hrun.
    destruct (row !! i) as [p|] eqn:Hp; [|discriminate].
    apply List.NoDup_cons_iff in Hnd as [Hc Hnd].
    pose proof (lookup_lt_Some _ _ _ Hp) as Hlt.
    apply IH in Hrun as [-> Hlen]; [| lia | exact Hnd |].
    + split; [|cbn; lia].
      rewrite dict_set_fresh by (apply Hfresh; now left).
      rewrite <- app_assoc. cbn [app length]. f_equal.
      rewrite (drop_S _ _ _ Hp). reflexivity.
    + intros c' Hin Hin'.
      rewrite dict_set_fresh in Hin' by (apply Hfresh; now left).
      rewrite map_app in Hin'. apply in_app_or in Hin' as [Hin'|[<-|[]]].
      * apply (Hfresh c'); [now right|exact Hin'].
      * contradiction.
Qed.

Lemma class_probabilities_loop_ok cls :
  forall row i d,
    (i + length cls <= length row)%nat ->
    exists d', class_probabilities_loop row i cls d = Ok d'.
Proof.
  induction cls as [|c cls IH]; intros row i d Hlen; cbn [class_probabilities_loop].
  - eauto.
  - cbn in Hlen. unfold index.
    destruct (lookup_lt_is_Some_2 row i) as [p ->]; [lia|].
    apply IH. lia.
Qed.

Lemma dict_get_combine cls :
  forall vals i c v,
    List.NoDup cls ->
    cls !! i = Some c -> vals !! i = Some v ->
    dict_get c (combine cls vals) = Some v.
Proof.
  induction cls as [|c0 cls IH]; intros vals i c v Hnd Hc Hv; [discriminate|].
  destruct vals as [|v0 vals]; [discriminate|].
  apply List.NoDup_cons_iff in Hnd as [Hc0 Hnd].
  cbn [combine dict_get].
  destruct i as [|i]; cbn in Hc, Hv.
  - injection Hc as ->. injection Hv as ->. now rewrite String.eqb_refl.
  - destruct (String.eqb_spec c c0) as [->|Hne].
    + exfalso. apply Hc0. apply list_elem_of_In. eapply list_elem_of_lookup_2. exact Hc.
    + eapply IH; eauto.
Qed.

Lemma dict_get_combine_inv cls :
  forall vals c v,
    dict_get c (combine cls vals) = Some v ->
    exists i, cls !! i = Some c /\ vals !! i = Some v /\
              forall j, (j < i)%nat -> cls !! j <> Some c.
Proof.
  induction cls as [|c0 cls IH]; intros vals c v Hget; [discriminate|].
  destruct vals as [|v0 vals]; [discriminate|].
  cbn [combine dict_get] in Hget.
  destruct (String.eqb_spec c c0) as [->|Hne].
  - injection Hget as ->. exists 0%nat. repeat split. intros j Hj. lia.
  - apply IH in Hget as (i & Hc & Hv & Hfirst).
    exists (S i). repeat split; try assumption.
    intros [|j] Hj; cbn; [congruence|]. apply Hfirst. lia.
Qed.

Lemma map_fst_combine (cls : list string) (vals : list Q) :
  length cls = length vals -> map fst (combine cls vals) = cls.
Proof.
  revert vals. induction cls as [|c cls IH]; intros [|v vals] Hlen;
    try discriminate; cbn; [reflexivity|].
  f_equal. apply IH. now injection Hlen.
Qed.

Lemma map_snd_combine (cls : list string) (vals : list Q) :
  length cls = length vals -> map snd (combine cls vals) = vals.
Proof.
  revert vals. induction cls as [|c cls IH]; intros [|v vals] Hlen;
    try discriminate; cbn; [reflexivity|].
  f_equal. apply IH. now injection Hlen.
Qed.

Lemma classify_intro le row idx pc conf probs :
  np_argmax row = Ok idx ->
  inverse_transform le idx = Ok pc ->
  index row idx = Ok conf ->
  class_probabilities_loop row 0 (classes_ le) [] = Ok probs ->
  classify le row = Ok (pc, conf, probs).
Proof. unfold classify. now intros -> -> -> ->. Qed.

Lemma classify_inv le row pc conf probs :
  classify le row = Ok (pc, conf, probs) ->
  exists idx,
    np_argmax row = Ok idx /\
    inverse_transform le idx = Ok pc /\
    index row idx = Ok conf /\
    class_probabilities_loop row 0 (classes_ le) [] = Ok probs.
Proof.
  unfold classify.
  destruct (np_argmax row) as [idx|] eqn:E1; [|discriminate].
  destruct (inverse_transform le idx) as [pc'|] eqn:E2; [|discriminate].
  destruct (index row idx) as [conf'|] eqn:E3; [|discriminate].
  destruct (class_probabilities_loop row 0 (classes_ le) []) as [probs'|] eqn:E4;
    [|discriminate].
  intros [= <- <- <-]. exists idx. now repeat split.
Qed.

(** What a classified row looks like when the class names are distinct:
    the predicted label sits at the first position of a largest entry, and
    the mapping pairs the labels with the leading entries of the row. *)
Lemma classify_spec le row pc conf probs :
  classify le row = Ok (pc, conf, probs) ->
  List.NoDup (classes_ le) ->
  exists idx,
    classes_ le !! idx = Some pc /\
    row !! idx = Some conf /\
    (forall j x, row !! j = Some x -> (x <= conf)%Q) /\
    (forall j x, (j < idx)%nat -> row !! j = Some x -> (x < conf)%Q) /\
    (length (classes_ le) <= length row)%nat /\
    probs = combine (classes_ le) (take (length (classes_ le)) row).
Proof.
  intros Hc Hnd.
  destruct (classify_inv _ _ _ _ _ Hc) as (idx & Hidx & Hinv & Hconf & Hloop).
  exists idx.
  unfold inverse_transform in Hinv.
  destruct (classes_ le !! idx) as [c|] eqn:Hcls; [|discriminate].
  injection Hinv as ->.
  unfold index in Hconf.
  destruct (row !! idx) as [v|] eqn:Hrow; [|discriminate].
  injection Hconf as ->.
  destruct (np_argmax_spec _ _ Hidx) as (v & Hv & Hmax & Hfirst).
  rewrite Hrow in Hv. injection Hv as <-.
  apply class_probabilities_loop_spec in Hloop as [-> Hlen];
    [ | lia | exact Hnd | intros ? _ [] ].
  cbn in Hlen. repeat split; auto.
Qed.

Lemma classify_ok le row :
  row <> [] -> length row = length (classes_ le) ->
  exists pc conf probs, classify le row = Ok (pc, conf, probs).
Proof.
  intros Hne Hlen.
  destruct (np_argmax_ok row Hne) as (idx & Hidx & Hlt).
  destruct (lookup_lt_is_Some_2 (classes_ le) idx) as [pc Hpc]; [lia|].
  destruct (lookup_lt_is_Some_2 row idx) as [conf Hconf]; [lia|].
  destruct (class_probabilities_loop_ok (classes_ le) row 0 []) as [probs Hprobs];
    [lia|].
  exists pc, conf, probs.
  apply (classify_intro le row idx); try assumption.
  - unfold inverse_transform. now rewrite Hpc.
  - unfold index. now rewrite Hconf.
Qed.

(** ** Runs of [predict] and [predict_batch] *)

Section PredictRuns.
Context `{Runtime}.

Lemma predict_inv t s pr s' :
  ModelPredictor.predict t s = (Ok pr, s') ->
  exists layer m le batch preds row,
    loaded (predictor s) = true /\
    vectorize_layer (predictor s) = Some layer /\
    model (predictor s) = Some m /\
    label_encoder (predictor s) = Some le /\
    vectorize_call layer [t] = Ok batch /\
    model_predict m batch = Ok preds /\
    index preds 0 = Ok row /\
    classify le row
      = Ok (predicted_class pr, confidence pr, class_probabilities pr) /\
    text pr = t /\
    predictor s' = predictor s /\
    trace s' = trace s ++ [Vectorized [t]; Inference (model_id m) batch].
Proof.
  intros Hrun. run_monad in Hrun.
  destruct (loaded (predictor s)) eqn:Hl; cbn [negb] in Hrun; [|discriminate].
  run_monad in Hrun.
  destruct (vectorize_layer (predictor s)) as [layer|] eqn:Hlayer; [|discriminate].
  run_monad in Hrun.
  destruct (vectorize_call layer [t]) as [batch|e] eqn:Hv; [|discriminate].
  run_monad in Hrun.
  destruct (model (predictor s)) as [m|] eqn:Hm; [|discriminate].
  run_monad in Hrun.
  destruct (model_predict m batch) as [preds|e] eqn:Hp; [|discriminate].
  run_monad in Hrun.
  destruct (index preds 0) as [row|e] eqn:Hrow; [|discriminate].
  destruct (np_argmax row) as [idx|e] eqn:Hidx; [|discriminate].
  destruct (label_encoder (predictor s)) as [le|] eqn:Hle; [|discriminate].
  run_monad in Hrun.
  destruct (inverse_transform le idx) as [pc|e] eqn:Hpc; [|discriminate].
  destruct (index row idx) as [conf|e] eqn:Hconf; [|discriminate].
  destruct (class_probabilities_loop row 0 (classes_ le) []) as [probs|e] eqn:Hprobs;
    [|discriminate].
  run_monad in Hrun.
  injection Hrun as <- <-.
  exists layer, m, le, batch, preds, row. cbn.
  repeat split; try assumption; try reflexivity.
  - now apply (classify_intro le row idx).
  - now rewrite <- app_assoc.
Qed.

Lemma predict_intro t s layer m le batch preds row pc conf probs :
  loaded (predictor s) = true ->
  vectorize_layer (predictor s) = Some layer ->
  model (predictor s) = Some m ->
  label_encoder (predictor s) = Some le ->
  vectorize_call layer [t] = Ok batch ->
  model_predict m batch = Ok preds ->
  index preds 0 = Ok row ->
  classify le row = Ok (pc, conf, probs) ->
  exists elapsed s',
    ModelPredictor.predict t s
      = (Ok {| text := t; predicted_class := pc; confidence := conf;
               class_probabilities := probs; processing_time := elapsed |}, s').
Proof.
  intros Hl Hlayer Hm Hle Hv Hp Hrow Hc.
  destruct (classify_inv _ _ _ _ _ Hc) as (idx & Hidx & Hpc & Hconf & Hprobs).
  run_monad. rewrite Hl. run_monad. rewrite Hlayer. run_monad.
  rewrite Hv. run_monad. rewrite Hm. run_monad. rewrite Hp. run_monad.
  rewrite Hrow, Hidx, Hle. run_monad. rewrite Hpc, Hconf, Hprobs. run_monad.
  eauto.
Qed.

(** The loop of [predict_batch] leaves the state alone and classifies
    row [i + j] of the predictions for text [j]. *)
Lemma batch_loop_inv preds texts :
  forall i s items s',
    ModelPredictor.batch_loop preds i texts s = (Ok items, s') ->
    s' = s /\
    map item_text items = texts /\
    forall j t, texts !! j = Some t ->
      exists le row item,
        label_encoder (predictor s) = Some le /\
        index preds (i + j) = Ok row /\
        items !! j = Some item /\
        item_text item = t /\
        classify le row
          = Ok (item_predicted_class item, item_confidence item,
                item_class_probabilities item).
Proof.
  induction texts as [|t0 rest IH]; intros i s items s' Hrun.
  - cbn in Hrun. injection Hrun as <- <-. repeat split. intros j t Hj. discriminate.
  - cbn [ModelPredictor.batch_loop] in Hrun. run_monad in Hrun.
    destruct (index preds i) as [row|e] eqn:Hrow; [|discriminate].
    destruct (np_argmax row) as [idx|e] eqn:Hidx; [|discriminate].
    destruct (label_encoder (predictor s)) as [le|] eqn:Hle; [|discriminate].
    run_monad in Hrun.
    destruct (inverse_transform le idx) as [pc|e] eqn:Hpc; [|discriminate].
    destruct (index row idx) as [conf|e] eqn:Hconf; [|discriminate].
    destruct (class_probabilities_loop row 0 (classes_ le) []) as [probs|e] eqn:Hprobs;
      [|discriminate].
    destruct (ModelPredictor.batch_loop preds (S i) rest s) as [[tl|e] s1] eqn:Htl;
      [|discriminate].
    injection Hrun as <- <-.
    apply IH in Htl as (-> & Htexts & Hitems).
    split; [reflexivity|]. split; [cbn; now rewrite Htexts|].
    intros [|j] t Hj; cbn in Hj.
    + injection Hj as <-. eexists le, row, _.
      replace (i + 0)%nat with i by lia.
      repeat split; try eassumption; try reflexivity.
      cbn. now apply (classify_intro le row idx).
    + destruct (Hitems j t Hj) as (le' & row' & item & Hle' & Hrow' & Hit & Ht & Hc).
      exists le', row', item.
      replace (i + S j)%nat with (S i + j)%nat by lia.
      rewrite Hle in Hle'. now repeat split.
Qed.

Lemma batch_loop_ok preds le texts :
  forall i s,
    label_encoder (predictor s) = Some le ->
    (forall j, (j < length texts)%nat ->
       exists row pc conf probs,
         index preds (i + j) = Ok row /\ classify le row = Ok (pc, conf, probs)) ->
    exists items,
      ModelPredictor.batch_loop preds i texts s = (Ok items, s) /\
      length items = length texts.
Proof.
  induction texts as [|t0 rest IH]; intros i s Hle Hrows.
  - exists []. split; reflexivity.
  - destruct (Hrows 0%nat) as (row & pc & conf & probs & Hrow & Hc); [cbn; lia|].
    replace (i + 0)%nat with i in Hrow by lia.
    destruct (classify_inv _ _ _ _ _ Hc) as (idx & Hidx & Hpc & Hconf & Hprobs).
    destruct (IH (S i) s Hle) as (tl & Htl & Hlen).
    { intros j Hj. replace (S i + j)%nat with (i + S j)%nat by lia.
      apply Hrows. cbn. lia. }
    eexists. cbn [ModelPredictor.batch_loop]. run_monad.
    rewrite Hrow, Hidx, Hle. run_monad. rewrite Hpc, Hconf, Hprobs, Htl.
    split; [reflexivity|]. cbn. now rewrite Hlen.
Qed.

Lemma predict_batch_inv texts s r s' :
  ModelPredictor.predict_batch texts s = (Ok r, s') ->
  exists layer m batch preds s1,
    loaded (predictor s) = true /\
    vectorize_layer (predictor s) = Some layer /\
    model (predictor s) = Some m /\
    vectorize_call layer texts = Ok batch /\
    model_predict m batch = Ok preds /\
    ModelPredictor.batch_loop preds 0 texts s1 = (Ok (results r), s1) /\
    predictor s1 = predictor s /\
    total_texts r = length texts /\
    batch_processing_time r
      = (time_time (S (clock s)) - time_time (clock s))%Q /\
    predictor s' = predictor s /\
    trace s' = trace s ++ [Vectorized texts; Inference (model_id m) batch].
Proof.
  intros Hrun. run_monad in Hrun.
  destruct (loaded (predictor s)) eqn:Hl; cbn [negb] in Hrun; [|discriminate].
  run_monad in Hrun.
  destruct (vectorize_layer (predictor s)) as [layer|] eqn:Hlayer; [|discriminate].
  run_monad in Hrun.
  destruct (vectorize_call layer texts) as [batch|e] eqn:Hv; [|discriminate].
  run_monad in Hrun.
  destruct (model (predictor s)) as [m|] eqn:Hm; [|discriminate].
  run_monad in Hrun.
  destruct (model_predict m batch) as [preds|e] eqn:Hp; [|discriminate].
  run_monad in Hrun.
  match type of Hrun with context [ModelPredictor.batch_loop preds 0 texts ?s1] =>
    destruct (ModelPredictor.batch_loop preds 0 texts s1) as [[items|e] s2] eqn:Hloop;
      [|discriminate];
    pose proof (batch_loop_inv _ _ _ _ _ _ Hloop) as (-> & _ & _)
  end.
  run_monad in Hrun. injection Hrun as <- <-.
  eexists layer, m, batch, preds, _.
  cbn [results total_texts batch_processing_time predictor trace clock].
  repeat match goal with |- _ /\ _ => split end;
    try eassumption; try reflexivity.
  now rewrite <- app_assoc.
Qed.

End PredictRuns.

(** ** Claims about prediction *)

(** C5.  On a predictor whose loaded flag is false, [predict] and
    [predict_batch] raise the model-not-loaded RuntimeError for every input,
    and the state is untouched: nothing was vectorized, no inference ran. *)
Theorem predict_requires_loaded_model :
  forall (R : Runtime) (s : state) (t : string) (texts : list string),
    loaded (predictor s) = false ->
    ModelPredictor.predict t s = (Raise (RuntimeError MsgModelNotLoaded), s) /\
    ModelPredictor.predict_batch texts s
      = (Raise (RuntimeError MsgModelNotLoaded), s).
Proof.
  intros R s t texts Hl. split; run_monad; rewrite Hl; reflexivity.
Qed.

Lemma predict_requires_loaded_model_witness :
  loaded (predictor Scenario.registered) = false /\
  ModelPredictor.predict (H := Scenario.runtime) "hello" Scenario.registered
    = (Raise (RuntimeError MsgModelNotLoaded), Scenario.registered) /\
  ModelPredictor.predict_batch (H := Scenario.runtime) ["a"; "bb"] Scenario.registered
    = (Raise (RuntimeError MsgModelNotLoaded), Scenario.registered).
Proof.
  split.
  - vm_compute. reflexivity.
  - apply (predict_requires_loaded_model Scenario.runtime Scenario.registered).
    vm_compute. reflexivity.
Defined.


Lemma index_In {A} (l : list A) i x : index l i = Ok x -> In x l.
Proof.
  unfold index. destruct (l !! i) as [y|] eqn:E; [|discriminate].
  intros [= <-]. apply list_elem_of_In. eapply list_elem_of_lookup_2. exact E.
Qed.

Lemma index_lookup {A} (l : list A) i x : index l i = Ok x <-> l !! i = Some x.
Proof.
  unfold index. destruct (l !! i); split; intros E; try discriminate;
    injection E as ->; reflexivity.
Qed.

(** C6, as the code has it.  In every result that [predict] returns, for
    a label encoder with distinct class names: the mapping has exactly the
    known labels as keys, the confidence is the value at the predicted
    class, no value is larger, and the predicted class is the first label
    of largest value.  The values are the first entries of the output row
    of the model, one per label; they sum to 1 within 1e-3 when the model
    is a softmax over exactly these labels. *)
Theorem prediction_result_consistent :
  forall (R : Runtime) (s s' : state) (t : string) (pr : PredictionResult)
         (le : LabelEncoder),
    ModelPredictor.predict t s = (Ok pr, s') ->
    label_encoder (predictor s) = Some le ->
    List.NoDup (classes_ le) ->
    map fst (class_probabilities pr) = classes_ le /\
    (forall c, In c (classes_ le) ->
               exists p, dict_get c (class_probabilities pr) = Some p) /\
    dict_get (predicted_class pr) (class_probabilities pr) = Some (confidence pr) /\
    (forall c p, dict_get c (class_probabilities pr) = Some p ->
                 (p <= confidence pr)%Q) /\
    (exists idx,
        classes_ le !! idx = Some (predicted_class pr) /\
        forall j c p, (j < idx)%nat -> classes_ le !! j = Some c ->
                      dict_get c (class_probabilities pr) = Some p ->
                      (p < confidence pr)%Q) /\
    (exists layer m batch preds row,
        vectorize_layer (predictor s) = Some layer /\
        model (predictor s) = Some m /\
        vectorize_call layer [t] = Ok batch /\
        model_predict m batch = Ok preds /\
        preds !! 0%nat = Some row /\
        (length (classes_ le) <= length row)%nat /\
        dict_values (class_probabilities pr)
          = take (length (classes_ le)) row) /\
    (forall m,
        model (predictor s) = Some m ->
        softmax_model (length (classes_ le)) m ->
        (Qabs (Qsum (dict_values (class_probabilities pr)) - 1) <= 1 # 1000)%Q).
Proof.
  intros R s s' t pr le Hrun Hle Hnd.
  destruct (predict_inv _ _ _ _ Hrun)
    as (layer & m & le' & batch & preds & row & _ & Hlayer & Hm & Hle' & Hv & Hp &
        Hrow & Hc & _).
  rewrite Hle in Hle'. injection Hle' as <-.
  destruct (classify_spec _ _ _ _ _ Hc Hnd)
    as (idx & Hpc & Hconf & Hmax & Hfirst & Hwide & Hprobs).
  assert (Hlen : length (take (length (classes_ le)) row) = length (classes_ le)).
  { rewrite length_take. lia. }
  assert (Htake : forall i p, take (length (classes_ le)) row !! i = Some p ->
                              row !! i = Some p).
  { intros i p Hi. rewrite lookup_take_Some in Hi. tauto. }
  assert (Hget : forall i c, classes_ le !! i = Some c ->
                   exists p, row !! i = Some p /\
                             dict_get c (class_probabilities pr) = Some p).
  { intros i c Hi.
    destruct (lookup_lt_is_Some_2 (take (length (classes_ le)) row) i) as [p Hp'].
    { rewrite Hlen. eapply lookup_lt_Some. exact Hi. }
    exists p. split; [now apply Htake|].
    rewrite Hprobs. eapply dict_get_combine; eauto. }
  assert (Hvalues : dict_values (class_probabilities pr)
                    = take (length (classes_ le)) row).
  { unfold dict_values. rewrite Hprobs. now apply map_snd_combine. }
  split; [rewrite Hprobs; apply map_fst_combine; now symmetry|].
  split.
  { intros c Hin. apply list_elem_of_In, list_elem_of_lookup_1 in Hin as [i Hi].
    destruct (Hget i c Hi) as (p & _ & Hp'). eauto. }
  split.
  { destruct (Hget idx _ Hpc) as (p & Hp1 & Hp2). congruence. }
  split.
  { intros c p Hp'. rewrite Hprobs in Hp'.
    apply dict_get_combine_inv in Hp' as (i & _ & Hi & _).
    apply Htake in Hi. eauto. }
  split.
  { exists idx. split; [exact Hpc|].
    intros j c p Hj Hcj Hp'.
    destruct (Hget j c Hcj) as (p' & Hp1 & Hp2).
    assert (p = p') as -> by congruence. eauto. }
  split.
  { exists layer, m, batch, preds, row.
    repeat match goal with |- _ /\ _ => split end; try assumption.
    now apply index_lookup. }
  intros m0 Hm0 Hsoft.
  rewrite Hm in Hm0. injection Hm0 as <-.
  destruct (Hsoft batch preds row Hp (index_In _ _ _ Hrow)) as [Hlen' Hsum].
  rewrite Hvalues, <- Hlen', firstn_all. exact Hsum.
Qed.


Lemma constant_model_softmax name row n :
  length row = n -> (Qabs (Qsum row - 1) <= 1 # 1000)%Q ->
  softmax_model n (Scenario.constant_model name row).
Proof.
  intros Hlen Hsum batch preds row' Hp Hin. cbn in Hp. injection Hp as <-.
  apply in_map_iff in Hin as (x & <- & _). now split.
Qed.

Lemma labels_v2_distinct : List.NoDup Scenario.labels_v2.
Proof.
  repeat constructor; cbn; intuition discriminate.
Qed.

Lemma prediction_result_consistent_witness :
  ModelPredictor.predict (H := Scenario.runtime) "hello" Scenario.serving
    = (Ok Scenario.hello_result, Scenario.after_hello) /\
  label_encoder (predictor Scenario.serving)
    = Some {| classes_ := Scenario.labels_v2 |} /\
  List.NoDup Scenario.labels_v2 /\
  softmax_model 3 Scenario.model_v2 /\
  map fst (class_probabilities Scenario.hello_result) = Scenario.labels_v2 /\
  dict_get (predicted_class Scenario.hello_result)
           (class_probabilities Scenario.hello_result)
    = Some (confidence Scenario.hello_result) /\
  (Qabs (Qsum (dict_values (class_probabilities Scenario.hello_result)) - 1)
     <= 1 # 1000)%Q.
Proof.
  assert (Hrun : ModelPredictor.predict (H := Scenario.runtime) "hello" Scenario.serving
                 = (Ok Scenario.hello_result, Scenario.after_hello))
    by (vm_compute; reflexivity).
  assert (Hle : label_encoder (predictor Scenario.serving)
                = Some {| classes_ := Scenario.labels_v2 |})
    by (vm_compute; reflexivity).
  assert (Hsoft : softmax_model 3 Scenario.model_v2).
  { apply constant_model_softmax; [reflexivity|]. vm_compute. discriminate. }
  destruct (prediction_result_consistent Scenario.runtime Scenario.serving
              Scenario.after_hello "hello" Scenario.hello_result
              {| classes_ := Scenario.labels_v2 |} Hrun Hle labels_v2_distinct)
    as (Hkeys & _ & Hconf & _ & _ & _ & Hsum).
  split; [exact Hrun|]. split; [exact Hle|].
  split; [exact labels_v2_distinct|]. split; [exact Hsoft|].
  split; [exact Hkeys|]. split; [exact Hconf|].
  apply (Hsum Scenario.model_v2); [vm_compute; reflexivity|exact Hsoft].
Defined.

(** C6 as stated fails: a version whose network has four outputs is
    registered and loaded next to a label encoder of three labels, and
    [predict] returns a result whose mapping sums to 9/10. *)
Lemma prediction_mapping_sums_below_one :
  fst (ModelPredictor.load_best_model (H := Scenario.runtime)
         (snd (ModelTrainer._update_model_registry Scenario.trainer
                 Cases.overwide
                 (Scenario.boot
                    (Scenario.save_artifacts Cases.overwide
                       Cases.overwide_model Scenario.labels_v1 ∅)))))
    = Ok true /\
  exists pr s',
    ModelPredictor.predict (H := Scenario.runtime) "hello" Cases.serving_overwide
      = (Ok pr, s') /\
    class_probabilities pr
      = [("life", 5 # 10); ("tech", 3 # 10); ("weather", 1 # 10)]%Q /\
    (Qsum (dict_values (class_probabilities pr)) == 9 # 10)%Q /\
    ~ (Qabs (Qsum (dict_values (class_probabilities pr)) - 1) <= 1 # 1000)%Q.
Proof.
  split; [vm_compute; reflexivity|].
  eexists. eexists. split; [vm_compute; reflexivity|].
  cbn [class_probabilities].
  split; [reflexivity|]. split; [vm_compute; reflexivity|].
  vm_compute. intros H. now apply H.
Qed.


(** C9.  A successful [predict_batch] returns one item per input text, in
    input order, with [total_texts] the number of texts and one processing
    time for the whole call (the difference of two clock readings; an item
    has no time of its own).  With a vectorizer and a model that treat rows
    independently, the item of a text agrees, field by field, with what
    [predict] returns for that text in the same state. *)
Theorem batch_results_follow_inputs :
  forall (R : Runtime) (s s' : state) (texts : list string) (r : BatchResult),
    ModelPredictor.predict_batch texts s = (Ok r, s') ->
    length (results r) = length texts /\
    map item_text (results r) = texts /\
    total_texts r = length texts /\
    batch_processing_time r = (time_time (S (clock s)) - time_time (clock s))%Q /\
    (forall layer m,
        vectorize_layer (predictor s) = Some layer ->
        model (predictor s) = Some m ->
        rowwise_layer layer -> rowwise_model m ->
        forall i t item,
          texts !! i = Some t -> results r !! i = Some item ->
          exists pr s'',
            ModelPredictor.predict t s = (Ok pr, s'') /\
            text pr = item_text item /\
            predicted_class pr = item_predicted_class item /\
            confidence pr = item_confidence item /\
            class_probabilities pr = item_class_probabilities item).
Proof.
  intros R s s' texts r Hrun.
  destruct (predict_batch_inv _ _ _ _ Hrun)
    as (layer & m & batch & preds & s1 & Hl & Hlayer & Hm & Hv & Hp & Hloop &
        Hs1 & Htotal & Htime & _).
  destruct (batch_loop_inv _ _ _ _ _ _ Hloop) as (_ & Htexts & Hitems).
  split; [rewrite <- (length_map item_text (results r)); now rewrite Htexts|].
  split; [exact Htexts|]. split; [exact Htotal|]. split; [exact Htime|].
  intros layer' m' Hlayer' Hm' Hrl Hrm i t item Ht Hitem.
  rewrite Hlayer in Hlayer'. injection Hlayer' as <-.
  rewrite Hm in Hm'. injection Hm' as <-.
  destruct (Hitems i t Ht) as (le & row & item' & Hle & Hrow & Hitem' & Htext & Hc).
  rewrite Hitem in Hitem'. injection Hitem' as <-.
  rewrite Hs1 in Hle. cbn [plus] in Hrow. apply index_lookup in Hrow.
  destruct (Hrl texts batch Hv i t Ht) as (v & Hbv & Hv1).
  pose proof (Hrm batch preds Hp i v row Hbv Hrow) as Hp1.
  destruct (predict_intro t s layer m le [v] [row] row _ _ _
              Hl Hlayer Hm Hle Hv1 Hp1 eq_refl Hc) as (elapsed & s'' & Hrun1).
  eexists _, s''. split; [exact Hrun1|]. cbn. now rewrite Htext.
Qed.

Lemma length_layer_rowwise : rowwise_layer Scenario.length_layer.
Proof.
  intros texts batch Hv i t Ht. cbn in Hv. injection Hv as <-.
  eexists. split; [|reflexivity].
  rewrite list_lookup_fmap, Ht. reflexivity.
Qed.

Lemma constant_model_rowwise name row : rowwise_model (Scenario.constant_model name row).
Proof.
  intros batch preds Hp i v row' Hv Hrow. cbn in Hp. injection Hp as <-.
  rewrite list_lookup_fmap, Hv in Hrow. cbn in Hrow. injection Hrow as <-.
  reflexivity.
Qed.

Lemma batch_results_follow_inputs_witness :
  exists r s',
    ModelPredictor.predict_batch (H := Scenario.runtime) ["a"; "bb"; "ccc"]
      Scenario.serving = (Ok r, s') /\
    length (results r) = 3%nat /\
    map item_text (results r) = ["a"; "bb"; "ccc"] /\
    total_texts r = 3%nat /\
    batch_processing_time r
      = (time_time (Runtime := Scenario.runtime) (S (clock Scenario.serving))
         - time_time (Runtime := Scenario.runtime) (clock Scenario.serving))%Q /\
    (forall layer m,
        vectorize_layer (predictor Scenario.serving) = Some layer ->
        model (predictor Scenario.serving) = Some m ->
        rowwise_layer layer -> rowwise_model m ->
        forall i t item,
          ["a"; "bb"; "ccc"] !! i = Some t -> results r !! i = Some item ->
          exists pr s'',
            ModelPredictor.predict (H := Scenario.runtime) t Scenario.serving
              = (Ok pr, s'') /\
            text pr = item_text item /\
            predicted_class pr = item_predicted_class item /\
            confidence pr = item_confidence item /\
            class_probabilities pr = item_class_probabilities item).
Proof.
  destruct (ModelPredictor.predict_batch (H := Scenario.runtime) ["a"; "bb"; "ccc"]
              Scenario.serving) as [[r|e] s'] eqn:Hrun.
  - exists r, s'. split; [reflexivity|].
    exact (batch_results_follow_inputs Scenario.runtime Scenario.serving s'
             ["a"; "bb"; "ccc"] r Hrun).
  - exfalso. vm_compute in Hrun. discriminate Hrun.
Defined.

Section BatchRuns.
Context `{Runtime}.

Lemma predict_batch_intro texts s layer m le batch preds :
  loaded (predictor s) = true ->
  vectorize_layer (predictor s) = Some layer ->
  model (predictor s) = Some m ->
  label_encoder (predictor s) = Some le ->
  vectorize_call layer texts = Ok batch ->
  model_predict m batch = Ok preds ->
  (forall j, (j < length texts)%nat ->
     exists row pc conf probs,
       index preds j = Ok row /\ classify le row = Ok (pc, conf, probs)) ->
  exists r s',
    ModelPredictor.predict_batch texts s = (Ok r, s') /\
    length (results r) = length texts.
Proof.
  intros Hl Hlayer Hm Hle Hv Hp Hrows.
  run_monad. rewrite Hl. run_monad. rewrite Hlayer. run_monad.
  rewrite Hv. run_monad. rewrite Hm. run_monad. rewrite Hp. run_monad.
  match goal with |- context [ModelPredictor.batch_loop preds 0 texts ?s1] =>
    destruct (batch_loop_ok preds le texts 0 s1 Hle Hrows) as (items & -> & Hlen)
  end.
  run_monad. eexists _, _. split; [reflexivity|]. exact Hlen.
Qed.

End BatchRuns.

(** ** Claims about the batch endpoint *)

(** C8, as the code has it.  A request with more than 100 texts is refused
    by the endpoint before the predictor is called, with the state
    untouched: by the 400 batch-size error when a model is loaded, and by
    the 503 model-not-loaded error, which is checked first, when none is.
    The predictor's own [predict_batch] has no bound on the number of
    texts: on the same texts it returns one result per text whenever the
    vectorizer and the model answer with well-formed rows. *)
Theorem oversize_batch_refused_by_endpoint :
  forall (R : Runtime) (s : state) (request : gmap string (list string))
         (texts : list string),
    request !! "texts" = Some texts ->
    (100 < length texts)%nat ->
    Api.predict_batch request s
      = (Raise (if loaded (predictor s)
                then HTTPException 400 DetailBatchTooLarge
                else HTTPException 503 DetailModelNotLoaded), s) /\
    (forall layer m le batch preds,
        loaded (predictor s) = true ->
        vectorize_layer (predictor s) = Some layer ->
        model (predictor s) = Some m ->
        label_encoder (predictor s) = Some le ->
        vectorize_call layer texts = Ok batch ->
        model_predict m batch = Ok preds ->
        length preds = length texts ->
        Forall (fun row => row <> [] /\ length row = length (classes_ le)) preds ->
        exists r s',
          ModelPredictor.predict_batch texts s = (Ok r, s') /\
          length (results r) = length texts).
Proof.
  intros R s request texts Hreq Hlen. split.
  - unfold Api.predict_batch, Api.endpoint_guard. run_monad.
    destruct (loaded (predictor s)); run_monad; [|reflexivity].
    rewrite Hreq.
    destruct (Nat.ltb_spec 100 (length texts)) as [_|Hge]; [reflexivity|lia].
  - intros layer m le batch preds Hl Hlayer Hm Hle Hv Hp Hn Hrows.
    apply (predict_batch_intro texts s layer m le batch preds); try assumption.
    intros j Hj.
    destruct (lookup_lt_is_Some_2 preds j) as [row Hrow]; [lia|].
    rewrite List.Forall_forall in Hrows.
    destruct (Hrows row) as [Hne Hrl].
    { apply list_elem_of_In. eapply list_elem_of_lookup_2. exact Hrow. }
    destruct (classify_ok le row Hne Hrl) as (pc & conf & probs & Hc).
    exists row, pc, conf, probs. split; [now apply index_lookup|exact Hc].
Qed.

Lemma oversize_batch_refused_by_endpoint_witness :
  ({["texts" := repeat "x" 101]} : gmap string (list string)) !! "texts"
    = Some (repeat "x" 101) /\
  (100 < length (repeat "x" 101))%nat /\
  Api.predict_batch (H := Scenario.runtime) {["texts" := repeat "x" 101]}
    Scenario.serving
    = (Raise (HTTPException 400 DetailBatchTooLarge), Scenario.serving) /\
  exists r s',
    ModelPredictor.predict_batch (H := Scenario.runtime) (repeat "x" 101)
      Scenario.serving = (Ok r, s') /\
    length (results r) = 101%nat.
Proof.
  assert (Hreq : ({["texts" := repeat "x" 101]} : gmap string (list string)) !! "texts"
                 = Some (repeat "x" 101)) by (vm_compute; reflexivity).
  assert (Hlen : (100 < length (repeat "x" 101))%nat) by (cbn; lia).
  destruct (oversize_batch_refused_by_endpoint Scenario.runtime Scenario.serving
              {["texts" := repeat "x" 101]} (repeat "x" 101) Hreq Hlen)
    as [Hendpoint Hpredictor].
  split; [exact Hreq|]. split; [exact Hlen|]. split; [exact Hendpoint|].
  apply (Hpredictor Scenario.length_layer Scenario.model_v2
           {| classes_ := Scenario.labels_v2 |}
           (map (fun t => [Z.of_nat (String.length t)]) (repeat "x" 101))
           (map (fun _ => [(1 # 10)%Q; (1 # 10)%Q; (8 # 10)%Q])
                (map (fun t => [Z.of_nat (String.length t)]) (repeat "x" 101))));
    try (vm_compute; reflexivity).
  apply List.Forall_forall. intros row Hin.
  apply in_map_iff in Hin as (x & <- & _). split; [discriminate|reflexivity].
Defined.

(** C8 as stated fails while no model is loaded: a request with 101 texts
    is answered with the 503 model-not-loaded error, not with the 400
    batch-size error. *)
Lemma oversize_batch_while_unloaded_gets_503 :
  (100 < length (repeat "x" 101))%nat /\
  loaded (predictor Scenario.registered) = false /\
  Api.predict_batch (H := Scenario.runtime) {["texts" := repeat "x" 101]}
    Scenario.registered
    = (Raise (HTTPException 503 DetailModelNotLoaded), Scenario.registered) /\
  HTTPException 503 DetailModelNotLoaded <> HTTPException 400 DetailBatchTooLarge.
Proof.
  split; [cbn; lia|]. split; [vm_compute; reflexivity|].
  split; [vm_compute; reflexivity|discriminate].
Qed.

(** ** Claims about the bundle loader *)





(** ** Claims about reading the registry *)


(** C4, as the code has it.  With no registry file, and with a registry
    file that is not JSON: the trainer's [load_best_model] raises
    (FileNotFoundError, the JSON decode error); the predictor's
    [load_best_model] and [load_model_by_version] log the cause and return
    [False]; [get_available_models] returns the empty list in both cases;
    [_update_model_registry] starts a new registry when there is no file
    and raises the decode error when the file is not JSON. *)
Theorem unreadable_registry_outcomes :
  forall (R : Runtime) (s : state) (self : ModelTrainer.ModelTrainer)
         (version : string) (model_info : ModelInfo),
    ModelTrainer.model_registry_path self = model_registry_path (predictor s) ->
    match fs s !! ModelPredictor.registry_file (predictor s) with
    | None =>
        ModelTrainer.load_best_model self s
          = (Raise (FileNotFoundError MsgRegistryMissing), s) /\
        ModelPredictor.load_best_model s
          = (Ok false, log_error s LogRegistryMissing) /\
        ModelPredictor.load_model_by_version version s
          = (Ok false, log_error s LogRegistryMissing) /\
        ModelPredictor.get_available_models s = (Ok [], s) /\
        exists s',
          ModelTrainer._update_model_registry self model_info s = (Ok tt, s') /\
          ModelTrainer.stored_models self s' = Some [model_info]
    | Some content =>
        unparsable content ->
        ModelTrainer.load_best_model self s = (Raise JSONDecodeError, s) /\
        ModelPredictor.load_best_model s
          = (Ok false, log_error s (LogLoadBestFailed JSONDecodeError)) /\
        ModelPredictor.load_model_by_version version s
          = (Ok false, log_error s (LogLoadVersionFailed version JSONDecodeError)) /\
        ModelPredictor.get_available_models s
          = (Ok [], log_error s (LogListFailed JSONDecodeError)) /\
        ModelTrainer._update_model_registry self model_info s
          = (Raise JSONDecodeError, s)
    end.
Proof.
  intros R s self version model_info Hpath.
  assert (Hfile : ModelTrainer.registry_file self
                  = ModelPredictor.registry_file (predictor s)).
  { unfold ModelTrainer.registry_file, ModelPredictor.registry_file.
    now rewrite Hpath. }
  destruct (fs s !! ModelPredictor.registry_file (predictor s)) as [content|] eqn:Hfs.
  - intros Hbad.
    assert (Hload : json_load (ModelPredictor.registry_file (predictor s)) s
                    = (Raise JSONDecodeError, s)).
    { unfold json_load. rewrite Hfs. destruct content; [destruct Hbad|..]; reflexivity. }
    unfold ModelPredictor.registry_file in Hfs, Hload.
    unfold ModelTrainer.registry_file in Hfile.
    unfold ModelPredictor.registry_file in Hfile.
    repeat match goal with |- _ /\ _ => split end.
    + unfold ModelTrainer.load_best_model, ModelTrainer.registry_file.
      rewrite Hfile. unfold bind at 1.
      rewrite path_exists_run, (exists_true _ _ _ Hfs).
      unfold bind. now rewrite Hload.
    + unfold ModelPredictor.load_best_model, ModelPredictor.registry_file,
        try_except, get_self.
      unfold bind at 1. unfold bind at 1.
      rewrite path_exists_run, (exists_true _ _ _ Hfs). cbn [negb].
      unfold bind at 1. rewrite Hload. reflexivity.
    + unfold ModelPredictor.load_model_by_version, ModelPredictor.registry_file,
        try_except, get_self.
      unfold bind at 1. unfold bind at 1.
      rewrite path_exists_run, (exists_true _ _ _ Hfs). cbn [negb].
      unfold bind at 1. rewrite Hload. reflexivity.
    + unfold ModelPredictor.get_available_models, ModelPredictor.registry_file,
        try_except, get_self.
      unfold bind at 1. unfold bind at 1.
      rewrite path_exists_run, (exists_true _ _ _ Hfs). cbn [negb].
      unfold bind at 1. rewrite Hload. reflexivity.
    + unfold ModelTrainer._update_model_registry, ModelTrainer.registry_file.
      rewrite Hfile. unfold bind at 1.
      rewrite path_exists_run, (exists_true _ _ _ Hfs).
      unfold bind at 1. now rewrite Hload.
  - unfold ModelPredictor.registry_file in Hfs.
    unfold ModelTrainer.registry_file in Hfile.
    unfold ModelPredictor.registry_file in Hfile.
    repeat match goal with |- _ /\ _ => split end.
    + unfold ModelTrainer.load_best_model, ModelTrainer.registry_file.
      rewrite Hfile. unfold bind at 1.
      rewrite path_exists_run, (exists_false _ _ Hfs). reflexivity.
    + run_monad. rewrite (exists_false _ _ Hfs). reflexivity.
    + run_monad. rewrite (exists_false _ _ Hfs). reflexivity.
    + run_monad. rewrite (exists_false _ _ Hfs). reflexivity.
    + eexists. split.
      * apply (update_model_registry_run self model_info s []).
        unfold ModelTrainer.stored_models, ModelTrainer.registry_file.
        now rewrite Hfile, Hfs.
      * apply stored_models_after_write.
Qed.

Lemma unreadable_registry_outcomes_witness :
  ModelTrainer.model_registry_path Scenario.trainer
    = model_registry_path (predictor Scenario.corrupt_registry) /\
  unparsable Garbage /\
  ModelTrainer.load_best_model Scenario.trainer Scenario.corrupt_registry
    = (Raise JSONDecodeError, Scenario.corrupt_registry) /\
  ModelPredictor.load_best_model (H := Scenario.runtime) Scenario.corrupt_registry
    = (Ok false,
       log_error Scenario.corrupt_registry (LogLoadBestFailed JSONDecodeError)) /\
  ModelPredictor.load_model_by_version (H := Scenario.runtime) "v1"
    Scenario.corrupt_registry
    = (Ok false,
       log_error Scenario.corrupt_registry
         (LogLoadVersionFailed "v1" JSONDecodeError)) /\
  ModelPredictor.get_available_models Scenario.corrupt_registry
    = (Ok [], log_error Scenario.corrupt_registry (LogListFailed JSONDecodeError)) /\
  ModelTrainer._update_model_registry Scenario.trainer Scenario.v1
    Scenario.corrupt_registry
    = (Raise JSONDecodeError, Scenario.corrupt_registry).
Proof.
  assert (Hpath : ModelTrainer.model_registry_path Scenario.trainer
                  = model_registry_path (predictor Scenario.corrupt_registry))
    by reflexivity.
  split; [exact Hpath|]. split; [exact I|].
  pose proof (unreadable_registry_outcomes Scenario.runtime
                Scenario.corrupt_registry Scenario.trainer "v1" Scenario.v1 Hpath)
    as Hthm.
  assert (Hfs : fs Scenario.corrupt_registry
                  !! ModelPredictor.registry_file (predictor Scenario.corrupt_registry)
                = Some Garbage) by (vm_compute; reflexivity).
  rewrite Hfs in Hthm. exact (Hthm I).
Defined.

(** C4 as stated fails: with no registry file, and with a registry file
    that is not JSON, [get_available_models] does not fail; its result is
    the empty list. *)
Lemma unreadable_registry_listed_as_empty :
  fs (Scenario.boot Scenario.artifacts)
    !! ModelPredictor.registry_file (predictor (Scenario.boot Scenario.artifacts))
    = None /\
  fst (ModelPredictor.get_available_models (Scenario.boot Scenario.artifacts))
    = Ok [] /\
  fs Scenario.corrupt_registry
    !! ModelPredictor.registry_file (predictor Scenario.corrupt_registry)
    = Some Garbage /\
  fst (ModelPredictor.get_available_models Scenario.corrupt_registry) = Ok [].
Proof. vm_compute. repeat split. Qed.

(** ** Loading: what a failed load leaves behind *)

Section LoadOutcomes.
Context `{Runtime}.

Lemma load_best_model_cases s :
  match selected_best s with
  | Some model_info =>
      ModelPredictor.load_best_model s
        = ModelPredictor._load_model_from_info model_info s
  | None => exists m, ModelPredictor.load_best_model s = (Ok false, log_error s m)
  end.
Proof.
  unfold selected_best.
  destruct (fs s !! ModelPredictor.registry_file (predictor s)) as [f|] eqn:Hfs.
  - destruct f as [[r| |]| | |].
    + destruct (models r) as [|best rest] eqn:Hms; cbn [head].
      * eexists. unfold ModelPredictor.registry_file in Hfs. run_monad.
        rewrite (exists_true _ _ _ Hfs). run_monad. rewrite Hfs. run_monad.
        rewrite Hms. reflexivity.
      * now apply (load_best_model_selects s r best rest).
    + eexists. unfold ModelPredictor.registry_file in Hfs. run_monad.
      rewrite (exists_true _ _ _ Hfs). run_monad. rewrite Hfs. reflexivity.
    + eexists. unfold ModelPredictor.registry_file in Hfs. run_monad.
      rewrite (exists_true _ _ _ Hfs). run_monad. rewrite Hfs. reflexivity.
    + eexists. unfold ModelPredictor.registry_file in Hfs. run_monad.
      rewrite (exists_true _ _ _ Hfs). run_monad. rewrite Hfs. reflexivity.
    + eexists. unfold ModelPredictor.registry_file in Hfs. run_monad.
      rewrite (exists_true _ _ _ Hfs). run_monad. rewrite Hfs. reflexivity.
    + eexists. unfold ModelPredictor.registry_file in Hfs. run_monad.
      rewrite (exists_true _ _ _ Hfs). run_monad. rewrite Hfs. reflexivity.
  - eexists. unfold ModelPredictor.registry_file in Hfs. run_monad.
    rewrite (exists_false _ _ Hfs). reflexivity.
Qed.

Lemma load_model_by_version_cases v s :
  match selected_version v s with
  | Some model_info =>
      ModelPredictor.load_model_by_version v s
        = ModelPredictor._load_model_from_info model_info s
  | None =>
      exists m, ModelPredictor.load_model_by_version v s = (Ok false, log_error s m)
  end.
Proof.
  unfold selected_version.
  destruct (fs s !! ModelPredictor.registry_file (predictor s)) as [f|] eqn:Hfs.
  - destruct f as [[r| |]| | |].
    + destruct (ModelPredictor.find_version v (models r)) as [target|] eqn:Hfind.
      * destruct (load_model_from_info_total target s) as (b & s' & Hrun).
        unfold ModelPredictor.registry_file in Hfs.
        unfold ModelPredictor.load_model_by_version, try_except.
        unfold bind at 1. unfold get_self at 1. unfold bind at 1.
        unfold ModelPredictor.registry_file.
        rewrite path_exists_run, (exists_true _ _ _ Hfs). cbn [negb].
        unfold bind at 1. unfold json_load at 1. rewrite Hfs.
        unfold bind at 1. unfold lift at 1. cbn [json_models].
        rewrite Hfind, Hrun. reflexivity.
      * eexists. unfold ModelPredictor.registry_file in Hfs. run_monad.
        rewrite (exists_true _ _ _ Hfs). run_monad. rewrite Hfs. run_monad.
        rewrite Hfind. reflexivity.
    + eexists. unfold ModelPredictor.registry_file in Hfs. run_monad.
      rewrite (exists_true _ _ _ Hfs). run_monad. rewrite Hfs. reflexivity.
    + eexists. unfold ModelPredictor.registry_file in Hfs. run_monad.
      rewrite (exists_true _ _ _ Hfs). run_monad. rewrite Hfs. reflexivity.
    + eexists. unfold ModelPredictor.registry_file in Hfs. run_monad.
      rewrite (exists_true _ _ _ Hfs). run_monad. rewrite Hfs. reflexivity.
    + eexists. unfold ModelPredictor.registry_file in Hfs. run_monad.
      rewrite (exists_true _ _ _ Hfs). run_monad. rewrite Hfs. reflexivity.
    + eexists. unfold ModelPredictor.registry_file in Hfs. run_monad.
      rewrite (exists_true _ _ _ Hfs). run_monad. rewrite Hfs. reflexivity.
  - eexists. unfold ModelPredictor.registry_file in Hfs. run_monad.
    rewrite (exists_false _ _ Hfs). reflexivity.
Qed.


Lemma selected_load_reports run selected s :
  match selected with
  | Some model_info => run s = ModelPredictor._load_model_from_info model_info s
  | None => exists m, run s = (Ok false, log_error s m)
  end ->
  reports_by_boolean run selected s.
Proof.
  unfold reports_by_boolean.
  destruct selected as [model_info|].
  - intros ->.
    destruct (load_model_from_info_spec model_info s)
      as (b & s' & Hrun & Hfs & _ & [[-> Hok]|(-> & Hflag & Hno)]).
    + destruct Hok as (m & le & c & layer & Hsteps & ->).
      exists true, (installed model_info s m le c layer).
      split; [exact Hrun|]. split; [reflexivity|].
      split; [split; [intros _; eauto 10|reflexivity]|].
      split; [intros _; eauto 10|]. split; [discriminate|discriminate].
    + exists false, s'. split; [exact Hrun|]. split; [exact Hfs|].
      split.
      { split; [discriminate|].
        intros (i & m & le & c & layer & [= <-] & Hsteps).
        exfalso. apply Hno. eauto 10. }
      split; [discriminate|]. split; [intros _; exact Hflag|discriminate].
  - intros [m ->]. exists false, (log_error s m).
    split; [reflexivity|]. split; [reflexivity|].
    split.
    { split; [discriminate|]. intros (i & ? & ? & ? & ? & Hsel & _). discriminate. }
    split; [discriminate|]. split; reflexivity.
Qed.

Lemma load_best_model_reports s :
  reports_by_boolean ModelPredictor.load_best_model (selected_best s) s.
Proof. apply selected_load_reports, load_best_model_cases. Qed.

Lemma load_model_by_version_reports v s :
  reports_by_boolean (ModelPredictor.load_model_by_version v)
    (selected_version v s) s.
Proof. apply selected_load_reports, load_model_by_version_cases. Qed.

(** A load that fails before the weights are read leaves the predictor
    as it was. *)
Lemma load_without_weights_keeps_predictor model_info s :
  fs s !! weights_file model_info = None ->
  exists s',
    ModelPredictor._load_model_from_info model_info s = (Ok false, s') /\
    predictor s' = predictor s.
Proof.
  intros Hw. unfold weights_file, artifact_dir in Hw.
  eexists. run_monad. rewrite (exists_false _ _ Hw). run_monad.
  split; reflexivity.
Qed.

End LoadOutcomes.

(** C3, at a failing input.  v1 serves; the label encoder of v2 is missing
    from the disk.  [load_model_by_version] of v2 returns [False], yet the
    predictor now holds the model of v2 next to the label encoder of v1,
    with the loaded flag still set, and [predict] answers from that
    mixture: the model of v2 runs and the answer is a label of v1. *)
Theorem failed_reload_leaves_mixed_bundle :
  ModelPredictor.load_model_by_version (H := Scenario.runtime) "v1"
    Scenario.v2_encoder_lost = (Ok true, Scenario.serving_v1) /\
  model (predictor Scenario.serving_v1) = Some Scenario.model_v1 /\
  label_encoder (predictor Scenario.serving_v1)
    = Some {| classes_ := Scenario.labels_v1 |} /\
  exists s2,
    ModelPredictor.load_model_by_version (H := Scenario.runtime) "v2"
      Scenario.serving_v1 = (Ok false, s2) /\
    model (predictor s2) = Some Scenario.model_v2 /\
    label_encoder (predictor s2) = Some {| classes_ := Scenario.labels_v1 |} /\
    loaded (predictor s2) = true /\
    predictor s2 <> predictor Scenario.serving_v1 /\
    exists pr s3,
      ModelPredictor.predict (H := Scenario.runtime) "hello" s2 = (Ok pr, s3) /\
      predicted_class pr = "weather" /\
      In (Inference "v2" [[5%Z]]) (trace s3).
Proof.
  split; [vm_compute; reflexivity|].
  split; [vm_compute; reflexivity|].
  split; [vm_compute; reflexivity|].
  eexists. split; [vm_compute; reflexivity|].
  split; [reflexivity|]. split; [reflexivity|]. split; [reflexivity|].
  split.
  - intros Heq. apply (f_equal model) in Heq. vm_compute in Heq.
    discriminate Heq.
  - eexists _, _. split; [vm_compute; reflexivity|].
    split; [reflexivity|]. cbn. auto 10.
Qed.

(** C10, at a failing input.  In the same situation [load_best_model],
    whose best entry is v2, returns [False] without raising, and the
    predictor is not as it was before the call: its model is now the one
    of v2, under the label encoder of v1 and a loaded flag that is still
    set. *)
Theorem failed_load_best_does_not_retain_state :
  selected_best Scenario.serving_v1 = Some Scenario.v2 /\
  exists s2,
    ModelPredictor.load_best_model (H := Scenario.runtime) Scenario.serving_v1
      = (Ok false, s2) /\
    predictor s2 <> predictor Scenario.serving_v1 /\
    model (predictor Scenario.serving_v1) = Some Scenario.model_v1 /\
    model (predictor s2) = Some Scenario.model_v2 /\
    label_encoder (predictor s2) = label_encoder (predictor Scenario.serving_v1) /\
    loaded (predictor s2) = true.
Proof.
  split; [vm_compute; reflexivity|].
  eexists. split; [vm_compute; reflexivity|].
  split.
  - intros Heq. apply (f_equal model) in Heq. vm_compute in Heq.
    discriminate Heq.
  - repeat split; vm_compute; reflexivity.
Qed.

(** * Further properties of the code *)

(** ** Relations that every step of a computation respects *)


Section Respects.
Variable R : state -> state -> Prop.
Hypothesis R_refl : forall s, R s s.
Hypothesis R_trans : forall s1 s2 s3, R s1 s2 -> R s2 s3 -> R s1 s3.

Lemma respects_ret {A} (a : A) : respects R (ret a).
Proof. intros s r s' [= <- <-]. apply R_refl. Qed.

Lemma respects_raise {A} (e : exn) : respects R (raise (A := A) e).
Proof. intros s r s' [= <- <-]. apply R_refl. Qed.

Lemma respects_lift {A} (x : result A) : respects R (lift x).
Proof. intros s r s' [= <- <-]. apply R_refl. Qed.

Lemma respects_get_self : respects R get_self.
Proof. intros s r s' [= <- <-]. apply R_refl. Qed.

Lemma respects_path_exists p : respects R (path_exists p).
Proof. intros s r s' [= <- <-]. apply R_refl. Qed.

Lemma respects_json_load p : respects R (json_load p).
Proof.
  intros s r s'. unfold json_load.
  destruct (fs s !! p) as [[]|]; intros [= <- <-]; apply R_refl.
Qed.

Lemma respects_pickle_load p : respects R (pickle_load p).
Proof.
  intros s r s'. unfold pickle_load.
  destruct (fs s !! p) as [[]|]; intros [= <- <-]; apply R_refl.
Qed.

Lemma respects_keras_load_model p : respects R (keras_load_model p).
Proof.
  intros s r s'. unfold keras_load_model.
  destruct (fs s !! p) as [[]|]; intros [= <- <-]; apply R_refl.
Qed.

Lemma respects_bind {A B} (m : M A) (k : A -> M B) :
  respects R m -> (forall a, respects R (k a)) -> respects R (bind m k).
Proof.
  intros Hm Hk s r s'. unfold bind.
  destruct (m s) as [[a|e] s1] eqn:E.
  - intros Hrun. eapply R_trans; [eapply Hm, E|eapply Hk, Hrun].
  - intros [= <- <-]. eapply Hm, E.
Qed.

Lemma respects_try_except {A} (body : M A) (handler : exn -> M A) :
  respects R body -> (forall e, respects R (handler e)) ->
  respects R (try_except body handler).
Proof.
  intros Hm Hk s r s'. unfold try_except.
  destruct (body s) as [[a|e] s1] eqn:E.
  - intros [= <- <-]. eapply Hm, E.
  - intros Hrun. eapply R_trans; [eapply Hm, E|eapply Hk, Hrun].
Qed.

End Respects.


Lemma same_bundle_refl s : same_bundle s s.
Proof. now split. Qed.

Lemma same_bundle_trans s1 s2 s3 :
  same_bundle s1 s2 -> same_bundle s2 s3 -> same_bundle s1 s3.
Proof. intros [H1 H2] [H3 H4]. split; congruence. Qed.

Lemma same_bundle_emit e : respects same_bundle (emit e).
Proof. intros s r s' [= <- <-]. now split. Qed.

Section Frames.
Context `{Runtime}.

Lemma same_bundle_now : respects same_bundle now.
Proof. intros s r s' [= <- <-]. now split. Qed.

Ltac frame_step :=
  first
    [ apply (respects_bind same_bundle same_bundle_trans)
    | apply (respects_try_except same_bundle same_bundle_trans)
    | apply (respects_ret same_bundle same_bundle_refl)
    | apply (respects_raise same_bundle same_bundle_refl)
    | apply (respects_lift same_bundle same_bundle_refl)
    | apply (respects_get_self same_bundle same_bundle_refl)
    | apply (respects_path_exists same_bundle same_bundle_refl)
    | apply (respects_json_load same_bundle same_bundle_refl)
    | apply same_bundle_emit
    | apply same_bundle_now
    | match goal with
      | |- forall _, _ => intro
      | |- respects _ (if ?b then _ else _) => destruct b
      | |- respects _ (match ?x with _ => _ end) => destruct x
      end ].

Lemma same_bundle_call_vectorize_layer texts :
  respects same_bundle (ModelPredictor.call_vectorize_layer texts).
Proof. unfold ModelPredictor.call_vectorize_layer. repeat frame_step. Qed.

Lemma same_bundle_call_model_predict batch :
  respects same_bundle (ModelPredictor.call_model_predict batch).
Proof. unfold ModelPredictor.call_model_predict. repeat frame_step. Qed.

Lemma same_bundle_the_label_encoder :
  respects same_bundle ModelPredictor.the_label_encoder.
Proof. unfold ModelPredictor.the_label_encoder. repeat frame_step. Qed.

Lemma same_bundle_batch_loop preds texts :
  forall i, respects same_bundle (ModelPredictor.batch_loop preds i texts).
Proof.
  induction texts as [|t rest IH]; intros i; cbn [ModelPredictor.batch_loop].
  - repeat frame_step.
  - repeat first [ apply same_bundle_the_label_encoder | apply IH | frame_step ].
Qed.

Lemma same_bundle_predict t : respects same_bundle (ModelPredictor.predict t).
Proof.
  unfold ModelPredictor.predict, logger_error.
  repeat first [ apply same_bundle_call_vectorize_layer
               | apply same_bundle_call_model_predict
               | apply same_bundle_the_label_encoder
               | frame_step ].
Qed.

Lemma same_bundle_predict_batch texts :
  respects same_bundle (ModelPredictor.predict_batch texts).
Proof.
  unfold ModelPredictor.predict_batch, logger_error.
  repeat first [ apply same_bundle_call_vectorize_layer
               | apply same_bundle_call_model_predict
               | apply same_bundle_batch_loop
               | frame_step ].
Qed.

Lemma same_bundle_get_model_info :
  respects same_bundle ModelPredictor.get_model_info.
Proof.
  unfold ModelPredictor.get_model_info.
  repeat first [ apply same_bundle_the_label_encoder | frame_step ].
Qed.

Lemma same_bundle_get_available_models :
  respects same_bundle ModelPredictor.get_available_models.
Proof.
  unfold ModelPredictor.get_available_models, logger_error.
  repeat frame_step.
Qed.

End Frames.

(** ** Inference is read-only *)

Section InferenceRuns.
Context `{Runtime}.

(** After the loaded test and the first clock reading, [predict] is its
    [try] block under a handler that logs and re-raises as RuntimeError. *)
Lemma predict_failure_shape t s e s' :
  ModelPredictor.predict t s = (Raise e, s') ->
  (e = RuntimeError MsgModelNotLoaded /\ s' = s /\ loaded (predictor s) = false) \/
  exists cause,
    e = RuntimeError (MsgPredictFailed cause) /\
    last (trace s') = Some (LogError (LogPredictFailed cause)).
Proof.
  unfold ModelPredictor.predict. unfold bind at 1. unfold get_self.
  destruct (loaded (predictor s)); cbn [negb].
  2:{ intros [= <- <-]. left. now repeat split. }
  unfold bind at 1. unfold now. unfold try_except.
  match goal with |- context [match ?b ?s1 with _ => _ end] =>
    destruct (b s1) as [[a|cause] s2] end.
  - discriminate.
  - unfold bind, logger_error, emit, raise. intros [= <- <-].
    right. exists cause. split; [reflexivity|]. cbn [trace].
    now rewrite last_snoc.
Qed.

Lemma predict_batch_failure_shape texts s e s' :
  ModelPredictor.predict_batch texts s = (Raise e, s') ->
  (e = RuntimeError MsgModelNotLoaded /\ s' = s /\ loaded (predictor s) = false) \/
  exists cause,
    e = RuntimeError (MsgBatchPredictFailed cause) /\
    last (trace s') = Some (LogError (LogBatchPredictFailed cause)).
Proof.
  unfold ModelPredictor.predict_batch. unfold bind at 1. unfold get_self.
  destruct (loaded (predictor s)); cbn [negb].
  2:{ intros [= <- <-]. left. now repeat split. }
  unfold bind at 1. unfold now. unfold try_except.
  match goal with |- context [match ?b ?s1 with _ => _ end] =>
    destruct (b s1) as [[a|cause] s2] end.
  - discriminate.
  - unfold bind, logger_error, emit, raise. intros [= <- <-].
    right. exists cause. split; [reflexivity|]. cbn [trace].
    now rewrite last_snoc.
Qed.

End InferenceRuns.

(** X1.  [predict] and [predict_batch] never change the predictor object
    or the disk, whether they return or raise; and whatever goes wrong
    inside them leaves as a RuntimeError: the model-not-loaded one with the
    state untouched, or the wrapped cause, which is then the last record of
    the error log. *)
Theorem inference_is_read_only :
  forall (R : Runtime) (s : state) (t : string) (texts : list string),
    (predictor (snd (ModelPredictor.predict t s)) = predictor s /\
     fs (snd (ModelPredictor.predict t s)) = fs s /\
     forall e, fst (ModelPredictor.predict t s) = Raise e ->
       (e = RuntimeError MsgModelNotLoaded /\
        snd (ModelPredictor.predict t s) = s) \/
       exists cause,
         e = RuntimeError (MsgPredictFailed cause) /\
         last (trace (snd (ModelPredictor.predict t s)))
           = Some (LogError (LogPredictFailed cause))) /\
    (predictor (snd (ModelPredictor.predict_batch texts s)) = predictor s /\
     fs (snd (ModelPredictor.predict_batch texts s)) = fs s /\
     forall e, fst (ModelPredictor.predict_batch texts s) = Raise e ->
       (e = RuntimeError MsgModelNotLoaded /\
        snd (ModelPredictor.predict_batch texts s) = s) \/
       exists cause,
         e = RuntimeError (MsgBatchPredictFailed cause) /\
         last (trace (snd (ModelPredictor.predict_batch texts s)))
           = Some (LogError (LogBatchPredictFailed cause))).
Proof.
  intros R s t texts. split.
  - destruct (ModelPredictor.predict t s) as [r s'] eqn:Hrun. cbn [fst snd].
    destruct (same_bundle_predict t s r s' Hrun) as [Hp Hfs].
    split; [exact Hp|]. split; [exact Hfs|].
    intros e ->.
    destruct (predict_failure_shape t s e s' Hrun) as [(-> & -> & _)|Hc];
      [left; now split|now right].
  - destruct (ModelPredictor.predict_batch texts s) as [r s'] eqn:Hrun. cbn [fst snd].
    destruct (same_bundle_predict_batch texts s r s' Hrun) as [Hp Hfs].
    split; [exact Hp|]. split; [exact Hfs|].
    intros e ->.
    destruct (predict_batch_failure_shape texts s e s' Hrun) as [(-> & -> & _)|Hc];
      [left; now split|now right].
Qed.

(** ** The endpoints *)

Section EndpointRuns.
Context `{Runtime}.

Lemma predict_text_run request s :
  Api.predict_text request s =
    if loaded (predictor s) then
      match request !! "text" with
      | None => (Raise (HTTPException 400 DetailMissingText), s)
      | Some t =>
          match ModelPredictor.predict t s with
          | (Ok r, s') => (Ok r, s')
          | (Raise e, s') =>
              (Raise (HTTPException 500 (DetailPredictFailed e)),
               log_error s' (LogPredictFailed e))
          end
      end
    else (Raise (HTTPException 503 DetailModelNotLoaded), s).
Proof.
  unfold Api.predict_text, Api.endpoint_guard, try_except.
  unfold bind at 1. unfold get_self.
  destruct (loaded (predictor s)); cbn [negb]; [|reflexivity].
  destruct (request !! "text") as [t|]; [|reflexivity].
  destruct (ModelPredictor.predict t s) as [[r|e] s'] eqn:Hrun; [reflexivity|].
  destruct (predict_failure_shape _ _ _ _ Hrun) as [[-> _]|(cause & -> & _)];
    reflexivity.
Qed.

Lemma predict_batch_endpoint_run request s :
  Api.predict_batch request s =
    if loaded (predictor s) then
      match request !! "texts" with
      | None => (Raise (HTTPException 400 DetailMissingTexts), s)
      | Some texts =>
          if (100 <? length texts)%nat then
            (Raise (HTTPException 400 DetailBatchTooLarge), s)
          else
            match ModelPredictor.predict_batch texts s with
            | (Ok r, s') =>
                (Ok (r, time_time (clock s')),
                 {| predictor := predictor s'; fs := fs s';
                    clock := S (clock s'); trace := trace s' |})
            | (Raise e, s') =>
                (Raise (HTTPException 500 (DetailBatchPredictFailed e)),
                 log_error s' (LogBatchPredictFailed e))
            end
      end
    else (Raise (HTTPException 503 DetailModelNotLoaded), s).
Proof.
  unfold Api.predict_batch, Api.endpoint_guard, try_except.
  unfold bind at 1. unfold get_self.
  destruct (loaded (predictor s)); cbn [negb]; [|reflexivity].
  destruct (request !! "texts") as [texts|]; [|reflexivity].
  destruct (100 <? length texts)%nat; [reflexivity|].
  unfold bind at 1.
  destruct (ModelPredictor.predict_batch texts s) as [[r|e] s'] eqn:Hrun;
    [reflexivity|].
  destruct (predict_batch_failure_shape _ _ _ _ Hrun) as [[-> _]|(cause & -> & _)];
    reflexivity.
Qed.

End EndpointRuns.

(** X2.  POST /predict answers in one of four ways and no other: 503 when
    no model is loaded, 400 when the request has no 'text' key, the
    predictor's own result when [predict] returns, and 500 carrying the
    predictor's wrapped failure when [predict] raises.  An exception that
    leaves the endpoint is always an HTTPException, and the 500 never
    carries the model-not-loaded error. *)
Theorem predict_endpoint_answers :
  forall (R : Runtime) (s : state) (request : gmap string string),
    match fst (Api.predict_text request s) with
    | Ok r =>
        loaded (predictor s) = true /\
        exists t,
          request !! "text" = Some t /\
          ModelPredictor.predict t s = (Ok r, snd (Api.predict_text request s))
    | Raise e =>
        (loaded (predictor s) = false /\
         e = HTTPException 503 DetailModelNotLoaded /\
         snd (Api.predict_text request s) = s) \/
        (loaded (predictor s) = true /\
         request !! "text" = None /\
         e = HTTPException 400 DetailMissingText /\
         snd (Api.predict_text request s) = s) \/
        (loaded (predictor s) = true /\
         exists t cause,
           request !! "text" = Some t /\
           fst (ModelPredictor.predict t s)
             = Raise (RuntimeError (MsgPredictFailed cause)) /\
           e = HTTPException 500
                 (DetailPredictFailed (RuntimeError (MsgPredictFailed cause))))
    end.
Proof.
  intros R s request. rewrite predict_text_run.
  destruct (loaded (predictor s)) eqn:Hl; cbn [fst snd].
  2:{ left. now repeat split. }
  destruct (request !! "text") as [t|] eqn:Hreq; cbn [fst snd].
  2:{ right. left. now repeat split. }
  destruct (ModelPredictor.predict t s) as [[r|e] s'] eqn:Hrun; cbn [fst snd].
  - split; [reflexivity|]. now exists t.
  - right. right. split; [reflexivity|].
    destruct (predict_failure_shape _ _ _ _ Hrun)
      as [(_ & _ & Hl')|(cause & -> & _)]; [congruence|].
    exists t, cause. rewrite Hrun. now repeat split.
Qed.

(** X3.  POST /predict/batch answers in one of five ways and no other: 503
    when no model is loaded, 400 when the request has no 'texts' key, 400
    when it has more than 100 texts, the predictor's result with a
    timestamp when [predict_batch] returns, and 500 carrying the wrapped
    failure when it raises.  A list of exactly 100 texts is passed on, and a
    successful response never holds more than 100 results. *)
Theorem batch_endpoint_answers :
  forall (R : Runtime) (s : state) (request : gmap string (list string)),
    match fst (Api.predict_batch request s) with
    | Ok (r, timestamp) =>
        loaded (predictor s) = true /\
        exists texts,
          request !! "texts" = Some texts /\
          (length texts <= 100)%nat /\
          fst (ModelPredictor.predict_batch texts s) = Ok r /\
          length (results r) = length texts /\
          timestamp = time_time (clock (snd (ModelPredictor.predict_batch texts s)))
    | Raise e =>
        (loaded (predictor s) = false /\
         e = HTTPException 503 DetailModelNotLoaded /\
         snd (Api.predict_batch request s) = s) \/
        (loaded (predictor s) = true /\
         request !! "texts" = None /\
         e = HTTPException 400 DetailMissingTexts /\
         snd (Api.predict_batch request s) = s) \/
        (loaded (predictor s) = true /\
         exists texts,
           request !! "texts" = Some texts /\
           (100 < length texts)%nat /\
           e = HTTPException 400 DetailBatchTooLarge /\
           snd (Api.predict_batch request s) = s) \/
        (loaded (predictor s) = true /\
         exists texts cause,
           request !! "texts" = Some texts /\
           (length texts <= 100)%nat /\
           fst (ModelPredictor.predict_batch texts s)
             = Raise (RuntimeError (MsgBatchPredictFailed cause)) /\
           e = HTTPException 500
                 (DetailBatchPredictFailed
                    (RuntimeError (MsgBatchPredictFailed cause))))
    end.
Proof.
  intros R s request. rewrite predict_batch_endpoint_run.
  destruct (loaded (predictor s)) eqn:Hl; cbn [fst snd].
  2:{ left. now repeat split. }
  destruct (request !! "texts") as [texts|] eqn:Hreq; cbn [fst snd].
  2:{ right. left. now repeat split. }
  destruct (Nat.ltb_spec 100 (length texts)) as [Hgt|Hle]; cbn [fst snd].
  { right. right. left. split; [reflexivity|]. exists texts. now repeat split. }
  destruct (ModelPredictor.predict_batch texts s) as [[r|e] s'] eqn:Hrun; cbn [fst snd].
  - split; [reflexivity|]. exists texts. rewrite Hrun. cbn [fst snd].
    repeat match goal with |- _ /\ _ => split end; try reflexivity; try assumption.
    destruct (predict_batch_inv _ _ _ _ Hrun)
      as (layer & m & batch & preds & s1 & _ & _ & _ & _ & _ & Hloop & _).
    destruct (batch_loop_inv _ _ _ _ _ _ Hloop) as (_ & Htexts & _).
    rewrite <- (length_map item_text (results r)). now rewrite Htexts.
  - right. right. right. split; [reflexivity|].
    destruct (predict_batch_failure_shape _ _ _ _ Hrun)
      as [(_ & _ & Hl')|(cause & -> & _)]; [congruence|].
    exists texts, cause. rewrite Hrun. now repeat split.
Qed.

(** ** Components of the bundle, once set, stay set through a load *)


Lemma keeps_components_refl s : keeps_components s s.
Proof. now repeat split. Qed.

Lemma keeps_components_trans s1 s2 s3 :
  keeps_components s1 s2 -> keeps_components s2 s3 -> keeps_components s1 s3.
Proof.
  intros (A1 & A2 & A3 & A4) (B1 & B2 & B3 & B4). repeat split; auto.
Qed.

Lemma keeps_components_emit e : respects keeps_components (emit e).
Proof. intros s r s' [= <- <-]. repeat split; cbn; auto. Qed.

Lemma keeps_components_set_model m :
  respects keeps_components (set_self (set_model (Some m))).
Proof. intros s r s' [= <- <-]. repeat split; cbn; eauto. Qed.

Lemma keeps_components_set_label_encoder le :
  respects keeps_components (set_self (set_label_encoder (Some le))).
Proof. intros s r s' [= <- <-]. repeat split; cbn; eauto. Qed.

Lemma keeps_components_set_vectorize_config c :
  respects keeps_components (set_self (set_vectorize_config (Some c))).
Proof. intros s r s' [= <- <-]. repeat split; cbn; eauto. Qed.

Lemma keeps_components_set_vectorize_layer l :
  respects keeps_components (set_self (set_vectorize_layer (Some l))).
Proof. intros s r s' [= <- <-]. repeat split; cbn; eauto. Qed.

Lemma keeps_components_set_loaded b :
  respects keeps_components (set_self (set_loaded b)).
Proof. intros s r s' [= <- <-]. repeat split; cbn; eauto. Qed.

Section LoadKeeps.
Context `{Runtime}.

Ltac keeps_step :=
  first
    [ apply (respects_bind keeps_components keeps_components_trans)
    | apply (respects_try_except keeps_components keeps_components_trans)
    | apply (respects_ret keeps_components keeps_components_refl)
    | apply (respects_raise keeps_components keeps_components_refl)
    | apply (respects_lift keeps_components keeps_components_refl)
    | apply (respects_get_self keeps_components keeps_components_refl)
    | apply (respects_path_exists keeps_components keeps_components_refl)
    | apply (respects_json_load keeps_components keeps_components_refl)
    | apply (respects_pickle_load keeps_components keeps_components_refl)
    | apply (respects_keras_load_model keeps_components keeps_components_refl)
    | apply keeps_components_emit
    | apply keeps_components_set_model
    | apply keeps_components_set_label_encoder
    | apply keeps_components_set_vectorize_config
    | apply keeps_components_set_vectorize_layer
    | apply keeps_components_set_loaded
    | match goal with
      | |- forall _, _ => intro
      | |- respects _ (if ?b then _ else _) => destruct b
      | |- respects _ (match ?x with _ => _ end) => destruct x
      end ].

Lemma keeps_components_load model_info :
  respects keeps_components (ModelPredictor._load_model_from_info model_info).
Proof.
  unfold ModelPredictor._load_model_from_info,
    ModelPredictor._create_vectorize_layer, ModelPredictor.the_label_encoder,
    logger_info, logger_error.
  repeat keeps_step.
Qed.

(** A load keeps a well-formed predictor well-formed, whatever it returns. *)
Lemma load_keeps_well_formed model_info s :
  well_formed (predictor s) ->
  well_formed (predictor (snd (ModelPredictor._load_model_from_info model_info s))).
Proof.
  intros Hwf.
  destruct (load_model_from_info_spec model_info s)
    as (b & s' & Hrun & _ & _ & [[-> Hok]|(-> & Hflag & _)]); rewrite Hrun; cbn [snd].
  - destruct Hok as (m & le & c & layer & _ & ->). intros _. cbn. eauto.
  - intros Hl. rewrite Hflag in Hl.
    destruct (Hwf Hl) as (A1 & A2 & A3 & A4).
    destruct (keeps_components_load model_info s _ _ Hrun) as (B1 & B2 & B3 & B4).
    auto.
Qed.

Lemma unload_model_run s :
  ModelPredictor.unload_model s =
    if loaded (predictor s) then
      (Ok tt,
       {| predictor := Predictor_init (model_registry_path (predictor s));
          fs := fs s;
          clock := clock s;
          trace := trace s ++ [LogInfo LogUnloaded] |})
    else (Ok tt, s).
Proof.
  unfold ModelPredictor.unload_model. unfold bind at 1. unfold get_self.
  destruct (loaded (predictor s)); reflexivity.
Qed.

Lemma run_call_well_formed c s :
  well_formed (predictor s) -> well_formed (predictor (run_call c s)).
Proof.
  intros Hwf. destruct c; cbn [run_call].
  - pose proof (load_best_model_cases s) as Hc.
    destruct (selected_best s) as [model_info|].
    + rewrite Hc. now apply load_keeps_well_formed.
    + destruct Hc as [m ->]. exact Hwf.
  - pose proof (load_model_by_version_cases v s) as Hc.
    destruct (selected_version v s) as [model_info|].
    + rewrite Hc. now apply load_keeps_well_formed.
    + destruct Hc as [m ->]. exact Hwf.
  - rewrite unload_model_run.
    destruct (loaded (predictor s)); [discriminate|exact Hwf].
  - destruct (ModelPredictor.predict t s) as [r s'] eqn:Hrun. cbn [snd].
    destruct (same_bundle_predict t s r s' Hrun) as [-> _]. exact Hwf.
  - destruct (ModelPredictor.predict_batch texts s) as [r s'] eqn:Hrun. cbn [snd].
    destruct (same_bundle_predict_batch texts s r s' Hrun) as [-> _]. exact Hwf.
  - destruct (ModelPredictor.get_model_info s) as [r s'] eqn:Hrun. cbn [snd].
    destruct (same_bundle_get_model_info s r s' Hrun) as [-> _]. exact Hwf.
  - destruct (ModelPredictor.get_available_models s) as [r s'] eqn:Hrun. cbn [snd].
    destruct (same_bundle_get_available_models s r s' Hrun) as [-> _]. exact Hwf.
Qed.

End LoadKeeps.

(** X4.  In every state a predictor can reach from its construction, by
    any calls in any order and on any disk, a set loaded flag means that
    the model and the vectorization layer are present: the flag is set
    only after both were assigned, a later load replaces them only by a
    model that loaded and a layer that was built, and [unload_model]
    clears the flag together with them.  Nothing of the kind is stated of
    the label encoder and the tokenizer configuration, which are whatever
    the files of the version held. *)
Theorem loaded_predictor_has_model_and_layer :
  forall (R : Runtime) (s : state),
    reachable s -> has_model_and_layer (predictor s).
Proof.
  intros R s Hreach.
  assert (Hwf : well_formed (predictor s)).
  { induction Hreach as [s path Hinit|s c _ IH|s s' _ IH Hsame].
    - rewrite Hinit. discriminate.
    - now apply run_call_well_formed.
    - now rewrite Hsame. }
  intros Hl. destruct (Hwf Hl) as (Hm & _ & _ & Hlayer). now split.
Qed.

Lemma loaded_predictor_has_model_and_layer_witness :
  reachable (H := Scenario.runtime)
    (run_call (H := Scenario.runtime) (CallLoadVersion "v2") Scenario.serving_v1) /\
  has_model_and_layer
    (predictor
       (run_call (H := Scenario.runtime) (CallLoadVersion "v2") Scenario.serving_v1)).
Proof.
  assert (Hreach : reachable (H := Scenario.runtime)
            (run_call (H := Scenario.runtime) (CallLoadVersion "v2")
               Scenario.serving_v1)).
  { apply reach_call.
    apply (reach_call (H := Scenario.runtime) Scenario.v2_encoder_lost
             (CallLoadVersion "v1")).
    apply (reach_init Scenario.v2_encoder_lost Scenario.registry_dir).
    vm_compute. reflexivity. }
  split; [exact Hreach|].
  exact (loaded_predictor_has_model_and_layer Scenario.runtime _ Hreach).
Defined.

(** X5.  [unload_model] always returns and leaves the predictor unloaded
    with the disk untouched.  A loaded predictor becomes exactly a freshly
    constructed one; a predictor that is not loaded is left as it is, so
    the components that a failed load left behind are not released.
    Unloading twice is unloading once, and after it [predict] and
    [predict_batch] raise the model-not-loaded error and [get_model_info]
    reports not_loaded. *)
Theorem unload_resets_predictor :
  forall (R : Runtime) (s : state) (t : string) (texts : list string),
    let s' := snd (ModelPredictor.unload_model s) in
    fst (ModelPredictor.unload_model s) = Ok tt /\
    loaded (predictor s') = false /\
    fs s' = fs s /\
    (if loaded (predictor s)
     then predictor s' = Predictor_init (model_registry_path (predictor s))
     else s' = s) /\
    ModelPredictor.unload_model s' = (Ok tt, s') /\
    ModelPredictor.predict t s' = (Raise (RuntimeError MsgModelNotLoaded), s') /\
    ModelPredictor.predict_batch texts s'
      = (Raise (RuntimeError MsgModelNotLoaded), s') /\
    ModelPredictor.get_model_info s' = (Ok NotLoaded, s').
Proof.
  intros R s t texts. cbv zeta. rewrite unload_model_run.
  assert (Hafter : forall s', loaded (predictor s') = false ->
            ModelPredictor.unload_model s' = (Ok tt, s') /\
            ModelPredictor.predict t s'
              = (Raise (RuntimeError MsgModelNotLoaded), s') /\
            ModelPredictor.predict_batch texts s'
              = (Raise (RuntimeError MsgModelNotLoaded), s') /\
            ModelPredictor.get_model_info s' = (Ok NotLoaded, s')).
  { intros s' Hl. rewrite unload_model_run, Hl.
    split; [reflexivity|].
    split; [run_monad; now rewrite Hl|].
    split; [run_monad; now rewrite Hl|].
    unfold ModelPredictor.get_model_info, bind, get_self. now rewrite Hl. }
  destruct (loaded (predictor s)) eqn:Hl; cbn [fst snd].
  - split; [reflexivity|]. split; [reflexivity|]. split; [reflexivity|].
    split; [reflexivity|]. now apply Hafter.
  - split; [reflexivity|]. split; [exact Hl|]. split; [reflexivity|].
    split; [reflexivity|]. now apply Hafter.
Qed.

(** X6.  When [load_best_model] returns [True], [get_model_info] reports
    the bundle read from the files of the registry's first entry: the label
    list of its label_encoder.pkl, the number of those labels, and
    max_tokens and output_sequence_length of its vectorize_config.json (not
    the classes, num_classes or vocab_size that the registry entry
    records); and it changes nothing. *)
Theorem info_reports_loaded_files :
  forall (R : Runtime) (s : state),
    fst (ModelPredictor.load_best_model s) = Ok true ->
    exists model_info m le c,
      selected_best s = Some model_info /\
      fs s !! weights_file model_info = Some (KerasFile m) /\
      fs s !! encoder_file model_info = Some (PickleFile le) /\
      fs s !! config_file model_info = Some (JsonFile (JVectorizeConfig c)) /\
      ModelPredictor.get_model_info (snd (ModelPredictor.load_best_model s))
        = (Ok (Loaded (classes_ le) (length (classes_ le))
                      (max_tokens c) (output_sequence_length c)),
           snd (ModelPredictor.load_best_model s)).
Proof.
  intros R s Htrue.
  destruct (load_best_model_reports s)
    as (b & s' & Hrun & _ & [Hiff _] & Hinst & _).
  rewrite Hrun in Htrue |- *. cbn [fst snd] in *. injection Htrue as ->.
  destruct (Hiff eq_refl) as (model_info & m & le & c & layer & Hsel & Hsteps).
  pose proof Hsel as Hsel'. unfold selected_best in Hsel'.
  pose proof (load_best_model_cases s) as Hcase. rewrite Hsel in Hcase.
  rewrite Hcase, (load_model_from_info_ok _ _ _ _ _ _ Hsteps) in Hrun.
  injection Hrun as <-.
  destruct Hsteps as (Hw & He & Hc & _).
  exists model_info, m, le, c.
  repeat match goal with |- _ /\ _ => split end; try assumption.
  reflexivity.
Qed.

Lemma info_reports_loaded_files_witness :
  fst (ModelPredictor.load_best_model (H := Scenario.runtime) Scenario.registered)
    = Ok true /\
  exists model_info m le c,
    selected_best Scenario.registered = Some model_info /\
    fs Scenario.registered !! weights_file model_info = Some (KerasFile m) /\
    fs Scenario.registered !! encoder_file model_info = Some (PickleFile le) /\
    fs Scenario.registered !! config_file model_info
      = Some (JsonFile (JVectorizeConfig c)) /\
    ModelPredictor.get_model_info
      (snd (ModelPredictor.load_best_model (H := Scenario.runtime)
              Scenario.registered))
      = (Ok (Loaded (classes_ le) (length (classes_ le))
                    (max_tokens c) (output_sequence_length c)),
         snd (ModelPredictor.load_best_model (H := Scenario.runtime)
                Scenario.registered)).
Proof.
  assert (Htrue : fst (ModelPredictor.load_best_model (H := Scenario.runtime)
                         Scenario.registered) = Ok true)
    by (vm_compute; reflexivity).
  split; [exact Htrue|].
  exact (info_reports_loaded_files Scenario.runtime Scenario.registered Htrue).
Defined.

(** ** Looking a version up *)

Lemma find_version_none v ms :
  (forall m, In m ms -> model_version m <> v) ->
  ModelPredictor.find_version v ms = None.
Proof.
  induction ms as [|x ms IH]; intros Hno; [reflexivity|].
  cbn [ModelPredictor.find_version].
  destruct (String.eqb_spec (model_version x) v) as [Heq|_].
  - exfalso. apply (Hno x); [now left|exact Heq].
  - apply IH. intros m Hin. apply Hno. now right.
Qed.

Lemma find_version_sorted v ms :
  sorted_desc ms ->
  (exists m, In m ms /\ model_version m = v) ->
  exists target,
    ModelPredictor.find_version v ms = Some target /\
    In target ms /\
    model_version target = v /\
    forall m, In m ms -> model_version m = v ->
              (val_accuracy m <= val_accuracy target)%Q.
Proof.
  induction ms as [|x ms IH]; intros Hs (m0 & Hin0 & Hv0); [destruct Hin0|].
  cbn [ModelPredictor.find_version].
  destruct (String.eqb_spec (model_version x) v) as [Heq|Hne].
  - exists x. split; [reflexivity|]. split; [now left|]. split; [exact Heq|].
    intros m Hin _. now apply (sorted_head_max (x :: ms) x Hs eq_refl).
  - apply StronglySorted_inv in Hs as [Hs _].
    destruct Hin0 as [->|Hin0]; [contradiction|].
    destruct (IH Hs) as (target & Hfind & Hin & Hv & Hmax); [eauto|].
    exists target. split; [exact Hfind|]. split; [now right|]. split; [exact Hv|].
    intros m [->|Hin'] Hvm; [contradiction|]. now apply Hmax.
Qed.

(** X7.  [load_model_by_version] with an identifier that no registry entry
    carries returns [False], logs that the version does not exist, and
    changes nothing else: the predictor, a bundle it may be serving
    included, is as before. *)
Theorem unknown_version_is_refused :
  forall (R : Runtime) (s : state) (r : Registry) (v : string),
    fs s !! ModelPredictor.registry_file (predictor s)
      = Some (JsonFile (JRegistry r)) ->
    (forall m, In m (models r) -> model_version m <> v) ->
    ModelPredictor.load_model_by_version v s
      = (Ok false, log_error s (LogVersionMissing v)).
Proof.
  intros R s r v Hfs Hno. apply find_version_none in Hno.
  unfold ModelPredictor.registry_file in Hfs. run_monad.
  rewrite (exists_true _ _ _ Hfs). run_monad. rewrite Hfs. run_monad.
  rewrite Hno. reflexivity.
Qed.

Lemma unknown_version_is_refused_witness :
  fs Scenario.serving !! ModelPredictor.registry_file (predictor Scenario.serving)
    = Some (JsonFile (JRegistry {| models := [Scenario.v2; Scenario.v1];
                                   latest := Some "v2" |})) /\
  (forall m, In m [Scenario.v2; Scenario.v1] -> model_version m <> "v3") /\
  ModelPredictor.load_model_by_version (H := Scenario.runtime) "v3" Scenario.serving
    = (Ok false, log_error Scenario.serving (LogVersionMissing "v3")).
Proof.
  assert (Hfs : fs Scenario.serving
                  !! ModelPredictor.registry_file (predictor Scenario.serving)
                = Some (JsonFile (JRegistry {| models := [Scenario.v2; Scenario.v1];
                                               latest := Some "v2" |})))
    by (vm_compute; reflexivity).
  assert (Hno : forall m, In m [Scenario.v2; Scenario.v1] ->
                          model_version m <> "v3").
  { intros m [<-|[<-|[]]]; discriminate. }
  split; [exact Hfs|]. split; [exact Hno|].
  exact (unknown_version_is_refused Scenario.runtime Scenario.serving _ "v3" Hfs Hno).
Defined.

(** X8.  When several entries of a sorted registry carry the requested
    identifier (the trainer does not prevent it), [load_model_by_version]
    loads the first of them in registry order, which is one of highest
    validation accuracy among them. *)
Theorem version_lookup_takes_most_accurate :
  forall (R : Runtime) (s : state) (r : Registry) (v : string),
    fs s !! ModelPredictor.registry_file (predictor s)
      = Some (JsonFile (JRegistry r)) ->
    sorted_desc (models r) ->
    (exists m, In m (models r) /\ model_version m = v) ->
    exists target,
      In target (models r) /\
      model_version target = v /\
      (forall m, In m (models r) -> model_version m = v ->
                 (val_accuracy m <= val_accuracy target)%Q) /\
      ModelPredictor.load_model_by_version v s
        = ModelPredictor._load_model_from_info target s.
Proof.
  intros R s r v Hfs Hs Hex.
  destruct (find_version_sorted v (models r) Hs Hex)
    as (target & Hfind & Hin & Hv & Hmax).
  exists target. repeat match goal with |- _ /\ _ => split end; try assumption.
  pose proof (load_model_by_version_cases v s) as Hc.
  unfold selected_version in Hc. rewrite Hfs, Hfind in Hc. exact Hc.
Qed.

Lemma version_lookup_takes_most_accurate_witness :
  fs Cases.twice_v1 !! ModelPredictor.registry_file (predictor Cases.twice_v1)
    = Some (JsonFile (JRegistry
              {| models := [Cases.v1_retrained; Scenario.v2; Scenario.v1];
                 latest := Some "v1" |})) /\
  sorted_desc [Cases.v1_retrained; Scenario.v2; Scenario.v1] /\
  (exists m, In m [Cases.v1_retrained; Scenario.v2; Scenario.v1] /\
             model_version m = "v1") /\
  exists target,
    In target [Cases.v1_retrained; Scenario.v2; Scenario.v1] /\
    model_version target = "v1" /\
    (forall m, In m [Cases.v1_retrained; Scenario.v2; Scenario.v1] ->
               model_version m = "v1" ->
               (val_accuracy m <= val_accuracy target)%Q) /\
    ModelPredictor.load_model_by_version (H := Scenario.runtime) "v1" Cases.twice_v1
      = ModelPredictor._load_model_from_info (H := Scenario.runtime) target
          Cases.twice_v1.
Proof.
  assert (Hfs : fs Cases.twice_v1
                  !! ModelPredictor.registry_file (predictor Cases.twice_v1)
                = Some (JsonFile (JRegistry
                          {| models := [Cases.v1_retrained; Scenario.v2; Scenario.v1];
                             latest := Some "v1" |})))
    by (vm_compute; reflexivity).
  assert (Hs : sorted_desc [Cases.v1_retrained; Scenario.v2; Scenario.v1]).
  { repeat constructor; vm_compute; discriminate. }
  assert (Hex : exists m, In m [Cases.v1_retrained; Scenario.v2; Scenario.v1] /\
                          model_version m = "v1").
  { exists Scenario.v1. split; [right; right; now left|reflexivity]. }
  split; [exact Hfs|]. split; [exact Hs|]. split; [exact Hex|].
  exact (version_lookup_takes_most_accurate Scenario.runtime Cases.twice_v1 _ "v1"
           Hfs Hs Hex).
Defined.

(** ** Listing the registry *)

(** X9.  What [_update_model_registry] has written, [get_available_models]
    of a predictor on the same registry directory reads back: the whole
    list, in stored order, the appended entry in it, and its first element
    is the entry [load_best_model] will load.  Listing changes nothing, not
    even the log. *)
Theorem listing_reads_back_the_update :
  forall (self : ModelTrainer.ModelTrainer) (s : state)
         (ms0 : list ModelInfo) (model_info : ModelInfo),
    ModelTrainer.stored_models self s = Some ms0 ->
    model_registry_path (predictor s) = ModelTrainer.model_registry_path self ->
    let s1 := snd (ModelTrainer._update_model_registry self model_info s) in
    ModelPredictor.get_available_models s1
      = (Ok (sort_by_val_accuracy_reverse (ms0 ++ [model_info])), s1) /\
    In model_info (sort_by_val_accuracy_reverse (ms0 ++ [model_info])) /\
    selected_best s1 = head (sort_by_val_accuracy_reverse (ms0 ++ [model_info])).
Proof.
  intros self s ms0 model_info Hst Hpath. cbv zeta.
  rewrite (update_model_registry_run self model_info s ms0 Hst). cbn [snd].
  set (s1 := {| predictor := predictor s; fs := _; clock := _; trace := _ |}).
  assert (Hfs : fs s1 !! path_join (model_registry_path (predictor s1)) "registry.json"
                = Some (JsonFile (JRegistry
                     {| models := sort_by_val_accuracy_reverse (ms0 ++ [model_info]);
                        latest := Some (model_version model_info) |}))).
  { subst s1. cbn [fs predictor]. rewrite Hpath.
    apply lookup_insert_eq. }
  split.
  - run_monad. rewrite (exists_true _ _ _ Hfs). run_monad. rewrite Hfs.
    reflexivity.
  - split.
    + eapply Permutation_in; [symmetry; apply sort_perm|].
      apply in_or_app. right. now left.
    + unfold selected_best, ModelPredictor.registry_file. now rewrite Hfs.
Qed.

Lemma listing_reads_back_the_update_witness :
  ModelTrainer.stored_models Scenario.trainer Scenario.registered_v1
    = Some [Scenario.v1] /\
  model_registry_path (predictor Scenario.registered_v1)
    = ModelTrainer.model_registry_path Scenario.trainer /\
  ModelPredictor.get_available_models
    (snd (ModelTrainer._update_model_registry Scenario.trainer Scenario.v2
            Scenario.registered_v1))
    = (Ok (sort_by_val_accuracy_reverse ([Scenario.v1] ++ [Scenario.v2])),
       snd (ModelTrainer._update_model_registry Scenario.trainer Scenario.v2
              Scenario.registered_v1)) /\
  In Scenario.v2 (sort_by_val_accuracy_reverse ([Scenario.v1] ++ [Scenario.v2])) /\
  selected_best
    (snd (ModelTrainer._update_model_registry Scenario.trainer Scenario.v2
            Scenario.registered_v1))
    = head (sort_by_val_accuracy_reverse ([Scenario.v1] ++ [Scenario.v2])).
Proof.
  assert (Hst : ModelTrainer.stored_models Scenario.trainer Scenario.registered_v1
                = Some [Scenario.v1]) by (vm_compute; reflexivity).
  assert (Hpath : model_registry_path (predictor Scenario.registered_v1)
                  = ModelTrainer.model_registry_path Scenario.trainer)
    by reflexivity.
  split; [exact Hst|]. split; [exact Hpath|].
  exact (listing_reads_back_the_update Scenario.trainer Scenario.registered_v1
           [Scenario.v1] Scenario.v2 Hst Hpath).
Defined.

(** ** The shape of the model output against the label encoder *)

Lemma class_probabilities_loop_bound cls :
  forall row i d d',
    class_probabilities_loop row i cls d = Ok d' ->
    (i <= length row)%nat ->
    (i + length cls <= length row)%nat.
Proof.
  induction cls as [|c cls IH]; intros row i d d' Hrun Hi; [cbn; lia|].
  cbn [class_probabilities_loop] in Hrun. unfold index in Hrun.
  destruct (row !! i) as [p|] eqn:Hp; [|discriminate].
  pose proof (lookup_lt_Some _ _ _ Hp) as Hlt.
  apply IH in Hrun; [|lia]. cbn. lia.
Qed.

Lemma class_probabilities_loop_short cls :
  forall row i d,
    (i <= length row)%nat ->
    (length row < i + length cls)%nat ->
    class_probabilities_loop row i cls d = Raise IndexError.
Proof.
  induction cls as [|c cls IH]; intros row i d Hi Hshort; [cbn in Hshort; lia|].
  cbn [class_probabilities_loop]. unfold index.
  destruct (row !! i) as [p|] eqn:Hp; [|reflexivity].
  pose proof (lookup_lt_Some _ _ _ Hp) as Hlt.
  apply IH; [lia|]. cbn in Hshort. lia.
Qed.

Lemma classify_short_row le row :
  row <> [] -> (length row < length (classes_ le))%nat ->
  classify le row = Raise IndexError.
Proof.
  intros Hne Hshort. unfold classify.
  destruct (np_argmax_ok row Hne) as (idx & -> & Hlt).
  unfold inverse_transform, index.
  destruct (lookup_lt_is_Some_2 (classes_ le) idx) as [pc ->]; [lia|].
  destruct (lookup_lt_is_Some_2 row idx) as [conf ->]; [lia|].
  now rewrite class_probabilities_loop_short by lia.
Qed.

Lemma classify_argmax_beyond le row idx :
  np_argmax row = Ok idx -> (length (classes_ le) <= idx)%nat ->
  classify le row = Raise ValueError.
Proof.
  intros Hidx Hbeyond. unfold classify. rewrite Hidx.
  unfold inverse_transform. now rewrite lookup_ge_None_2.
Qed.

Lemma classify_label_known le row pc conf probs :
  classify le row = Ok (pc, conf, probs) ->
  In pc (classes_ le) /\ (length (classes_ le) <= length row)%nat.
Proof.
  intros Hc. destruct (classify_inv _ _ _ _ _ Hc) as (idx & _ & Hpc & _ & Hloop).
  split.
  - unfold inverse_transform in Hpc.
    destruct (classes_ le !! idx) as [c|] eqn:E; [|discriminate].
    injection Hpc as <-. apply list_elem_of_In. eapply list_elem_of_lookup_2, E.
  - apply class_probabilities_loop_bound in Hloop; cbn in *; lia.
Qed.

Section PredictOutcome.
Context `{Runtime}.

(** With the bundle in place and one row back from the model, the outcome
    of [predict] is the outcome of classifying that row. *)
Lemma predict_outcome t s layer m le batch preds row :
  loaded (predictor s) = true ->
  vectorize_layer (predictor s) = Some layer ->
  model (predictor s) = Some m ->
  label_encoder (predictor s) = Some le ->
  vectorize_call layer [t] = Ok batch ->
  model_predict m batch = Ok preds ->
  preds !! 0%nat = Some row ->
  fst (ModelPredictor.predict t s) =
    match classify le row with
    | Ok (pc, conf, probs) =>
        Ok {| text := t; predicted_class := pc; confidence := conf;
              class_probabilities := probs;
              processing_time :=
                (time_time (S (clock s)) - time_time (clock s))%Q |}
    | Raise e => Raise (RuntimeError (MsgPredictFailed e))
    end.
Proof.
  intros Hl Hlayer Hm Hle Hv Hp Hrow. apply index_lookup in Hrow.
  run_monad. rewrite Hl. run_monad. rewrite Hlayer. run_monad.
  rewrite Hv. run_monad. rewrite Hm. run_monad. rewrite Hp. run_monad.
  rewrite Hrow. unfold classify.
  destruct (np_argmax row) as [idx|e]; [|reflexivity].
  rewrite Hle. run_monad.
  destruct (inverse_transform le idx) as [pc|e]; [|reflexivity].
  destruct (index row idx) as [conf|e]; [|reflexivity].
  destruct (class_probabilities_loop row 0 (classes_ le) []) as [probs|e];
    reflexivity.
Qed.

(** The loop of [predict_batch] runs out of prediction rows. *)
Lemma batch_loop_short preds le texts :
  forall i s,
    label_encoder (predictor s) = Some le ->
    Forall (fun row => row <> [] /\ length row = length (classes_ le)) preds ->
    (i <= length preds)%nat ->
    (length preds < i + length texts)%nat ->
    exists s', ModelPredictor.batch_loop preds i texts s = (Raise IndexError, s').
Proof.
  induction texts as [|t rest IH]; intros i s Hle Hrows Hi Hshort;
    [cbn in Hshort; lia|].
  cbn [ModelPredictor.batch_loop]. run_monad. unfold index.
  destruct (preds !! i) as [row|] eqn:Hrow; [|eauto].
  pose proof (lookup_lt_Some _ _ _ Hrow) as Hlt.
  rewrite List.Forall_forall in Hrows.
  destruct (Hrows row) as [Hne Hlen].
  { apply list_elem_of_In. eapply list_elem_of_lookup_2, Hrow. }
  destruct (classify_ok le row Hne Hlen) as (pc & conf & probs & Hc).
  destruct (classify_inv _ _ _ _ _ Hc) as (idx & Hidx & Hpc & Hconf & Hprobs).
  unfold index in Hconf.
  rewrite Hidx, Hle. run_monad. rewrite Hpc, Hconf, Hprobs.
  destruct (IH (S i) s Hle) as (s' & ->).
  - now apply List.Forall_forall.
  - lia.
  - cbn in Hshort. lia.
  - eauto.
Qed.

End PredictOutcome.

(** X11.  [predict] returns only labels the label encoder knows, and only
    when the model's output row has at least as many entries as there are
    classes.  A non-empty row with fewer entries than classes makes it fail
    with the RuntimeError that wraps IndexError, and a row whose largest
    entry lies beyond the known classes makes it fail with the one that
    wraps ValueError. *)
Theorem prediction_needs_matching_shapes :
  forall (R : Runtime) (s : state) (t : string) (layer : VectorizeLayer)
         (m : Model) (le : LabelEncoder) (batch : list (list Z))
         (preds : list (list Q)) (row : list Q),
    loaded (predictor s) = true ->
    vectorize_layer (predictor s) = Some layer ->
    model (predictor s) = Some m ->
    label_encoder (predictor s) = Some le ->
    vectorize_call layer [t] = Ok batch ->
    model_predict m batch = Ok preds ->
    preds !! 0%nat = Some row ->
    row <> [] ->
    ((length row < length (classes_ le))%nat ->
     fst (ModelPredictor.predict t s)
       = Raise (RuntimeError (MsgPredictFailed IndexError))) /\
    (forall idx, np_argmax row = Ok idx ->
       (length (classes_ le) <= idx)%nat ->
       fst (ModelPredictor.predict t s)
         = Raise (RuntimeError (MsgPredictFailed ValueError))) /\
    (forall pr, fst (ModelPredictor.predict t s) = Ok pr ->
       In (predicted_class pr) (classes_ le) /\
       (length (classes_ le) <= length row)%nat).
Proof.
  intros R s t layer m le batch preds row Hl Hlayer Hm Hle Hv Hp Hrow Hne.
  rewrite (predict_outcome t s layer m le batch preds row) by assumption.
  split; [|split].
  - intros Hshort. now rewrite classify_short_row.
  - intros idx Hidx Hbeyond. now rewrite (classify_argmax_beyond le row idx).
  - intros pr Hpr.
    destruct (classify le row) as [[[pc conf] probs]|e] eqn:Hc; [|discriminate].
    injection Hpr as <-. cbn [predicted_class].
    now apply (classify_label_known le row pc conf probs).
Qed.

Lemma prediction_needs_matching_shapes_witness :
  loaded (predictor (Cases.serving_with Cases.narrow_model)) = true /\
  vectorize_layer (predictor (Cases.serving_with Cases.narrow_model))
    = Some Scenario.length_layer /\
  model (predictor (Cases.serving_with Cases.narrow_model))
    = Some Cases.narrow_model /\
  label_encoder (predictor (Cases.serving_with Cases.narrow_model))
    = Some {| classes_ := Scenario.labels_v2 |} /\
  vectorize_call Scenario.length_layer ["hello"] = Ok [[5%Z]] /\
  model_predict Cases.narrow_model [[5%Z]] = Ok [[(6 # 10)%Q; (4 # 10)%Q]] /\
  [[(6 # 10)%Q; (4 # 10)%Q]] !! 0%nat = Some [(6 # 10)%Q; (4 # 10)%Q] /\
  [(6 # 10)%Q; (4 # 10)%Q] <> [] /\
  (length [(6 # 10)%Q; (4 # 10)%Q] < length Scenario.labels_v2)%nat /\
  fst (ModelPredictor.predict (H := Scenario.runtime) "hello"
         (Cases.serving_with Cases.narrow_model))
    = Raise (RuntimeError (MsgPredictFailed IndexError)).
Proof.
  assert (Hne : [(6 # 10)%Q; (4 # 10)%Q] <> []) by discriminate.
  assert (Hshort : (length [(6 # 10)%Q; (4 # 10)%Q]
                    < length Scenario.labels_v2)%nat) by (cbn; lia).
  do 7 (split; [vm_compute; reflexivity|]).
  split; [exact Hne|]. split; [exact Hshort|].
  exact (proj1 (prediction_needs_matching_shapes Scenario.runtime
                  (Cases.serving_with Cases.narrow_model) "hello"
                  Scenario.length_layer Cases.narrow_model
                  {| classes_ := Scenario.labels_v2 |} [[5%Z]]
                  [[(6 # 10)%Q; (4 # 10)%Q]] [(6 # 10)%Q; (4 # 10)%Q]
                  eq_refl eq_refl eq_refl eq_refl eq_refl eq_refl eq_refl Hne)
           Hshort).
Defined.

(** X12.  When the model answers a batch with fewer rows than there were
    texts (each row well-formed), [predict_batch] returns no partial list:
    it fails with the RuntimeError that wraps IndexError, and the predictor
    is as before. *)
Theorem short_batch_output_fails_whole_batch :
  forall (R : Runtime) (s : state) (texts : list string)
         (layer : VectorizeLayer) (m : Model) (le : LabelEncoder)
         (batch : list (list Z)) (preds : list (list Q)),
    loaded (predictor s) = true ->
    vectorize_layer (predictor s) = Some layer ->
    model (predictor s) = Some m ->
    label_encoder (predictor s) = Some le ->
    vectorize_call layer texts = Ok batch ->
    model_predict m batch = Ok preds ->
    Forall (fun row => row <> [] /\ length row = length (classes_ le)) preds ->
    (length preds < length texts)%nat ->
    fst (ModelPredictor.predict_batch texts s)
      = Raise (RuntimeError (MsgBatchPredictFailed IndexError)) /\
    predictor (snd (ModelPredictor.predict_batch texts s)) = predictor s.
Proof.
  intros R s texts layer m le batch preds Hl Hlayer Hm Hle Hv Hp Hrows Hshort.
  split.
  - run_monad. rewrite Hl. run_monad. rewrite Hlayer. run_monad.
    rewrite Hv. run_monad. rewrite Hm. run_monad. rewrite Hp. run_monad.
    match goal with |- context [ModelPredictor.batch_loop preds 0 texts ?s1] =>
      destruct (batch_loop_short preds le texts 0 s1 Hle Hrows) as (s' & ->);
        [lia|lia|]
    end.
    reflexivity.
  - destruct (ModelPredictor.predict_batch texts s) as [r s'] eqn:Hrun.
    now destruct (same_bundle_predict_batch texts s r s' Hrun).
Qed.

Lemma short_batch_output_fails_whole_batch_witness :
  loaded (predictor (Cases.serving_with Cases.one_row_model)) = true /\
  vectorize_layer (predictor (Cases.serving_with Cases.one_row_model))
    = Some Scenario.length_layer /\
  model (predictor (Cases.serving_with Cases.one_row_model))
    = Some Cases.one_row_model /\
  label_encoder (predictor (Cases.serving_with Cases.one_row_model))
    = Some {| classes_ := Scenario.labels_v2 |} /\
  vectorize_call Scenario.length_layer ["a"; "bb"] = Ok [[1%Z]; [2%Z]] /\
  model_predict Cases.one_row_model [[1%Z]; [2%Z]]
    = Ok [[(1 # 10)%Q; (1 # 10)%Q; (8 # 10)%Q]] /\
  Forall (fun row => row <> [] /\ length row = length Scenario.labels_v2)
         [[(1 # 10)%Q; (1 # 10)%Q; (8 # 10)%Q]] /\
  (length [[(1 # 10)%Q; (1 # 10)%Q; (8 # 10)%Q]] < length ["a"; "bb"])%nat /\
  fst (ModelPredictor.predict_batch (H := Scenario.runtime) ["a"; "bb"]
         (Cases.serving_with Cases.one_row_model))
    = Raise (RuntimeError (MsgBatchPredictFailed IndexError)) /\
  predictor (snd (ModelPredictor.predict_batch (H := Scenario.runtime) ["a"; "bb"]
                    (Cases.serving_with Cases.one_row_model)))
    = predictor (Cases.serving_with Cases.one_row_model).
Proof.
  assert (Hrows : Forall (fun row => row <> [] /\
                                     length row = length Scenario.labels_v2)
                    [[(1 # 10)%Q; (1 # 10)%Q; (8 # 10)%Q]]).
  { constructor; [split; [discriminate|reflexivity]|constructor]. }
  assert (Hshort : (length [[(1 # 10)%Q; (1 # 10)%Q; (8 # 10)%Q]]
                    < length ["a"; "bb"])%nat) by (cbn; lia).
  split; [reflexivity|]. split; [reflexivity|]. split; [reflexivity|].
  split; [reflexivity|]. split; [reflexivity|]. split; [reflexivity|].
  split; [exact Hrows|]. split; [exact Hshort|].
  exact (short_batch_output_fails_whole_batch Scenario.runtime
           (Cases.serving_with Cases.one_row_model) ["a"; "bb"]
           Scenario.length_layer Cases.one_row_model
           {| classes_ := Scenario.labels_v2 |} [[1%Z]; [2%Z]]
           [[(1 # 10)%Q; (1 # 10)%Q; (8 # 10)%Q]]
           eq_refl eq_refl eq_refl eq_refl eq_refl eq_refl Hrows Hshort).
Defined.

(** ** Paths *)

Lemma string_append_cons (x : ascii) (a b : string) :
  String.append (String x a) b = String x (String.append a b).
Proof. reflexivity. Qed.

Lemma string_append_assoc (a b c : string) :
  String.append (String.append a b) c = String.append a (String.append b c).
Proof.
  induction a as [|x a IH]; [reflexivity|].
  rewrite !string_append_cons. f_equal. exact IH.
Qed.

Lemma string_append_inj (p a b : string) :
  String.append p a = String.append p b -> a = b.
Proof.
  induction p as [|x p IH]; [auto|].
  rewrite !string_append_cons. intros [= E]. auto.
Qed.

Lemma path_join_inj d a b : path_join d a = path_join d b -> a = b.
Proof.
  unfold path_join. intros E.
  apply string_append_inj in E. rewrite !string_append_cons in E.
  now injection E.
Qed.

Lemma nested_path d v name :
  path_join (path_join d v) name
  = path_join d (String.append v (String.append "/" name)).
Proof. unfold path_join. now rewrite string_append_assoc. Qed.

Lemma replace_backslash_append a b :
  replace_backslash (String.append a b)
  = String.append (replace_backslash a) (replace_backslash b).
Proof.
  induction a as [|x a IH]; [reflexivity|].
  rewrite string_append_cons. cbn [replace_backslash].
  rewrite string_append_cons. f_equal. exact IH.
Qed.

Lemma replace_backslash_idempotent p :
  replace_backslash (replace_backslash p) = replace_backslash p.
Proof.
  induction p as [|x p IH]; cbn; [reflexivity|]. rewrite IH.
  destruct (Ascii.eqb_spec x "\"%char) as [->|Hx]; cbn; [reflexivity|].
  destruct (Ascii.eqb_spec x "\"%char); [contradiction|reflexivity].
Qed.

Lemma replace_backslash_length p :
  String.length (replace_backslash p) = String.length p.
Proof. induction p as [|x p IH]; cbn; congruence. Qed.

Lemma posix_style_path_join d name :
  posix_style d -> posix_style name -> posix_style (path_join d name).
Proof.
  unfold posix_style, path_join. intros Hd Hn.
  rewrite !replace_backslash_append, Hd, Hn. reflexivity.
Qed.

(** X13.  The loader reads [model_path] only after replacing every
    backslash by a slash: the replacement leaves no backslash (doing it
    again changes nothing) and keeps the length, and two registry entries
    of one version whose paths differ only in the separator style are
    loaded with the same outcome in every state. *)
Theorem separator_style_does_not_matter :
  forall (R : Runtime) (s : state) (a b : ModelInfo),
    model_version a = model_version b ->
    replace_backslash (model_path a) = replace_backslash (model_path b) ->
    ModelPredictor._load_model_from_info a s
      = ModelPredictor._load_model_from_info b s /\
    posix_style (replace_backslash (model_path a)) /\
    String.length (replace_backslash (model_path a))
      = String.length (model_path a).
Proof.
  intros R s a b Hv Hp. split; [|split].
  - unfold ModelPredictor._load_model_from_info. now rewrite Hv, Hp.
  - apply replace_backslash_idempotent.
  - apply replace_backslash_length.
Qed.

Lemma separator_style_does_not_matter_witness :
  model_version Cases.v1_windows = model_version Scenario.v1 /\
  replace_backslash (model_path Cases.v1_windows)
    = replace_backslash (model_path Scenario.v1) /\
  ModelPredictor._load_model_from_info (H := Scenario.runtime) Cases.v1_windows
    Scenario.registered
    = ModelPredictor._load_model_from_info (H := Scenario.runtime) Scenario.v1
        Scenario.registered /\
  posix_style (replace_backslash (model_path Cases.v1_windows)) /\
  String.length (replace_backslash (model_path Cases.v1_windows))
    = String.length (model_path Cases.v1_windows).
Proof.
  assert (Hp : replace_backslash (model_path Cases.v1_windows)
               = replace_backslash (model_path Scenario.v1))
    by (vm_compute; reflexivity).
  split; [reflexivity|]. split; [exact Hp|].
  exact (separator_style_does_not_matter Scenario.runtime Scenario.registered
           Cases.v1_windows Scenario.v1 eq_refl Hp).
Defined.

(** ** The best entry after an append *)

Lemma head_of_sort_is_first_maximum (l : list ModelInfo) (b : ModelInfo) :
  In b l ->
  (forall m, In m l -> (val_accuracy m <= val_accuracy b)%Q) ->
  (exists rest,
      List.filter (fun m => Qeq_bool (val_accuracy m) (val_accuracy b)) l
      = b :: rest) ->
  head (sort_by_val_accuracy_reverse l) = Some b.
Proof.
  intros Hin Hmax [rest Hfirst].
  pose proof (sort_stable (val_accuracy b) l) as Hst. cbv zeta in Hst.
  rewrite Hfirst in Hst.
  destruct (sort_by_val_accuracy_reverse l) as [|h tl] eqn:Hsort; [discriminate|].
  cbn [head]. f_equal.
  assert (Hh : (val_accuracy h == val_accuracy b)%Q).
  { apply Qle_antisym.
    - apply Hmax. eapply Permutation_in; [apply sort_perm|].
      rewrite Hsort. now left.
    - apply (sorted_head_max (h :: tl) h); [|reflexivity|].
      + rewrite <- Hsort. apply sort_sorted.
      + rewrite <- Hsort. eapply Permutation_in; [symmetry; apply sort_perm|].
        exact Hin. }
  cbn [List.filter] in Hst.
  rewrite (proj2 (Qeq_bool_iff _ _) Hh) in Hst. now injection Hst.
Qed.

(** X14.  On a sorted, non-empty registry an append changes the best
    entry only for a strictly higher validation accuracy: a new entry that
    ties the best, or is worse, leaves element 0 as it was, and a strictly
    better one becomes element 0.  [latest] names the new entry in either
    case. *)
Theorem best_changes_only_when_beaten :
  forall (self : ModelTrainer.ModelTrainer) (s : state)
         (best : ModelInfo) (rest : list ModelInfo) (model_info : ModelInfo),
    ModelTrainer.stored_models self s = Some (best :: rest) ->
    sorted_desc (best :: rest) ->
    exists s' r,
      ModelTrainer._update_model_registry self model_info s = (Ok tt, s') /\
      fs s' !! ModelTrainer.registry_file self = Some (JsonFile (JRegistry r)) /\
      latest r = Some (model_version model_info) /\
      ((val_accuracy model_info <= val_accuracy best)%Q ->
       head (models r) = Some best) /\
      ((val_accuracy best < val_accuracy model_info)%Q ->
       head (models r) = Some model_info).
Proof.
  intros self s best rest model_info Hst Hs.
  eexists _, _.
  split; [exact (update_model_registry_run self model_info s _ Hst)|].
  cbn [fs]. rewrite lookup_insert_eq. split; [reflexivity|].
  cbn [models latest]. split; [reflexivity|].
  assert (Hbest : forall m, In m (best :: rest) ->
                            (val_accuracy m <= val_accuracy best)%Q)
    by (now apply (sorted_head_max (best :: rest) best Hs)).
  split.
  - intros Hle. apply head_of_sort_is_first_maximum.
    + now left.
    + intros m Hin. apply in_app_or in Hin as [Hin|[<-|[]]]; auto.
    + cbn [app List.filter]. rewrite Qeq_bool_refl. eauto.
  - intros Hlt. apply head_of_sort_is_first_maximum.
    + apply in_or_app. right. now left.
    + intros m Hin. apply in_app_or in Hin as [Hin|[<-|[]]].
      * apply Qle_trans with (val_accuracy best); [auto|now apply Qlt_le_weak].
      * apply Qle_refl.
    + assert (Hnone : forall l,
                (forall m, In m l -> (val_accuracy m <= val_accuracy best)%Q) ->
                List.filter (fun m => Qeq_bool (val_accuracy m)
                                               (val_accuracy model_info))
                            (l ++ [model_info]) = [model_info]).
      { induction l as [|x l IH]; intros Hl.
        - cbn. now rewrite Qeq_bool_refl.
        - cbn [app List.filter].
          destruct (Qeq_bool (val_accuracy x) (val_accuracy model_info)) eqn:E.
          + exfalso. apply Qeq_bool_iff in E.
            assert (Hx : (val_accuracy x <= val_accuracy best)%Q)
              by (apply Hl; now left).
            rewrite E in Hx. exact (Qlt_not_le _ _ Hlt Hx).
          + apply IH. intros m Hin. apply Hl. now right. }
      rewrite (Hnone (best :: rest) Hbest). eauto.
Qed.

Lemma best_changes_only_when_beaten_witness :
  ModelTrainer.stored_models Scenario.trainer Scenario.registered
    = Some (Scenario.v2 :: [Scenario.v1]) /\
  sorted_desc (Scenario.v2 :: [Scenario.v1]) /\
  exists s' r,
    ModelTrainer._update_model_registry Scenario.trainer
      (Scenario.info "v3" (92 # 100) Scenario.labels_v1) Scenario.registered
      = (Ok tt, s') /\
    fs s' !! ModelTrainer.registry_file Scenario.trainer
      = Some (JsonFile (JRegistry r)) /\
    latest r = Some "v3" /\
    (((92 # 100) <= val_accuracy Scenario.v2)%Q -> head (models r) = Some Scenario.v2) /\
    ((val_accuracy Scenario.v2 < 92 # 100)%Q ->
     head (models r) = Some (Scenario.info "v3" (92 # 100) Scenario.labels_v1)).
Proof.
  assert (Hst : ModelTrainer.stored_models Scenario.trainer Scenario.registered
                = Some (Scenario.v2 :: [Scenario.v1])) by (vm_compute; reflexivity).
  assert (Hs : sorted_desc (Scenario.v2 :: [Scenario.v1])).
  { repeat constructor; vm_compute; discriminate. }
  split; [exact Hst|]. split; [exact Hs|].
  exact (best_changes_only_when_beaten Scenario.trainer Scenario.registered
           Scenario.v2 [Scenario.v1]
           (Scenario.info "v3" (92 # 100) Scenario.labels_v1) Hst Hs).
Defined.

(** ** Saving a model *)

Section SaveRuns.
Context `{Calendar}.

(** Up to the registry update [save_model] only writes files and reads the
    clock twice. *)
Lemma save_model_run self acc n_classes vocab s :
  Training.save_model self acc n_classes vocab s =
    match ModelTrainer._update_model_registry (Training.registry_part self)
            (saved_info self acc n_classes vocab s)
            {| predictor := predictor s; fs := saved_files self s;
               clock := S (S (clock s)); trace := trace s |} with
    | (Ok _, s') => (Ok (saved_info self acc n_classes vocab s), s')
    | (Raise e, s') => (Raise e, s')
    end.
Proof.
  unfold Training.save_model, saved_files, saved_info, saved_dir.
  unfold bind at 1. unfold datetime_now at 1. cbn [clock].
  unfold bind at 1. unfold keras_save at 1.
  unfold bind at 1. unfold pickle_dump at 1.
  unfold bind at 1. unfold json_dump at 1.
  unfold bind at 1.
  destruct (Training.training_history self) as [h|].
  - unfold json_dump at 1.
    unfold bind at 1. unfold datetime_now at 1.
    unfold bind at 1. unfold json_dump at 1.
    unfold bind at 1. cbn [predictor fs clock trace].
    match goal with |- context [ModelTrainer._update_model_registry ?a ?b ?c] =>
      destruct (ModelTrainer._update_model_registry a b c) as [[[]|e] s'] end;
      reflexivity.
  - unfold ret at 1.
    unfold bind at 1. unfold datetime_now at 1.
    unfold bind at 1. unfold json_dump at 1.
    unfold bind at 1. cbn [predictor fs clock trace].
    match goal with |- context [ModelTrainer._update_model_registry ?a ?b ?c] =>
      destruct (ModelTrainer._update_model_registry a b c) as [[[]|e] s'] end;
      reflexivity.
Qed.

(** The registry file is none of the files of a version directory. *)
Lemma registry_file_outside_version_dir d stamp name :
  path_join d "registry.json" <> path_join (path_join d (String "v" stamp)) name.
Proof.
  rewrite nested_path. intros E. apply path_join_inj in E.
  rewrite string_append_cons in E. discriminate.
Qed.

Lemma saved_files_registry self s :
  saved_files self s !! ModelTrainer.registry_file (Training.registry_part self)
  = fs s !! ModelTrainer.registry_file (Training.registry_part self).
Proof.
  unfold saved_files, saved_dir, ModelTrainer.registry_file.
  rewrite lookup_insert_ne by (apply not_eq_sym, registry_file_outside_version_dir).
  destruct (Training.training_history self);
    rewrite ?lookup_insert_ne
      by (apply not_eq_sym, registry_file_outside_version_dir);
    reflexivity.
Qed.

Lemma saved_files_artifacts self s :
  saved_files self s !! path_join (saved_dir self s) "model.keras"
    = Some (KerasFile (Training.trained_model self)) /\
  saved_files self s !! path_join (saved_dir self s) "label_encoder.pkl"
    = Some (PickleFile (Training.fitted_encoder self)) /\
  saved_files self s !! path_join (saved_dir self s) "vectorize_config.json"
    = Some (JsonFile (JVectorizeConfig (Training.saved_vectorize_config self))).
Proof.
  assert (Hne : forall a b : string, a <> b ->
            path_join (saved_dir self s) a <> path_join (saved_dir self s) b).
  { intros a b Hab E. apply Hab. eapply path_join_inj, E. }
  unfold saved_files.
  repeat split; destruct (Training.training_history self);
    repeat (rewrite lookup_insert_ne by (apply Hne; discriminate));
    apply lookup_insert_eq.
Qed.

End SaveRuns.

Lemma find_version_unique (x : ModelInfo) l :
  In x l ->
  (forall y, In y l -> model_version y = model_version x -> y = x) ->
  ModelPredictor.find_version (model_version x) l = Some x.
Proof.
  induction l as [|y l IH]; intros Hin Huniq; [destruct Hin|].
  cbn [ModelPredictor.find_version].
  destruct (String.eqb_spec (model_version y) (model_version x)) as [Heq|Hne].
  - f_equal. apply Huniq; [now left|exact Heq].
  - destruct Hin as [->|Hin]; [contradiction|].
    apply IH; [exact Hin|]. intros z Hz. apply Huniq. now right.
Qed.

(** X15.  What [save_model] saves, the predictor loads back.  On a
    readable registry, with no backslash in the registry directory or the
    version stamp, [save_model] returns the registered entry without
    touching the predictor, and from then on loading that entry succeeds
    and installs exactly the trainer's model, its label encoder and the
    tokenizer configuration it derived (whenever the vectorization layer
    can be built from that configuration); [load_model_by_version] finds
    it under its identifier when no older entry carries the same one. *)
Theorem saved_model_loads_back :
  forall (R : Runtime) (C : Calendar) (self : Training.Trainer) (s : state)
         (acc : Q) (n_classes vocab : Z) (ms0 : list ModelInfo)
         (layer : VectorizeLayer),
    ModelTrainer.stored_models (Training.registry_part self) s = Some ms0 ->
    posix_style (ModelTrainer.model_registry_path (Training.registry_part self)) ->
    posix_style (strftime_version (clock s)) ->
    TextVectorization
      (max_tokens (Training.saved_vectorize_config self))
      (output_mode (Training.saved_vectorize_config self))
      (output_sequence_length (Training.saved_vectorize_config self))
      (vocabulary (Training.saved_vectorize_config self)) = Ok layer ->
    exists model_info s1,
      Training.save_model self acc n_classes vocab s = (Ok model_info, s1) /\
      model_version model_info = String "v" (strftime_version (clock s)) /\
      val_accuracy model_info = acc /\
      classes model_info = classes_ (Training.fitted_encoder self) /\
      predictor s1 = predictor s /\
      ModelTrainer.stored_models (Training.registry_part self) s1
        = Some (sort_by_val_accuracy_reverse (ms0 ++ [model_info])) /\
      forall s2,
        fs s2 = fs s1 ->
        ModelPredictor._load_model_from_info model_info s2
          = (Ok true,
             installed model_info s2 (Training.trained_model self)
               (Training.fitted_encoder self)
               (Training.saved_vectorize_config self) layer) /\
        (model_registry_path (predictor s2)
           = ModelTrainer.model_registry_path (Training.registry_part self) ->
         (forall m, In m ms0 -> model_version m <> model_version model_info) ->
         ModelPredictor.load_model_by_version (model_version model_info) s2
           = (Ok true,
              installed model_info s2 (Training.trained_model self)
                (Training.fitted_encoder self)
                (Training.saved_vectorize_config self) layer)).
Proof.
  intros R C self s acc n_classes vocab ms0 layer Hst Hdir Hstamp Hlayer.
  set (info := saved_info self acc n_classes vocab s).
  set (mid := {| predictor := predictor s; fs := saved_files self s;
                 clock := S (S (clock s)); trace := trace s |}).
  assert (Hmid : ModelTrainer.stored_models (Training.registry_part self) mid
                 = Some ms0).
  { unfold ModelTrainer.stored_models in *. subst mid. cbn [fs].
    now rewrite saved_files_registry. }
  pose proof (update_model_registry_run (Training.registry_part self) info mid
                ms0 Hmid) as Hup.
  eexists info, _. split.
  { rewrite save_model_run. fold info. fold mid. rewrite Hup. reflexivity. }
  split; [reflexivity|]. split; [reflexivity|]. split; [reflexivity|].
  split; [reflexivity|]. split; [apply stored_models_after_write|].
  intros s2 Hfs2. cbn [fs] in Hfs2.
  assert (Hposix : artifact_dir info = saved_dir self s).
  { unfold artifact_dir. subst info. cbn [model_path saved_info].
    apply posix_style_path_join; [exact Hdir|].
    unfold posix_style in *. cbn [replace_backslash]. now rewrite Hstamp. }
  assert (Hsteps : load_steps_succeed info s2 (Training.trained_model self)
                     (Training.fitted_encoder self)
                     (Training.saved_vectorize_config self) layer).
  { destruct (saved_files_artifacts self s) as (Hw & He & Hc).
    unfold load_steps_succeed, weights_file, encoder_file, config_file.
    rewrite Hposix, Hfs2. subst mid. cbn [fs].
    unfold saved_dir.
    rewrite !lookup_insert_ne
      by (apply registry_file_outside_version_dir).
    now repeat split. }
  split; [now apply load_model_from_info_ok|].
  intros Hpath Hfresh.
  pose proof (load_model_by_version_cases (model_version info) s2) as Hcase.
  unfold selected_version, ModelPredictor.registry_file in Hcase.
  rewrite Hpath, Hfs2 in Hcase.
  change (path_join (ModelTrainer.model_registry_path (Training.registry_part self))
            "registry.json")
    with (ModelTrainer.registry_file (Training.registry_part self)) in Hcase.
  rewrite lookup_insert_eq in Hcase. cbn [models] in Hcase.
  rewrite find_version_unique in Hcase.
  - rewrite Hcase. now apply load_model_from_info_ok.
  - eapply Permutation_in; [symmetry; apply sort_perm|].
    apply in_or_app. right. now left.
  - intros y Hy Hv.
    eapply Permutation_in in Hy; [|apply sort_perm].
    apply in_app_or in Hy as [Hy|[<-|[]]]; [|reflexivity].
    exfalso. exact (Hfresh y Hy Hv).
Qed.

Lemma saved_model_loads_back_witness :
  ModelTrainer.stored_models (Training.registry_part Cases.trainer)
    Scenario.registered = Some [Scenario.v2; Scenario.v1] /\
  posix_style
    (ModelTrainer.model_registry_path (Training.registry_part Cases.trainer)) /\
  posix_style (strftime_version (Calendar := Cases.calendar)
                 (clock Scenario.registered)) /\
  TextVectorization (Runtime := Scenario.runtime)
    (max_tokens (Training.saved_vectorize_config Cases.trainer))
    (output_mode (Training.saved_vectorize_config Cases.trainer))
    (output_sequence_length (Training.saved_vectorize_config Cases.trainer))
    (vocabulary (Training.saved_vectorize_config Cases.trainer))
    = Ok Scenario.length_layer /\
  exists model_info s1,
    Training.save_model (H := Cases.calendar) Cases.trainer (97 # 100) 3 3
      Scenario.registered = (Ok model_info, s1) /\
    model_version model_info
      = String "v" (strftime_version (Calendar := Cases.calendar)
                      (clock Scenario.registered)) /\
    val_accuracy model_info = 97 # 100 /\
    classes model_info = classes_ (Training.fitted_encoder Cases.trainer) /\
    predictor s1 = predictor Scenario.registered /\
    ModelTrainer.stored_models (Training.registry_part Cases.trainer) s1
      = Some (sort_by_val_accuracy_reverse
                ([Scenario.v2; Scenario.v1] ++ [model_info])) /\
    forall s2,
      fs s2 = fs s1 ->
      ModelPredictor._load_model_from_info (H := Scenario.runtime) model_info s2
        = (Ok true,
           installed model_info s2 (Training.trained_model Cases.trainer)
             (Training.fitted_encoder Cases.trainer)
             (Training.saved_vectorize_config Cases.trainer)
             Scenario.length_layer) /\
      (model_registry_path (predictor s2)
         = ModelTrainer.model_registry_path (Training.registry_part Cases.trainer) ->
       (forall m, In m [Scenario.v2; Scenario.v1] ->
                  model_version m <> model_version model_info) ->
       ModelPredictor.load_model_by_version (H := Scenario.runtime)
         (model_version model_info) s2
         = (Ok true,
            installed model_info s2 (Training.trained_model Cases.trainer)
              (Training.fitted_encoder Cases.trainer)
              (Training.saved_vectorize_config Cases.trainer)
              Scenario.length_layer)).
Proof.
  assert (Hst : ModelTrainer.stored_models (Training.registry_part Cases.trainer)
                  Scenario.registered = Some [Scenario.v2; Scenario.v1])
    by (vm_compute; reflexivity).
  assert (Hdir : posix_style
            (ModelTrainer.model_registry_path
               (Training.registry_part Cases.trainer)))
    by (vm_compute; reflexivity).
  assert (Hstamp : posix_style (strftime_version (Calendar := Cases.calendar)
                                  (clock Scenario.registered)))
    by (vm_compute; reflexivity).
  split; [exact Hst|]. split; [exact Hdir|]. split; [exact Hstamp|].
  split; [reflexivity|].
  exact (saved_model_loads_back Scenario.runtime Cases.calendar Cases.trainer
           Scenario.registered (97 # 100) 3 3 [Scenario.v2; Scenario.v1]
           Scenario.length_layer Hst Hdir Hstamp eq_refl).
Defined.

(** X16.  [save_model] is not all-or-nothing.  When registry.json exists
    but is not JSON, the call raises the JSON decode error only after the
    weights, the label encoder and the tokenizer configuration of the new
    version have been written: those files are left on the disk, the
    registry file is untouched, and the predictor is as before. *)
Theorem save_on_unreadable_registry_leaves_artifacts :
  forall (C : Calendar) (self : Training.Trainer) (s : state) (acc : Q)
         (n_classes vocab : Z) (content : file),
    fs s !! ModelTrainer.registry_file (Training.registry_part self)
      = Some content ->
    unparsable content ->
    exists s1,
      Training.save_model self acc n_classes vocab s = (Raise JSONDecodeError, s1) /\
      predictor s1 = predictor s /\
      fs s1 !! ModelTrainer.registry_file (Training.registry_part self)
        = Some content /\
      fs s1 !! path_join (saved_dir self s) "model.keras"
        = Some (KerasFile (Training.trained_model self)) /\
      fs s1 !! path_join (saved_dir self s) "label_encoder.pkl"
        = Some (PickleFile (Training.fitted_encoder self)) /\
      fs s1 !! path_join (saved_dir self s) "vectorize_config.json"
        = Some (JsonFile (JVectorizeConfig (Training.saved_vectorize_config self))).
Proof.
  intros C self s acc n_classes vocab content Hfs Hbad.
  set (mid := {| predictor := predictor s; fs := saved_files self s;
                 clock := S (S (clock s)); trace := trace s |}).
  assert (Hmid : fs mid !! ModelTrainer.registry_file (Training.registry_part self)
                 = Some content).
  { subst mid. cbn [fs]. now rewrite saved_files_registry. }
  assert (Hup : ModelTrainer._update_model_registry (Training.registry_part self)
                  (saved_info self acc n_classes vocab s) mid
                = (Raise JSONDecodeError, mid)).
  { unfold ModelTrainer._update_model_registry. unfold bind at 1.
    rewrite path_exists_run, (exists_true _ _ _ Hmid).
    unfold bind at 1. unfold json_load. rewrite Hmid.
    destruct content; [destruct Hbad|..]; reflexivity. }
  exists mid. split.
  { rewrite save_model_run. fold mid. now rewrite Hup. }
  split; [reflexivity|]. split; [exact Hmid|].
  subst mid. cbn [fs]. apply saved_files_artifacts.
Qed.

Lemma save_on_unreadable_registry_leaves_artifacts_witness :
  fs Scenario.corrupt_registry
    !! ModelTrainer.registry_file (Training.registry_part Cases.trainer)
    = Some Garbage /\
  unparsable Garbage /\
  exists s1,
    Training.save_model (H := Cases.calendar) Cases.trainer (97 # 100) 3 3
      Scenario.corrupt_registry = (Raise JSONDecodeError, s1) /\
    predictor s1 = predictor Scenario.corrupt_registry /\
    fs s1 !! ModelTrainer.registry_file (Training.registry_part Cases.trainer)
      = Some Garbage /\
    fs s1 !! path_join (saved_dir (H := Cases.calendar) Cases.trainer
                          Scenario.corrupt_registry) "model.keras"
      = Some (KerasFile (Training.trained_model Cases.trainer)) /\
    fs s1 !! path_join (saved_dir (H := Cases.calendar) Cases.trainer
                          Scenario.corrupt_registry) "label_encoder.pkl"
      = Some (PickleFile (Training.fitted_encoder Cases.trainer)) /\
    fs s1 !! path_join (saved_dir (H := Cases.calendar) Cases.trainer
                          Scenario.corrupt_registry) "vectorize_config.json"
      = Some (JsonFile (JVectorizeConfig
                          (Training.saved_vectorize_config Cases.trainer))).
Proof.
  assert (Hfs : fs Scenario.corrupt_registry
                  !! ModelTrainer.registry_file (Training.registry_part Cases.trainer)
                = Some Garbage) by (vm_compute; reflexivity).
  split; [exact Hfs|]. split; [exact I|].
  exact (save_on_unreadable_registry_leaves_artifacts Cases.calendar Cases.trainer
           Scenario.corrupt_registry (97 # 100) 3 3 Garbage Hfs I).
Defined.

(** ** The trainer reads back the best model *)

Lemma trainer_selects_head :
  forall (self : ModelTrainer.ModelTrainer) (s : state) (r : Registry),
    fs s !! ModelTrainer.registry_file self = Some (JsonFile (JRegistry r)) ->
    ModelTrainer.load_best_model self s
    = (match models r with
       | [] => Raise ValueError
       | best :: _ => Ok best
       end, s).
Proof.
  intros self s r Hreg.
  unfold ModelTrainer.load_best_model, bind, path_exists, json_load, lift,
    json_models, ret, raise.
  rewrite Hreg. rewrite bool_decide_eq_true_2 by eauto. rewrite Hreg.
  now destruct (models r).
Qed.

Lemma trainer_choice_same_state :
  forall (self : ModelTrainer.ModelTrainer) (s : state),
    snd (ModelTrainer.load_best_model self s) = s.
Proof.
  intros self s.
  unfold ModelTrainer.load_best_model, bind, path_exists, json_load, lift,
    json_models, ret, raise.
  destruct (bool_decide (is_Some (fs s !! ModelTrainer.registry_file self)));
    [|reflexivity].
  destruct (fs s !! ModelTrainer.registry_file self) as [[[r| |]| | |]|];
    try reflexivity.
  now destruct (models r).
Qed.

Lemma trainer_reload_same_state :
  forall (self : Reload.Trainer) (s : state),
    snd (Reload.load_best_model self s) = s.
Proof.
  intros self s.
  unfold Reload.load_best_model.
  pose proof (trainer_choice_same_state (Reload.registry_part self) s) as Hs.
  destruct (ModelTrainer.load_best_model (Reload.registry_part self) s)
    as [[best|e] s1]; cbn [snd] in Hs; subst s1; [|reflexivity].
  unfold keras_load_model, pickle_load.
  destruct (fs s !! path_join (model_path best) "model.keras")
    as [[| m | |]|]; try reflexivity.
  destruct (fs s !! path_join (model_path best) "label_encoder.pkl")
    as [[| | le |]|]; reflexivity.
Qed.

(** X17.  Whenever the predictor can load the best model of a registry,
    the trainer that wrote it can read it back, and both hold the same
    model and the same label encoder.  (The stored path of the best entry
    has no backslash: the trainer, unlike the predictor, uses it as
    stored.)  The trainer's call changes neither the disk nor the
    predictor. *)
Theorem trainer_reloads_what_predictor_serves :
  forall (R : Runtime) (self : Reload.Trainer) (s : state),
    ModelTrainer.model_registry_path (Reload.registry_part self)
      = model_registry_path (predictor s) ->
    fst (ModelPredictor.load_best_model s) = Ok true ->
    (forall best, selected_best s = Some best -> posix_style (model_path best)) ->
    exists m le,
      Reload.load_best_model self s
        = (Ok m,
           {| Reload.registry_part := Reload.registry_part self;
              Reload.model := Some m;
              Reload.label_encoder := Some le |}, s) /\
      model (predictor (snd (ModelPredictor.load_best_model s))) = Some m /\
      label_encoder (predictor (snd (ModelPredictor.load_best_model s)))
        = Some le.
Proof.
  intros R self s Hpath Htrue Hposix.
  pose proof (load_best_model_cases s) as Hcases.
  destruct (selected_best s) as [best|] eqn:Hsel.
  - specialize (Hposix best eq_refl).
    destruct (load_model_from_info_spec best s)
      as (b & s' & Hrun & _ & _ & [[-> (m & le & c & layer & Hsteps & ->)]|[-> _]]).
    + exists m, le.
      rewrite Hcases, Hrun. cbn [snd installed predictor model label_encoder].
      split; [|split; reflexivity].
      destruct Hsteps as (Hw & He & _).
      unfold weights_file, encoder_file, artifact_dir in Hw, He.
      rewrite Hposix in Hw, He.
      unfold selected_best, ModelPredictor.registry_file in Hsel.
      destruct (fs s !! path_join (model_registry_path (predictor s)) "registry.json")
        as [[[r| |]| | |]|] eqn:Hreg; try discriminate.
      unfold Reload.load_best_model.
      rewrite (trainer_selects_head (Reload.registry_part self) s r)
        by (unfold ModelTrainer.registry_file; now rewrite Hpath).
      destruct (models r) as [|best' rest]; [discriminate|].
      cbn [head] in Hsel. injection Hsel as ->.
      unfold keras_load_model, pickle_load. now rewrite Hw, He.
    + rewrite Hcases, Hrun in Htrue. discriminate.
  - destruct Hcases as (msg & Hrun). rewrite Hrun in Htrue. discriminate.
Qed.

Lemma trainer_reloads_what_predictor_serves_witness :
  exists m le,
    Reload.load_best_model
      {| Reload.registry_part := Scenario.trainer;
         Reload.model := None; Reload.label_encoder := None |}
      Scenario.registered
      = (Ok m,
         {| Reload.registry_part := Scenario.trainer;
            Reload.model := Some m;
            Reload.label_encoder := Some le |}, Scenario.registered) /\
    model (predictor (snd (ModelPredictor.load_best_model (H := Scenario.runtime)
                             Scenario.registered))) = Some m /\
    label_encoder (predictor (snd (ModelPredictor.load_best_model
                                     (H := Scenario.runtime)
                                     Scenario.registered))) = Some le.
Proof.
  apply (trainer_reloads_what_predictor_serves Scenario.runtime
           {| Reload.registry_part := Scenario.trainer;
              Reload.model := None; Reload.label_encoder := None |}
           Scenario.registered).
  - reflexivity.
  - vm_compute. reflexivity.
  - intros best Hbest. vm_compute in Hbest. injection Hbest as <-.
    vm_compute. reflexivity.
Defined.

(** X18.  The trainer's [load_best_model] is not all-or-nothing either.
    When the weights of the best entry load but its label_encoder.pkl is
    missing or is not a pickle, the call raises with the trainer already
    holding the new model next to the label encoder it had before.  The
    disk, the log and the predictor are untouched. *)
Theorem trainer_failed_reload_keeps_new_model :
  forall (self : Reload.Trainer) (s : state) (r : Registry)
         (best : ModelInfo) (rest : list ModelInfo) (m : Model),
    fs s !! ModelTrainer.registry_file (Reload.registry_part self)
      = Some (JsonFile (JRegistry r)) ->
    models r = best :: rest ->
    fs s !! path_join (model_path best) "model.keras" = Some (KerasFile m) ->
    (forall le, fs s !! path_join (model_path best) "label_encoder.pkl"
                <> Some (PickleFile le)) ->
    exists e,
      Reload.load_best_model self s
        = (Raise e,
           {| Reload.registry_part := Reload.registry_part self;
              Reload.model := Some m;
              Reload.label_encoder := Reload.label_encoder self |}, s) /\
      (e = FileNotFoundError
             (NoSuchFile (path_join (model_path best) "label_encoder.pkl")) \/
       e = UnpicklingError).
Proof.
  intros self s r best rest m Hreg Hmodels Hw He.
  unfold Reload.load_best_model.
  rewrite (trainer_selects_head _ s r Hreg), Hmodels.
  unfold keras_load_model, pickle_load. rewrite Hw.
  destruct (fs s !! path_join (model_path best) "label_encoder.pkl")
    as [[j|m'|le|]|] eqn:Hfile.
  - exists UnpicklingError. split; [reflexivity|now right].
  - exists UnpicklingError. split; [reflexivity|now right].
  - now destruct (He le).
  - exists UnpicklingError. split; [reflexivity|now right].
  - eexists. split; [reflexivity|now left].
Qed.

Lemma trainer_failed_reload_keeps_new_model_witness :
  exists e,
    Reload.load_best_model
      {| Reload.registry_part := Scenario.trainer;
         Reload.model := Some Scenario.model_v1;
         Reload.label_encoder := Some {| classes_ := Scenario.labels_v1 |} |}
      Scenario.v2_encoder_lost
      = (Raise e,
         {| Reload.registry_part := Scenario.trainer;
            Reload.model := Some Scenario.model_v2;
            Reload.label_encoder := Some {| classes_ := Scenario.labels_v1 |} |},
         Scenario.v2_encoder_lost) /\
    (e = FileNotFoundError
           (NoSuchFile (path_join (model_path Scenario.v2) "label_encoder.pkl")) \/
     e = UnpicklingError).
Proof.
  apply (trainer_failed_reload_keeps_new_model
           {| Reload.registry_part := Scenario.trainer;
              Reload.model := Some Scenario.model_v1;
              Reload.label_encoder := Some {| classes_ := Scenario.labels_v1 |} |}
           Scenario.v2_encoder_lost
           {| models := [Scenario.v2; Scenario.v1]; latest := Some "v2" |}
           Scenario.v2 [Scenario.v1] Scenario.model_v2).
  - vm_compute. reflexivity.
  - reflexivity.
  - vm_compute. reflexivity.
  - intros le Hle. vm_compute in Hle. discriminate.
Defined.

(** * The data loader *)

(** ** Runs of the registry operations *)

Lemma register_data_run :
  forall (C : Calendar) (self : Data.DataVersionControl) (w : Data.world)
         (d : gmap string Data.Entry) (name v : string) (m : Data.Metadata),
    stored_entries self w = Some d ->
    Data.register_data self name v m w
    = (Ok tt,
       {| Data.disk :=
            <[Data.registry_file self :=
                Data.Entries
                  (<[name := {| Data.version := v;
                                Data.timestamp := isoformat (Data.clock w);
                                Data.metadata := m |}]> d)]> (Data.disk w);
          Data.clock := S (Data.clock w);
          Data.log := Data.log w ++ [Data.InfoRegistered name v] |}).
Proof.
  intros C self w d name v m Hd.
  unfold stored_entries in Hd.
  unfold Data.register_data, Data._load_registry, Data.dbind, Data.file_exists,
    Data.load_json, Data.dret, Data.now_isoformat, Data.dlift, Data.setitem,
    Data.dump_json, Data.logger.
  destruct (Data.disk w !! Data.registry_file self) as [[d0| |]|] eqn:Hfile;
    try discriminate.
  - injection Hd as ->.
    rewrite bool_decide_eq_true_2 by eauto. rewrite Hfile. reflexivity.
  - injection Hd as <-.
    rewrite bool_decide_eq_false_2 by (intros [x Hx]; discriminate).
    reflexivity.
Qed.

Lemma register_data_not_json :
  forall (C : Calendar) (self : Data.DataVersionControl) (w : Data.world)
         (name v : string) (m : Data.Metadata),
    Data.disk w !! Data.registry_file self = Some Data.NotJson ->
    Data.register_data self name v m w = (Raise JSONDecodeError, w).
Proof.
  intros C self w name v m Hfile.
  unfold Data.register_data, Data._load_registry, Data.dbind, Data.file_exists,
    Data.load_json.
  rewrite bool_decide_eq_true_2 by (rewrite Hfile; eauto).
  now rewrite Hfile.
Qed.

Lemma stored_entries_after_write :
  forall (self : Data.DataVersionControl) (dk : gmap string Data.content)
         (d : gmap string Data.Entry) (c : nat) (l : list Data.record),
    stored_entries self
      {| Data.disk := <[Data.registry_file self := Data.Entries d]> dk;
         Data.clock := c; Data.log := l |} = Some d.
Proof.
  intros. unfold stored_entries. cbn [Data.disk].
  now rewrite lookup_insert_eq.
Qed.

(** X19.  The data registry keeps one entry per source name, the latest.
    On a registry that is absent or readable, [register_data] stores the
    entry under the name of the source and leaves every other entry and
    every other file as it was; registering the same name again replaces
    the entry, so nothing of the earlier version is left. *)
Theorem data_registry_keeps_latest_only :
  forall (C : Calendar) (self : Data.DataVersionControl) (w : Data.world)
         (d : gmap string Data.Entry) (name v1 v2 : string)
         (m1 m2 : Data.Metadata),
    stored_entries self w = Some d ->
    let w1 := snd (Data.register_data self name v1 m1 w) in
    let w2 := snd (Data.register_data self name v2 m2 w1) in
    fst (Data.register_data self name v1 m1 w) = Ok tt /\
    stored_entries self w1
      = Some (<[name := {| Data.version := v1;
                           Data.timestamp := isoformat (Data.clock w);
                           Data.metadata := m1 |}]> d) /\
    fst (Data.register_data self name v2 m2 w1) = Ok tt /\
    stored_entries self w2
      = Some (<[name := {| Data.version := v2;
                           Data.timestamp := isoformat (S (Data.clock w));
                           Data.metadata := m2 |}]> d) /\
    (forall p, p <> Data.registry_file self ->
       Data.disk w2 !! p = Data.disk w !! p).
Proof.
  intros C self w d name v1 v2 m1 m2 Hd w1 w2.
  pose proof (register_data_run C self w d name v1 m1 Hd) as Hrun1.
  assert (Hd1 : stored_entries self w1
                = Some (<[name := {| Data.version := v1;
                                     Data.timestamp := isoformat (Data.clock w);
                                     Data.metadata := m1 |}]> d)).
  { subst w1. rewrite Hrun1. cbn [snd]. apply stored_entries_after_write. }
  pose proof (register_data_run C self w1 _ name v2 m2 Hd1) as Hrun2.
  assert (Hclock : Data.clock w1 = S (Data.clock w)).
  { subst w1. now rewrite Hrun1. }
  assert (Hd2 : stored_entries self w2
                = Some (<[name := {| Data.version := v2;
                                     Data.timestamp := isoformat (S (Data.clock w));
                                     Data.metadata := m2 |}]> d)).
  { subst w2. rewrite Hrun2. cbn [snd]. rewrite stored_entries_after_write.
    now rewrite insert_insert_eq, Hclock. }
  repeat match goal with |- _ /\ _ => split end.
  - now rewrite Hrun1.
  - exact Hd1.
  - now rewrite Hrun2.
  - exact Hd2.
  - intros p Hp. subst w2. rewrite Hrun2. cbn [snd Data.disk].
    rewrite lookup_insert_ne by congruence.
    subst w1. rewrite Hrun1. cbn [snd Data.disk].
    now rewrite lookup_insert_ne by congruence.
Qed.

Lemma data_registry_keeps_latest_only_witness :
  stored_entries Data.DataVersionControl_default
    (snd (Data.register_data (H := Cases.calendar)
            Data.DataVersionControl_default "training_data" "1.1.0"
            DataCases.train_metadata
            (snd (Data.register_data (H := Cases.calendar)
                    Data.DataVersionControl_default "training_data" "1.0.0"
                    DataCases.train_metadata DataCases.empty_world))))
  = Some (<["training_data" :=
              {| Data.version := "1.1.0";
                 Data.timestamp := isoformat (Calendar := Cases.calendar) 1;
                 Data.metadata := DataCases.train_metadata |}]> ∅).
Proof.
  exact (proj1 (proj2 (proj2 (proj2
    (data_registry_keeps_latest_only Cases.calendar
       Data.DataVersionControl_default DataCases.empty_world
       ∅ "training_data" "1.0.0" "1.1.0"
       DataCases.train_metadata DataCases.train_metadata eq_refl))))).
Defined.

(** ** Making a data source of a configuration *)

Lemma lower_ascii_idempotent :
  forall c : ascii, Data.lower_ascii (Data.lower_ascii c) = Data.lower_ascii c.
Proof.
  intros [[] [] [] [] [] [] [] []]; reflexivity.
Qed.

Lemma lower_idempotent :
  forall s : string, Data.lower (Data.lower s) = Data.lower s.
Proof.
  induction s as [|c s IH]; [reflexivity|].
  cbn [Data.lower]. now rewrite lower_ascii_idempotent, IH.
Qed.

(** X20.  [_create_data_source] reads the 'type' of a configuration
    without regard to letter case and to nothing else of it: a
    configuration without 'type' raises KeyError('type'); a type that is
    not csv, json, database or api in lower case raises ValueError; a
    supported type raises KeyError for the first key it needs and does not
    find (path; path; connection_string then query; url); otherwise a data
    source is made.  Two spellings of the type that agree in lower case
    give the same result. *)
Theorem source_type_is_case_insensitive :
  forall cfg : Data.SourceConfig,
    match Data.items cfg !! "type" with
    | None => Data._create_data_source cfg = Raise (KeyError "type")
    | Some t =>
        (forall t', Data.lower t' = Data.lower t ->
           Data._create_data_source (with_type cfg t')
           = Data._create_data_source cfg) /\
        match required_keys (Data.lower t) with
        | None => Data._create_data_source cfg = Raise ValueError
        | Some keys =>
            match List.find
                    (fun k => negb (bool_decide (is_Some (Data.items cfg !! k))))
                    keys with
            | Some k => Data._create_data_source cfg = Raise (KeyError k)
            | None => exists src, Data._create_data_source cfg = Ok src
            end
        end
    end.
Proof.
  intros cfg.
  destruct (Data.items cfg !! "type") as [t|] eqn:Ht.
  - split.
    + intros t' Hlower.
      unfold Data._create_data_source, Data.getitem, with_type.
      cbn [Data.items Data.headers].
      rewrite lookup_insert_eq, Ht, Hlower.
      repeat rewrite lookup_insert_ne by discriminate.
      reflexivity.
    + unfold Data._create_data_source, required_keys, Data.getitem.
      rewrite Ht.
      destruct (String.eqb (Data.lower t) "csv"); [|
      destruct (String.eqb (Data.lower t) "json"); [|
      destruct (String.eqb (Data.lower t) "database"); [|
      destruct (String.eqb (Data.lower t) "api"); [|reflexivity]]]];
        cbn [List.find];
        repeat match goal with
        | |- context [Data.items cfg !! ?k] =>
            destruct (Data.items cfg !! k) eqn:?
        end;
        rewrite ?bool_decide_eq_true_2 by eauto;
        rewrite ?bool_decide_eq_false_2 by (intros [? ?]; discriminate);
        cbn [negb List.find]; eauto.
  - unfold Data._create_data_source, Data.getitem. now rewrite Ht.
Qed.

(** A data source is made only of a configuration that has a 'type'. *)
Lemma create_data_source_has_type :
  forall (cfg : Data.SourceConfig) (src : Data.DataSource),
    Data._create_data_source cfg = Ok src ->
    exists t, Data.items cfg !! "type" = Some t.
Proof.
  intros cfg src Hsrc.
  unfold Data._create_data_source, Data.getitem in Hsrc.
  destruct (Data.items cfg !! "type") as [t|]; [eauto|discriminate].
Qed.

(** ** The loop of [load_data] *)

Lemma load_tagged_run :
  forall (S0 : Data.Sources) (C : Calendar) (cfg : Data.SourceConfig)
         (w : Data.world),
    Data.load_tagged cfg w
    = match Data._create_data_source cfg with
      | Raise e => (Raise e, w)
      | Ok src =>
          match Data.read src with
          | Ok df => (Ok (Data.tagged cfg df (isoformat (Data.clock w))),
                      loaded_world src df w)
          | Raise e =>
              (Raise e,
               {| Data.disk := Data.disk w; Data.clock := Data.clock w;
                  Data.log := Data.log w ++ [Data.ErrorSourceLoad src e] |})
          end
      end.
Proof.
  intros S0 C cfg w.
  unfold Data.load_tagged, Data.dbind, Data.dlift, Data.load.
  destruct (Data._create_data_source cfg) as [src|e]; [|reflexivity].
  destruct (Data.read src) as [df|e]; reflexivity.
Qed.

(** One round of the loop on a source that cannot be made or read: it is
    logged and skipped; the disk and the clock are as before. *)
Lemma load_sources_skip :
  forall (S0 : Data.Sources) (C : Calendar) (vc : Data.DataVersionControl)
         (cfg : Data.SourceConfig) (rest : list Data.SourceConfig)
         (acc : list Data.DataFrame) (w : Data.world),
    readable cfg = None ->
    exists w1,
      Data.load_sources vc (cfg :: rest) acc w = Data.load_sources vc rest acc w1 /\
      Data.disk w1 = Data.disk w /\
      Data.clock w1 = Data.clock w /\
      exists l, Data.log w1 = Data.log w ++ l.
Proof.
  intros S0 C vc cfg rest acc w Hnone.
  unfold readable in Hnone.
  cbn [Data.load_sources].
  unfold Data.dbind at 1. unfold Data.caught at 1.
  rewrite load_tagged_run.
  destruct (Data._create_data_source cfg) as [src|e].
  - destruct (Data.read src) as [df|e]; [discriminate|].
    cbn [fst snd]. unfold Data.dbind at 1. unfold Data.logger at 1.
    eexists. split; [reflexivity|]. cbn [Data.disk Data.clock Data.log].
    repeat split. eexists. now rewrite <- app_assoc.
  - cbn [fst snd]. unfold Data.dbind at 1. unfold Data.logger at 1.
    eexists. split; [reflexivity|]. cbn [Data.disk Data.clock Data.log].
    repeat split. now eexists.
Qed.

(** One round of the loop on a source that is read: its table is in the
    list whatever the registration does. *)
Lemma load_sources_take :
  forall (S0 : Data.Sources) (C : Calendar) (vc : Data.DataVersionControl)
         (cfg : Data.SourceConfig) (rest : list Data.SourceConfig)
         (acc : list Data.DataFrame) (w : Data.world)
         (src : Data.DataSource) (df : Data.DataFrame),
    Data._create_data_source cfg = Ok src ->
    Data.read src = Ok df ->
    Data.load_sources vc (cfg :: rest) acc w
    = match Data.register_loaded vc cfg
              (Data.tagged cfg df (isoformat (Data.clock w)))
              (loaded_world src df w) with
      | (Ok _, w2) =>
          Data.load_sources vc rest
            (acc ++ [Data.tagged cfg df (isoformat (Data.clock w))]) w2
      | (Raise e, w2) =>
          Data.load_sources vc rest
            (acc ++ [Data.tagged cfg df (isoformat (Data.clock w))])
            (skipped_world cfg e w2)
      end.
Proof.
  intros S0 C vc cfg rest acc w src df Hsrc Hdf.
  cbn [Data.load_sources].
  unfold Data.dbind at 1. unfold Data.caught at 1.
  rewrite load_tagged_run, Hsrc, Hdf. cbn [fst snd].
  unfold Data.dbind at 1. unfold Data.caught at 1.
  destruct (Data.register_loaded vc cfg
              (Data.tagged cfg df (isoformat (Data.clock w)))
              (loaded_world src df w)) as [[u|e] w2]; cbn [fst snd];
    reflexivity.
Qed.

Lemma readable_some :
  forall (S0 : Data.Sources) (cfg : Data.SourceConfig) (df : Data.DataFrame),
    readable cfg = Some df ->
    exists src, Data._create_data_source cfg = Ok src /\ Data.read src = Ok df.
Proof.
  intros S0 cfg df H. unfold readable in H.
  destruct (Data._create_data_source cfg) as [src|]; [|discriminate].
  destruct (Data.read src) as [df'|] eqn:Hread; [|discriminate].
  injection H as ->. eauto.
Qed.

Lemma readable_sources_cons :
  forall (S0 : Data.Sources) (cfg : Data.SourceConfig)
         (rest : list Data.SourceConfig),
    readable_sources (cfg :: rest)
    = match readable cfg with
      | Some df => (cfg, df) :: readable_sources rest
      | None => readable_sources rest
      end.
Proof.
  intros. unfold readable_sources. cbn [omap list_omap].
  now destruct (readable cfg).
Qed.

Lemma load_sources_frames :
  forall (S0 : Data.Sources) (C : Calendar) (vc : Data.DataVersionControl)
         (sources : list Data.SourceConfig) (acc : list Data.DataFrame)
         (w : Data.world),
    exists frames w',
      Data.load_sources vc sources acc w = (Ok (acc ++ frames), w') /\
      Forall2 tagged_from (readable_sources sources) frames.
Proof.
  intros S0 C vc sources.
  induction sources as [|cfg rest IH]; intros acc w.
  - exists [], w. split; [now rewrite app_nil_r|constructor].
  - rewrite readable_sources_cons.
    destruct (readable cfg) as [df|] eqn:Hread.
    + destruct (readable_some _ _ _ Hread) as (src & Hsrc & Hdf).
      rewrite (load_sources_take _ _ vc cfg rest acc w src df Hsrc Hdf).
      destruct (Data.register_loaded vc cfg _ (loaded_world src df w))
        as [[u|e] w2].
      * destruct (IH (acc ++ [Data.tagged cfg df (isoformat (Data.clock w))]) w2)
          as (frames & w' & Hrun & Hall).
        exists (Data.tagged cfg df (isoformat (Data.clock w)) :: frames), w'.
        split; [now rewrite Hrun, <- app_assoc|].
        constructor; [now eexists|exact Hall].
      * destruct (IH (acc ++ [Data.tagged cfg df (isoformat (Data.clock w))])
                     (skipped_world cfg e w2))
          as (frames & w' & Hrun & Hall).
        exists (Data.tagged cfg df (isoformat (Data.clock w)) :: frames), w'.
        split; [now rewrite Hrun, <- app_assoc|].
        constructor; [now eexists|exact Hall].
    + destruct (load_sources_skip _ _ vc cfg rest acc w Hread)
        as (w1 & -> & _).
      apply IH.
Qed.

(** X21.  [load_data] is as good as its sources, whatever the state of
    the data registry.  A source that cannot be made or read is skipped;
    every source that is read contributes its table with the three
    metadata columns set, in the order of the sources.  With no such
    source the call raises ValueError, with one it returns that table, and
    with more it returns what [pd.concat] makes of the tables (or raises
    what [pd.concat] raises). *)
Theorem load_data_is_as_good_as_its_sources :
  forall (S0 : Data.Sources) (C : Calendar) (sources : list Data.SourceConfig)
         (w : Data.world),
    exists frames,
      Forall2 tagged_from (readable_sources sources) frames /\
      fst (Data.load_data sources w)
      = match frames with
        | [] => Raise ValueError
        | [df] => Ok df
        | _ => Data.pd_concat frames
        end.
Proof.
  intros S0 C sources w.
  destruct (load_sources_frames S0 C Data.DataVersionControl_default sources [] w)
    as (frames & w' & Hrun & Hall).
  exists frames. split; [exact Hall|].
  unfold Data.load_data. unfold Data.dbind at 1. rewrite Hrun. cbn [app].
  destruct frames as [|df [|df2 rest]].
  - reflexivity.
  - reflexivity.
  - unfold Data.dbind, Data.dlift, Data.logger, Data.dret.
    now destruct (Data.pd_concat (df :: df2 :: rest)).
Qed.


(** What [load_data] does after its loop changes the log only. *)
Lemma load_data_world :
  forall (S0 : Data.Sources) (C : Calendar) (sources : list Data.SourceConfig)
         (w : Data.world) (frames : list Data.DataFrame) (w' : Data.world),
    Data.load_sources Data.DataVersionControl_default sources [] w
      = (Ok frames, w') ->
    Data.disk (snd (Data.load_data sources w)) = Data.disk w' /\
    exists l, Data.log (snd (Data.load_data sources w)) = Data.log w' ++ l.
Proof.
  intros S0 C sources w frames w' Hrun.
  unfold Data.load_data, Data.dbind, Data.dlift, Data.logger, Data.dret,
    Data.draise.
  rewrite Hrun.
  destruct frames as [|df [|df2 rest]].
  - cbn [snd Data.disk Data.log]. split; [reflexivity|].
    exists []. now rewrite app_nil_r.
  - cbn [snd Data.disk Data.log]. split; [reflexivity|]. now eexists.
  - destruct (Data.pd_concat (df :: df2 :: rest));
      cbn [snd Data.disk Data.log].
    + split; [reflexivity|]. now eexists.
    + split; [reflexivity|]. exists []. now rewrite app_nil_r.
Qed.

Lemma metadata_of_ok :
  forall (cfg : Data.SourceConfig) (src : Data.DataSource) (df : Data.DataFrame),
    Data._create_data_source cfg = Ok src ->
    exists md, Data.metadata_of cfg df = Ok md.
Proof.
  intros cfg src df Hsrc.
  destruct (create_data_source_has_type cfg src Hsrc) as [t Ht].
  unfold Data.metadata_of, Data.getitem. rewrite Ht. eauto.
Qed.

Lemma register_loaded_not_json :
  forall (C : Calendar) (vc : Data.DataVersionControl) (cfg : Data.SourceConfig)
         (src : Data.DataSource) (df : Data.DataFrame) (w : Data.world),
    Data._create_data_source cfg = Ok src ->
    Data.disk w !! Data.registry_file vc = Some Data.NotJson ->
    Data.register_loaded vc cfg df w = (Raise JSONDecodeError, w).
Proof.
  intros C vc cfg src df w Hsrc Hfile.
  destruct (metadata_of_ok cfg src df Hsrc) as [md Hmd].
  unfold Data.register_loaded, Data.dbind at 1, Data.dlift.
  rewrite Hmd. now apply register_data_not_json.
Qed.


Lemma load_sources_not_json :
  forall (S0 : Data.Sources) (C : Calendar) (vc : Data.DataVersionControl)
         (sources : list Data.SourceConfig) (acc : list Data.DataFrame)
         (w : Data.world),
    Data.disk w !! Data.registry_file vc = Some Data.NotJson ->
    exists frames w' l,
      Data.load_sources vc sources acc w = (Ok frames, w') /\
      Data.disk w' = Data.disk w /\
      Data.log w' = Data.log w ++ l /\
      forall cfg df,
        In (cfg, df) (readable_sources sources) ->
        In (Data.ErrorSourceSkipped cfg JSONDecodeError) l.
Proof.
  intros S0 C vc sources.
  induction sources as [|cfg rest IH]; intros acc w Hfile.
  - exists acc, w, []. repeat split; [now rewrite app_nil_r|intros ? ? []].
  - rewrite readable_sources_cons.
    destruct (readable cfg) as [df|] eqn:Hread.
    + destruct (readable_some _ _ _ Hread) as (src & Hsrc & Hdf).
      rewrite (load_sources_take _ _ vc cfg rest acc w src df Hsrc Hdf).
      rewrite (register_loaded_not_json C vc cfg src _ (loaded_world src df w) Hsrc)
        by exact Hfile.
      destruct (IH (acc ++ [Data.tagged cfg df (isoformat (Data.clock w))])
                   (skipped_world cfg JSONDecodeError (loaded_world src df w)))
        as (frames & w' & l & Hrun & Hdisk & Hlog & Hall); [exact Hfile|].
      exists frames, w'. eexists. split; [exact Hrun|].
      split; [exact Hdisk|].
      split.
      * rewrite Hlog. cbn [skipped_world loaded_world Data.log].
        rewrite <- !app_assoc. reflexivity.
      * intros cfg' df' [Heq|Hin].
        -- injection Heq as <- <-. apply in_or_app. right. now left.
        -- apply in_or_app. right. right. simpl. now apply (Hall cfg' df').
    + destruct (load_sources_skip _ _ vc cfg rest acc w Hread)
        as (w1 & -> & Hdisk1 & _ & l1 & Hlog1).
      destruct (IH acc w1) as (frames & w' & l & Hrun & Hdisk & Hlog & Hall).
      { now rewrite Hdisk1. }
      exists frames, w', (l1 ++ l). split; [exact Hrun|].
      split; [congruence|]. split.
      * now rewrite Hlog, Hlog1, <- app_assoc.
      * intros cfg' df' Hin. apply in_or_app. right. now apply (Hall cfg' df').
Qed.

(** X22.  A data registry that is not JSON does not stop [load_data] and
    is not repaired by it: the registry file is left as it is, every
    source that is read is logged as a failed source with the JSON decode
    error, and its table is in the result all the same; with one such
    source the call returns its table. *)
Theorem unreadable_data_registry_does_not_stop_loading :
  forall (S0 : Data.Sources) (C : Calendar) (sources : list Data.SourceConfig)
         (w : Data.world),
    Data.disk w !! Data.registry_file Data.DataVersionControl_default
      = Some Data.NotJson ->
    Data.disk (snd (Data.load_data sources w)) = Data.disk w /\
    (forall cfg df,
       In (cfg, df) (readable_sources sources) ->
       In (Data.ErrorSourceSkipped cfg JSONDecodeError)
          (Data.log (snd (Data.load_data sources w)))) /\
    (forall cfg df,
       readable_sources sources = [(cfg, df)] ->
       exists load_timestamp,
         fst (Data.load_data sources w)
         = Ok (Data.tagged cfg df load_timestamp)).
Proof.
  intros S0 C sources w Hfile.
  destruct (load_sources_not_json S0 C Data.DataVersionControl_default
              sources [] w Hfile)
    as (frames & w' & l & Hrun & Hdisk & Hlog & Hall).
  destruct (load_data_world S0 C sources w frames w' Hrun) as (Hd & l2 & Hl).
  split; [congruence|]. split.
  - intros cfg df Hin. rewrite Hl, Hlog.
    apply in_or_app. left. apply in_or_app. right. now apply (Hall cfg df).
  - intros cfg df Hone.
    destruct (load_sources_frames S0 C Data.DataVersionControl_default
                sources [] w)
      as (frames' & w2 & Hrun' & Hall').
    rewrite Hrun in Hrun'. cbn [app] in Hrun'. injection Hrun' as -> ->.
    rewrite Hone in Hall'.
    inversion Hall' as [|? ? ? ? [t Ht] Hrest]; subst.
    inversion Hrest; subst.
    exists t. unfold Data.load_data, Data.dbind. now rewrite Hrun.
Qed.

Lemma unreadable_data_registry_does_not_stop_loading_witness :
  Data.disk (snd (Data.load_data (H := DataCases.sources) (H0 := Cases.calendar)
                    [DataCases.labels; DataCases.training_data]
                    DataCases.corrupt_world))
  = Data.disk DataCases.corrupt_world /\
  In (Data.ErrorSourceSkipped DataCases.training_data JSONDecodeError)
     (Data.log (snd (Data.load_data (H := DataCases.sources)
                       (H0 := Cases.calendar)
                       [DataCases.labels; DataCases.training_data]
                       DataCases.corrupt_world))) /\
  exists load_timestamp,
    fst (Data.load_data (H := DataCases.sources) (H0 := Cases.calendar)
           [DataCases.labels; DataCases.training_data] DataCases.corrupt_world)
    = Ok (Data.tagged DataCases.training_data DataCases.train_table
            load_timestamp).
Proof.
  destruct (unreadable_data_registry_does_not_stop_loading
              DataCases.sources Cases.calendar
              [DataCases.labels; DataCases.training_data]
              DataCases.corrupt_world)
    as (Hdisk & Hlog & Hone).
  - vm_compute. reflexivity.
  - split; [exact Hdisk|]. split.
    + apply (Hlog DataCases.training_data DataCases.train_table).
      vm_compute. left. reflexivity.
    + apply (Hone DataCases.training_data DataCases.train_table).
      vm_compute. reflexivity.
Defined.





(** ** The metadata columns *)

Lemma columns_set_column :
  forall (df : Data.DataFrame) (c v : string),
    Data.columns (Data.set_column df c v)
    = if existsb (String.eqb c) (Data.columns df) then Data.columns df
      else Data.columns df ++ [c].
Proof.
  intros df c v. unfold Data.set_column, Data.columns at 1. cbn [Data.data].
  destruct (existsb (String.eqb c) (Data.columns df)).
  - unfold Data.columns. rewrite List.map_map. apply List.map_ext.
    intros col. now destruct (String.eqb _ c).
  - unfold Data.columns. now rewrite List.map_app.
Qed.

Lemma data_set_column :
  forall (df : Data.DataFrame) (c v label : string) (col : list Data.cell),
    In (label, col) (Data.data (Data.set_column df c v)) ->
    (label = c /\ col = repeat (Some v) (Data.index_length df)) \/
    (label <> c /\ In (label, col) (Data.data df)).
Proof.
  intros df c v label col. unfold Data.set_column. cbn [Data.data].
  destruct (existsb (String.eqb c) (Data.columns df)) eqn:Hex.
  - intros Hin. apply List.in_map_iff in Hin. destruct Hin as (x & Hx & Hin).
    destruct (String.eqb _ c) eqn:Heq in Hx.
    + apply String.eqb_eq in Heq. injection Hx as <- <-. now left.
    + apply String.eqb_neq in Heq. subst x. right. now split.
  - intros Hin. apply in_app_or in Hin.
    destruct Hin as [Hin|[Heq|[]]].
    + right. split; [|exact Hin].
      intros ->.
      assert (Hex' : existsb (String.eqb c) (Data.columns df) = true).
      { apply List.existsb_exists. exists c. split.
        - unfold Data.columns. apply List.in_map_iff. now exists (c, col).
        - apply String.eqb_refl. }
      congruence.
    + injection Heq as <- <-. now left.
Qed.

Lemma existsb_app_one :
  forall (c x : string) (l : list string),
    existsb (String.eqb c) (l ++ [x]) = existsb (String.eqb c) l || String.eqb c x.
Proof.
  intros c x l. rewrite List.existsb_app. cbn [existsb].
  now rewrite orb_false_r.
Qed.

(** X24.  Setting the metadata columns keeps the rows and the labels of a
    loaded table, adds of data_source, data_version and load_timestamp the
    labels it does not have, in that order, and overwrites the ones it
    has: afterwards every column of one of the three labels holds the name
    of the source, the version, or the time of loading in every row, and
    every other column is a column of the table as it was read. *)
Theorem metadata_columns_overwrite :
  forall (cfg : Data.SourceConfig) (df : Data.DataFrame) (load_timestamp : string),
    let df' := Data.tagged cfg df load_timestamp in
    Data.index_length df' = Data.index_length df /\
    Data.columns df'
      = Data.columns df
        ++ List.filter (fun l => negb (existsb (String.eqb l) (Data.columns df)))
                       metadata_labels /\
    forall (label : string) (col : list Data.cell),
      In (label, col) (Data.data df') ->
      (label = "data_source" /\
       col = repeat (Some (Data.name_of cfg)) (Data.index_length df)) \/
      (label = "data_version" /\
       col = repeat (Some (Data.version_of cfg)) (Data.index_length df)) \/
      (label = "load_timestamp" /\
       col = repeat (Some load_timestamp) (Data.index_length df)) \/
      (~ In label metadata_labels /\ In (label, col) (Data.data df)).
Proof.
  intros cfg df t df'. subst df'. unfold Data.tagged.
  split; [reflexivity|]. split.
  - assert (E21 : String.eqb "data_version" "data_source" = false) by reflexivity.
    assert (E31 : String.eqb "load_timestamp" "data_source" = false) by reflexivity.
    assert (E32 : String.eqb "load_timestamp" "data_version" = false) by reflexivity.
    rewrite !columns_set_column.
    unfold metadata_labels. cbn [List.filter].
    destruct (existsb (String.eqb "data_source") (Data.columns df)) eqn:H1;
      rewrite ?existsb_app_one, ?E21, ?orb_false_r;
      destruct (existsb (String.eqb "data_version") (Data.columns df)) eqn:H2;
      rewrite ?existsb_app_one, ?E31, ?E32, ?orb_false_r;
      destruct (existsb (String.eqb "load_timestamp") (Data.columns df)) eqn:H3;
      cbn [negb]; rewrite <- ?app_assoc; cbn [app]; rewrite ?app_nil_r;
      reflexivity.
  - intros label col Hin.
    apply data_set_column in Hin. cbn [Data.index_length Data.set_column] in Hin.
    destruct Hin as [[-> ->]|[Hne3 Hin]]; [now right; right; left|].
    apply data_set_column in Hin. cbn [Data.index_length Data.set_column] in Hin.
    destruct Hin as [[-> ->]|[Hne2 Hin]]; [now right; left|].
    apply data_set_column in Hin.
    destruct Hin as [[-> ->]|[Hne1 Hin]]; [now left|].
    right. right. right. split; [|exact Hin].
    unfold metadata_labels. intros [<-|[<-|[<-|[]]]]; congruence.
Qed.

(** ** [validate_data] *)

(** X25.  [validate_data] never raises and answers by the labels and the
    length only: it returns [True] exactly when every required column is
    among the labels of the table and the table has at least one row.
    Nulls never make it fail, at any rate: they only add a warning before
    the closing record.  The disk and the clock are untouched, and a
    refusal is logged as missing columns or as empty data. *)
Theorem validate_data_verdict :
  forall (df : Data.DataFrame) (required_columns : list string) (w : Data.world),
    exists (b : bool) (l : list Data.record),
      Data.validate_data df required_columns w
      = (Ok b, {| Data.disk := Data.disk w; Data.clock := Data.clock w;
                  Data.log := Data.log w ++ l |}) /\
      (b = true <->
       (forall c, In c required_columns -> In c (Data.columns df)) /\
       Data.index_length df <> 0%nat) /\
      (b = true -> last l = Some Data.InfoValidated) /\
      (b = false ->
       (exists missing, l = [Data.ErrorMissingColumns missing]) \/
       l = [Data.ErrorEmpty]).
Proof.
  intros df required w.
  unfold Data.validate_data.
  case_bool_decide as Hmissing.
  - exists false. eexists. split; [reflexivity|].
    split; [|split; [discriminate|intros _; left; eauto]].
    split; [discriminate|].
    intros [Hall _]. exfalso. apply Hmissing.
    apply set_eq. intros c. split; [|set_solver].
    intros Hc. apply elem_of_difference in Hc. destruct Hc as [Hreq Hnot].
    exfalso. apply Hnot. apply elem_of_list_to_set.
    apply list_elem_of_In. apply Hall. apply list_elem_of_In.
    now apply elem_of_list_to_set in Hreq.
  - assert (Hall : forall c, In c required -> In c (Data.columns df)).
    { intros c Hc.
      destruct (decide (c ∈ Data.columns df)) as [Hin|Hnot];
        [now apply list_elem_of_In|].
      exfalso.
      assert (Hd : c ∈ (list_to_set required ∖ list_to_set (Data.columns df)
                        : gset string)).
      { apply elem_of_difference. split.
        - apply elem_of_list_to_set. now apply list_elem_of_In.
        - intros Hx. apply Hnot. now apply elem_of_list_to_set in Hx. }
      rewrite Hmissing in Hd. set_solver. }
    destruct (Data.index_length df =? 0)%nat eqn:Hlen.
    + apply Nat.eqb_eq in Hlen.
      exists false. eexists. split; [reflexivity|].
      split; [|split; [discriminate|intros _; now right]].
      split; [discriminate|]. intros [_ Hne]. congruence.
    + apply Nat.eqb_neq in Hlen.
      exists true.
      destruct (Data.high_null_columns df required) as [|nc high].
      * exists [Data.InfoValidated]. split; [reflexivity|].
        split; [|split; [reflexivity|discriminate]].
        split; [intros _; now split|reflexivity].
      * exists [Data.WarningHighNull (Data.to_dict (nc :: high));
                Data.InfoValidated].
        split.
        -- unfold Data.dbind, Data.logger, Data.dret.
           cbn [Data.disk Data.clock Data.log].
           now rewrite <- app_assoc.
        -- split; [|split; [reflexivity|discriminate]].
           split; [intros _; now split|reflexivity].
Qed.
